(** * Evaluation orchestration engine: a shallow embedding of
      [evaluator/src/profile_and_evaluate.py]

    The development follows the five components of the evaluator: the
    dataset loader, the profiling client, the scoring engine, the type
    lifecycle manager and the per-column outcome tables of the comparative
    orchestrator.  Part I embeds the Python code, Part II states and proves
    its properties.

    Modelling conventions.
    - A Python [int] is a [Z]; a Python [float] is a binary64 primitive
      float, so that [*], [/] and [round] compute as they do in CPython.
    - A Python [str] is the [string] of its UTF-8 bytes.  [strip] removes
      the white space of Unicode.  [lower] maps the ASCII letters: the
      code compares its result with ASCII words only ("nan", "string",
      "true", ...), none of which another character lowers into.
      [str.upper], [str.isdigit], [int] on a string and [re.search] are
      Python's own and are parameters of the sections that call them.
    - A Python [dict] whose iteration order is observed is an association
      list with an in-place [dict_set]; a dict that is only read with
      [.get] or written by key is a [gmap].
    - A raised exception is the [Raise] branch of [result]; code that
      mutates the evaluator or talks to the registry runs in a small state
      and error monad. *)

From Stdlib Require Import ZArith Floats String Ascii.
From stdpp Require Import gmap strings list sorting.

#[local] Set Warnings "-clear-no-such-hyp,-inexact-float".

Local Open Scope string_scope.
Local Open Scope Z_scope.

(* ===================================================================== *)
(** * Part I.  The embedding                                              *)
(* ===================================================================== *)

(** ** Python runtime: exceptions, strings, numbers *)

Inductive exn : Type :=
  | ValueError | TypeError | OverflowError | KeyError | AttributeError
  | IndexError | RuntimeError | TimeoutError | ReError
  | RequestsTimeout      (* requests.exceptions.Timeout *)
  | RequestException.    (* any other failure of the HTTP library *)

Inductive result (A : Type) : Type :=
  | Ok (a : A)
  | Raise (e : exn).
Arguments Ok {A} a.
Arguments Raise {A} e.

Definition rbind {A B} (r : result A) (k : A -> result B) : result B :=
  match r with
  | Ok a => k a
  | Raise e => Raise e
  end.

Notation "x <-? r ;; k" := (rbind r (fun x => k))
  (at level 100, r at next level, right associativity).

(** [try: body except ...: handler]. *)
Definition try_except {A} (body : result A) (handler : exn -> result A) : result A :=
  match body with
  | Ok a => Ok a
  | Raise e => handler e
  end.

(** What one HTTP call gives back: a response with its status code and,
    when the body parses as JSON, the decoded body; or an exception of the
    HTTP library. *)
Inductive http_outcome (B : Type) : Type :=
  | Response (status_code : Z) (json : option B)
  | HttpRaise (e : exn).
Arguments Response {B} status_code json.
Arguments HttpRaise {B} e.

(** [response.status_code], when the call returned a response. *)
Definition status_of {B} (answer : http_outcome B) : option Z :=
  match answer with
  | Response status_code _ => Some status_code
  | HttpRaise _ => None
  end.

(** [response.json()] *)
Definition response_json {B} (body : option B) : result B :=
  match body with
  | Some b => Ok b
  | None => Raise ValueError
  end.

Module PyStr.

(** A [str] is held as the string of its UTF-8 bytes.  The characters
    that [str.isspace] accepts, and that [str.strip] removes, are U+0009
    to U+000D, U+001C to U+0020, U+0085, U+00A0, U+1680, U+2000 to U+200A,
    U+2028, U+2029, U+202F, U+205F and U+3000: [isspace] is the test on a
    one-byte character, [isspace2] and [isspace3] on the bytes of a
    two-byte and of a three-byte one. *)
Definition isspace (c : ascii) : bool :=
  let n := nat_of_ascii c in
  ((9 <=? n)%nat && (n <=? 13)%nat) || ((28 <=? n)%nat && (n <=? 32)%nat).

Definition isspace2 (b1 b2 : ascii) : bool :=
  let n1 := nat_of_ascii b1 in
  let n2 := nat_of_ascii b2 in
  (n1 =? 194)%nat && ((n2 =? 133)%nat || (n2 =? 160)%nat).

Definition isspace3 (b1 b2 b3 : ascii) : bool :=
  let n1 := nat_of_ascii b1 in
  let n2 := nat_of_ascii b2 in
  let n3 := nat_of_ascii b3 in
  ((n1 =? 225)%nat && (n2 =? 154)%nat && (n3 =? 128)%nat)
  || ((n1 =? 226)%nat && (n2 =? 128)%nat
      && (((128 <=? n3)%nat && (n3 <=? 138)%nat)
          || (n3 =? 168)%nat || (n3 =? 169)%nat || (n3 =? 175)%nat))
  || ((n1 =? 226)%nat && (n2 =? 129)%nat && (n3 =? 159)%nat)
  || ((n1 =? 227)%nat && (n2 =? 128)%nat && (n3 =? 128)%nat).

(** Removes the white space at the front.  With [backwards] the string is
    read from its end, so the bytes of a character come last byte first. *)
Fixpoint strip_front (backwards : bool) (s : string) : string :=
  match s with
  | EmptyString => EmptyString
  | String b1 r1 =>
      if isspace b1 then strip_front backwards r1
      else
        match r1 with
        | EmptyString => s
        | String b2 r2 =>
            if (if backwards then isspace2 b2 b1 else isspace2 b1 b2)
            then strip_front backwards r2
            else
              match r2 with
              | EmptyString => s
              | String b3 r3 =>
                  if (if backwards then isspace3 b3 b2 b1 else isspace3 b1 b2 b3)
                  then strip_front backwards r3
                  else s
              end
        end
  end.

Definition lstrip (s : string) : string := strip_front false s.

Fixpoint rev_onto (s acc : string) : string :=
  match s with
  | EmptyString => acc
  | String c r => rev_onto r (String c acc)
  end.

Definition rstrip (s : string) : string :=
  rev_onto (strip_front true (rev_onto s EmptyString)) EmptyString.

Definition strip (s : string) : string := rstrip (lstrip s).

Definition lower_char (c : ascii) : ascii :=
  let n := nat_of_ascii c in
  if ((65 <=? n)%nat && (n <=? 90)%nat) then ascii_of_nat (n + 32) else c.

Definition upper_char (c : ascii) : ascii :=
  let n := nat_of_ascii c in
  if ((97 <=? n)%nat && (n <=? 122)%nat) then ascii_of_nat (n - 32) else c.

Fixpoint map_chars (f : ascii -> ascii) (s : string) : string :=
  match s with
  | EmptyString => EmptyString
  | String c r => String (f c) (map_chars f r)
  end.

(** [str.lower] on the ASCII letters; the other bytes are kept. *)
Definition lower : string -> string := map_chars lower_char.

(** [str.upper] on the ASCII letters, to run the examples with. *)
Definition upper : string -> string := map_chars upper_char.

Fixpoint all_chars (p : ascii -> bool) (s : string) : bool :=
  match s with
  | EmptyString => true
  | String c r => p c && all_chars p r
  end.

Definition is_digit_char (c : ascii) : bool :=
  let n := nat_of_ascii c in ((48 <=? n)%nat && (n <=? 57)%nat).

(** [s.isdigit()] for the ASCII digits, to run the examples with: at
    least one character, all of them digits. *)
Definition isdigit (s : string) : bool :=
  match s with
  | EmptyString => false
  | _ => all_chars is_digit_char s
  end.

(** [sub in s]. *)
Fixpoint contains (sub s : string) : bool :=
  String.prefix sub s ||
  match s with
  | EmptyString => false
  | String _ r => contains sub r
  end.

(** [c in s] for a one-character [c]. *)
Fixpoint has_char (c : ascii) (s : string) : bool :=
  match s with
  | EmptyString => false
  | String d r => Ascii.eqb c d || has_char c r
  end.

(** [s.split('.')[0]]: everything before the first dot. *)
Fixpoint before_dot (s : string) : string :=
  match s with
  | EmptyString => EmptyString
  | String c r => if Ascii.eqb c "."%char then EmptyString else String c (before_dot r)
  end.

(** [s.replace(c, '')] for a one-character [c]. *)
Fixpoint remove_char (c : ascii) (s : string) : string :=
  match s with
  | EmptyString => EmptyString
  | String d r => if Ascii.eqb c d then remove_char c r else String d (remove_char c r)
  end.

(** Truthiness of a string and the idiom [x or default]. *)
Definition truthy (s : string) : bool := negb (String.eqb s "").

End PyStr.

(** [d.get(k)] on a string-valued key: [None] when the key is absent or null. *)
Definition opt_truthy (o : option string) : bool :=
  match o with
  | Some s => PyStr.truthy s
  | None => false
  end.

(** [a or b] where [b] is a string. *)
Definition or_str (a : option string) (b : string) : string :=
  match a with
  | Some s => if PyStr.truthy s then s else b
  | None => b
  end.

(** [a or b] where both sides come from [.get]. *)
Definition or_opt (a b : option string) : option string :=
  if opt_truthy a then a else b.

Module PyNum.

(** [float(z)]: the nearest binary64, ties to even. *)
Definition float_of_Z (z : Z) : float :=
  SF2Prim (binary_normalize prec emax z 0 false).

(** [float(z)] raises [OverflowError] when [z] is beyond the binary64 range. *)
Definition py_float_of_int (z : Z) : result float :=
  let f := float_of_Z z in
  match Prim2SF f with
  | S754_infinity _ => Raise OverflowError
  | _ => Ok f
  end.

Definition signed (s : bool) (z : Z) : Z := if s then - z else z.

(** [int(f)]: truncation toward zero. *)
Definition py_int_of_float (f : float) : result Z :=
  match Prim2SF f with
  | S754_zero _ => Ok 0
  | S754_infinity _ => Raise OverflowError
  | S754_nan => Raise ValueError
  | S754_finite s m e =>
      Ok (signed s (if 0 <=? e then Z.pos m * 2 ^ e else Z.pos m / 2 ^ (- e)))
  end.

(** [round(f)]: the nearest integer, ties to even. *)
Definition py_round (f : float) : result Z :=
  match Prim2SF f with
  | S754_zero _ => Ok 0
  | S754_infinity _ => Raise OverflowError
  | S754_nan => Raise ValueError
  | S754_finite s m e =>
      if 0 <=? e then Ok (signed s (Z.pos m * 2 ^ e))
      else
        let d := 2 ^ (- e) in
        let q := Z.pos m / d in
        let r := Z.pos m mod d in
        Ok (signed s (if 2 * r <? d then q
                      else if d <? 2 * r then q + 1
                      else if Z.even q then q else q + 1))
  end.

(** A number as the metric dictionaries hold it: the literal [0] of the
    guarded ratios is an [int], every computed ratio a [float]. *)
Inductive pynum : Type :=
  | NInt (z : Z)
  | NFloat (f : float).

Definition to_float (x : pynum) : float :=
  match x with
  | NInt z => float_of_Z z
  | NFloat f => f
  end.

Definition add (x y : pynum) : pynum :=
  match x, y with
  | NInt a, NInt b => NInt (a + b)
  | _, _ => NFloat (PrimFloat.add (to_float x) (to_float y))
  end.

Definition mul (x y : pynum) : pynum :=
  match x, y with
  | NInt a, NInt b => NInt (a * b)
  | _, _ => NFloat (PrimFloat.mul (to_float x) (to_float y))
  end.

(** True division [x / y]; every call site guards it with [y > 0].
    For two ints below 2^53, as column counts are, the quotient of the
    converted operands is the correctly rounded quotient Python returns. *)
Definition truediv (x y : pynum) : pynum :=
  NFloat (PrimFloat.div (to_float x) (to_float y)).

(** [x > 0]. *)
Definition gt0 (x : pynum) : bool :=
  match x with
  | NInt z => 0 <? z
  | NFloat f => PrimFloat.ltb 0%float f
  end.

End PyNum.
Import PyNum.

(** [sum(1 for d in l if p d)]: the generator yields a [1] per selected
    element and [sum] adds them up from [0]. *)
Definition py_sum (l : list Z) : Z := fold_left Z.add l 0.

Definition count_if {A} (p : A -> bool) (l : list A) : Z :=
  py_sum (map (fun _ => 1) (List.filter p l)).

(** [len(l)]. *)
Definition len {A} (l : list A) : Z := Z.of_nat (length l).

(** An insertion-ordered [dict]: [d[k] = v] overwrites in place or appends. *)
Fixpoint dict_set {V} (k : string) (v : V) (d : list (string * V)) : list (string * V) :=
  match d with
  | [] => [(k, v)]
  | (k', v') :: r => if String.eqb k k' then (k, v) :: r else (k', v') :: dict_set k v r
  end.

(** ** Scoring engine *)

(** One entry of a prediction map; [.get] gives [None] for an absent or
    null field. *)
Record classification : Type := {
  semantic_type : option string;
  semanticType : option string
}.

(** [ColumnPrediction]: the parsed prediction map, in response order. *)
Definition prediction_map : Type := list (string * classification).

(** [GroundTruthMap]: column name to label. *)
Abbreviation ground_truth_map := (gmap string string) (only parsing).

(** One row of [results_detail]. *)
Record detail : Type := {
  column : string;
  predicted : string;
  actual : string;
  correct : bool
}.

(** [classification.get('semantic_type') or classification.get('semanticType') or 'NONE'] *)
Definition predicted_type_of (c : classification) : string :=
  or_str (or_opt (semantic_type c) (semanticType c)) "NONE".

(** [not true_type or true_type == 'nan'] *)
Definition no_label (true_type : option string) : bool :=
  negb (opt_truthy true_type) ||
  match true_type with
  | Some t => String.eqb t "nan"
  | None => false
  end.

(** Body of the loop of [_compute_classification_details]. *)
Definition classify_step (gt : ground_truth_map)
    (acc : list detail * list string) (item : string * classification)
    : list detail * list string :=
  let '(results_detail, excluded_columns) := acc in
  let '(col_name, cls) := item in
  let true_type := gt !! col_name in
  if no_label true_type then (results_detail, (excluded_columns ++ [col_name])%list)
  else
    let t := default "" true_type in
    let predicted_type := predicted_type_of cls in
    let is_correct := String.eqb predicted_type t in
    ((results_detail ++ [ {| column := col_name; predicted := predicted_type;
                             actual := t; correct := is_correct |} ])%list,
     excluded_columns).

Definition _compute_classification_details
    (classifications : prediction_map) (gt : ground_truth_map)
    : list detail * list string :=
  fold_left (classify_step gt) classifications ([], []).

(** [MetricSet]. *)
Record MetricSet : Type := {
  accuracy : pynum;
  precision : pynum;
  recall : pynum;
  f1_score : pynum;
  total_columns : Z;
  excluded_columns : Z;
  correct_predictions : Z;
  true_positives : Z;
  false_positives : Z;
  false_negatives : Z;
  details : list detail
}.

(** [a / b if b > 0 else 0] on two ints. *)
Definition ratio (a b : Z) : pynum :=
  if 0 <? b then truediv (NInt a) (NInt b) else NInt 0.

(** [2 * (p * r) / (p + r) if (p + r) > 0 else 0] *)
Definition f1_of (p r : pynum) : pynum :=
  if gt0 (add p r) then truediv (mul (NInt 2) (mul p r)) (add p r) else NInt 0.

Definition is_none_label (s : string) : bool := String.eqb s "NONE".

(** The three generator conditions of [_calculate_metric_scores]. *)
Definition is_true_positive (d : detail) : bool :=
  correct d && negb (is_none_label (predicted d)).
Definition is_false_positive (d : detail) : bool :=
  negb (correct d) && negb (is_none_label (predicted d)).
Definition is_false_negative (d : detail) : bool :=
  negb (correct d) && negb (is_none_label (actual d)).

Definition _calculate_metric_scores (results_detail : list detail) (excluded_count : Z)
    : MetricSet :=
  let correct_n := count_if (fun d => correct d) results_detail in
  let tp := count_if is_true_positive results_detail in
  let fp := count_if is_false_positive results_detail in
  let fn := count_if is_false_negative results_detail in
  let total := len results_detail in
  let accuracy := ratio correct_n total in
  let precision := ratio tp (tp + fp) in
  let recall := ratio tp (tp + fn) in
  let f1 := f1_of precision recall in
  {| accuracy := accuracy; precision := precision; recall := recall; f1_score := f1;
     total_columns := total; excluded_columns := excluded_count;
     correct_predictions := correct_n; true_positives := tp;
     false_positives := fp; false_negatives := fn;
     details := results_detail |}.

(** The scoring pipeline of [_profile_and_score] and [calculate_metrics]:
    classify, then score with the number of excluded columns. *)
Definition calculate_metrics (classifications : prediction_map) (gt : ground_truth_map)
    : MetricSet :=
  let '(results_detail, excluded) := _compute_classification_details classifications gt in
  _calculate_metric_scores results_detail (len excluded).

(** The six summed counters of [_aggregate_metrics_list]. *)
Record sums : Type := {
  s_correct_predictions : Z;
  s_true_positives : Z;
  s_false_positives : Z;
  s_false_negatives : Z;
  s_total_columns : Z;
  s_excluded_columns : Z
}.

Definition aggregate_step (acc : sums * list detail) (m : MetricSet) : sums * list detail :=
  let '(s, ds) := acc in
  ({| s_correct_predictions := s_correct_predictions s + correct_predictions m;
      s_true_positives := s_true_positives s + true_positives m;
      s_false_positives := s_false_positives s + false_positives m;
      s_false_negatives := s_false_negatives s + false_negatives m;
      s_total_columns := s_total_columns s + total_columns m;
      s_excluded_columns := s_excluded_columns s + excluded_columns m |},
   match details m with
   | [] => ds
   | _ => (ds ++ details m)%list
   end).

Definition zero_sums : sums :=
  {| s_correct_predictions := 0; s_true_positives := 0; s_false_positives := 0;
     s_false_negatives := 0; s_total_columns := 0; s_excluded_columns := 0 |}.

Definition _aggregate_metrics_list (metrics_list : list MetricSet) : MetricSet :=
  match metrics_list with
  | [] =>
      {| accuracy := NInt 0; precision := NInt 0; recall := NInt 0; f1_score := NInt 0;
         total_columns := 0; excluded_columns := 0;
         correct_predictions := 0; true_positives := 0;
         false_positives := 0; false_negatives := 0; details := [] |}
  | _ =>
      let '(s, ds) := fold_left aggregate_step metrics_list (zero_sums, []) in
      let correct_n := s_correct_predictions s in
      let tp := s_true_positives s in
      let fp := s_false_positives s in
      let fn := s_false_negatives s in
      let total := s_total_columns s in
      let accuracy := ratio correct_n total in
      let precision := ratio tp (tp + fp) in
      let recall := ratio tp (tp + fn) in
      let f1 := f1_of precision recall in
      {| accuracy := accuracy; precision := precision; recall := recall; f1_score := f1;
         total_columns := total; excluded_columns := s_excluded_columns s;
         correct_predictions := correct_n; true_positives := tp;
         false_positives := fp; false_negatives := fn; details := ds |}
  end.

(** ** Dataset loader *)

(** A cell of the frame that [pd.read_csv(file, header=None, dtype=str)]
    returns: a string, or NaN ([None]) for a missing value.  A frame is the
    list of its rows. *)
Definition cell : Type := option string.
Definition frame : Type := list (list cell).

(** [str(x)] of a cell; NaN prints as "nan". *)
Definition str_of_cell (c : cell) : string := default "nan" c.

(** [enumerate(l)]. *)
Definition enumerate {A} (l : list A) : list (nat * A) := zip (seq 0 (length l)) l.

(** [not name or name.lower() == 'nan'] *)
Definition skipped_header (name : string) : bool :=
  negb (PyStr.truthy name) || String.eqb (PyStr.lower name) "nan".

(** The label stored for a ground-truth cell, if one is stored:
    [if t and t.lower() != 'nan' and t.strip() != '': ...], with a suffix
    [.1], [.2] or [.3] cut off at the first dot. *)
Definition gt_label (c : cell) : option string :=
  let t := str_of_cell c in
  if PyStr.truthy t && negb (String.eqb (PyStr.lower t) "nan")
     && negb (String.eqb (PyStr.strip t) "")
  then Some (if PyStr.contains ".1" t || PyStr.contains ".2" t || PyStr.contains ".3" t
             then PyStr.before_dot t else t)
  else None.

(** [if idx < len(row): ... gt[name] = t] *)
Definition record_label (row : list cell) (idx : nat) (name : string)
    (gt : ground_truth_map) : ground_truth_map :=
  match row !! idx with
  | Some c =>
      match gt_label c with
      | Some t => <[name := t]> gt
      | None => gt
      end
  | None => gt
  end.

(** Body of the header loop of [_load_universal]. *)
Definition header_step (baseline_row custom_row : list cell)
    (acc : list string * ground_truth_map * ground_truth_map) (item : nat * cell)
    : list string * ground_truth_map * ground_truth_map :=
  let '(headers, gt_base, gt_custom) := acc in
  let '(idx, h) := item in
  let name := str_of_cell h in
  if skipped_header name then acc
  else ((headers ++ [name])%list,
        record_label baseline_row idx name gt_base,
        record_label custom_row idx name gt_custom).

(** One cell of a data row: [row[i] if i < len(row) else None], then
    blank and "nan" values become null. *)
Definition data_cell (row : list cell) (i : nat) : option string :=
  match row !! i with
  | None => None
  | Some c =>
      let s := str_of_cell c in
      if String.eqb (PyStr.strip s) "" || String.eqb (PyStr.lower s) "nan"
      then None else Some s
  end.

Abbreviation data_row := (gmap string (option string)) (only parsing).

Definition build_data_row (headers : list string) (row : list cell) : data_row :=
  fold_left (fun (d : data_row) (item : nat * string) => <[item.2 := data_cell row item.1]> d)
            (enumerate headers) ∅.

Definition _load_universal (df : frame)
    : result (list string * list data_row * ground_truth_map * ground_truth_map) :=
  if len df <? 4 then Raise ValueError
  else
    let headers_row := default [] (df !! 2%nat) in
    let baseline_row := default [] (df !! 0%nat) in
    let custom_row := default [] (df !! 1%nat) in
    let '(headers, gt_base, gt_custom) :=
      fold_left (header_step baseline_row custom_row) (enumerate headers_row) ([], ∅, ∅) in
    let data_rows := map (build_data_row headers) (drop 3 df) in
    Ok (headers, data_rows, gt_base, gt_custom).

(** What the header loop maintains. *)
Definition header_inv (acc : list string * ground_truth_map * ground_truth_map) : Prop :=
  Forall (fun h => h <> "" /\ PyStr.lower h <> "nan") acc.1.1 /\
  (forall c, is_Some (acc.1.2 !! c) -> c ∈ acc.1.1) /\
  (forall c, is_Some (acc.2 !! c) -> c ∈ acc.1.1).

(** ** Comparative orchestrator: per-column outcome tables *)

(** The four outcome labels of the tables. *)
Inductive outcome : Type := Both | CustomOnly | BaselineOnly | Neither.

(** [d[k]] / [k in d] on an insertion-ordered dict. *)
Fixpoint dict_get {V} (k : string) (d : list (string * V)) : option V :=
  match d with
  | [] => None
  | (k', v) :: r => if String.eqb k k' then Some v else dict_get k r
  end.

(** [_compute_correct_map]: column -> correct?, for the labelled columns
    of one file. *)
Definition correct_map_step (gt : ground_truth_map)
    (outcome : gmap string bool) (item : string * classification) : gmap string bool :=
  let '(col_name, entry) := item in
  let true_type := gt !! col_name in
  if no_label true_type then outcome
  else <[col_name := String.eqb (predicted_type_of entry) (default "" true_type)]> outcome.

Definition _compute_correct_map (predictions : prediction_map) (gt : ground_truth_map)
    : gmap string bool :=
  fold_left (correct_map_step gt) predictions ∅.

(** [sorted(cols)] on strings. *)
Definition str_le (a b : string) : Prop := String.leb a b = true.
#[global] Instance str_le_dec a b : Decision (str_le a b).
Proof. unfold str_le. apply _. Defined.

Definition sorted_strings (cols : gset string) : list string :=
  merge_sort str_le (elements cols).

(** The first truthy [preds[col]['semantic_type']] over the files, else "null". *)
Fixpoint first_semantic_type (col : string) (files : list prediction_map) : string :=
  match files with
  | [] => "null"
  | preds :: rest =>
      match dict_get col preds with
      | Some c => if opt_truthy (semantic_type c) then default "" (semantic_type c)
                  else first_semantic_type col rest
      | None => first_semantic_type col rest
      end
  end.

(** [any(m.get(col, False) for m in maps.values())] *)
Definition any_correct (col : string) (maps : list (gmap string bool)) : bool :=
  existsb (fun m => default false (m !! col)) maps.

(** The if/elif chain that both tables use to name an outcome. *)
Definition outcome_of (base_ok cust_ok : bool) : outcome :=
  if base_ok && cust_ok then Both
  else if cust_ok && negb base_ok then CustomOnly
  else if base_ok && negb cust_ok then BaselineOnly
  else Neither.

(** [_print_per_column_outcome_summary], the table of
    [run_comparative_evaluation]: the rows (column, baseline type, custom
    type, outcome) that it prints.  The four dicts keyed by file index are
    the lists of their values. *)
Definition _print_per_column_outcome_summary
    (baseline_predictions custom_predictions : list prediction_map)
    (baseline_correct_maps custom_correct_maps_for_desc : list (gmap string bool))
    : list (string * string * string * outcome) :=
  let all_cols : gset string :=
    fold_left (fun (acc : gset string) (preds : prediction_map) => acc ∪ list_to_set preds.*1)
              (baseline_predictions ++ custom_predictions)%list ∅ in
  map (fun col =>
         let baseline_type := first_semantic_type col baseline_predictions in
         let custom_type := first_semantic_type col custom_predictions in
         let base_any := any_correct col baseline_correct_maps in
         let cust_any := any_correct col custom_correct_maps_for_desc in
         (col, baseline_type, custom_type, outcome_of base_any cust_any))
      (sorted_strings all_cols).

(** One entry of the map that [_per_column_correct_map] returns. *)
Record column_result : Type := {
  cr_correct : bool;
  cr_semantic_type : string
}.

(** The loop of [_per_column_correct_map] over the parsed predictions of a
    file (the function itself first loads and profiles the file). *)
Definition per_column_step (ground_truth : ground_truth_map)
    (outcome : gmap string column_result) (item : string * classification)
    : gmap string column_result :=
  let '(col_name, cls) := item in
  let true_type := ground_truth !! col_name in
  if no_label true_type then outcome
  else
    let predicted_type := predicted_type_of cls in
    <[col_name := {| cr_correct := String.eqb predicted_type (default "" true_type);
                     cr_semantic_type := predicted_type |}]> outcome.

Definition _per_column_correct_map (classifications : prediction_map)
    (ground_truth : ground_truth_map) : gmap string column_result :=
  fold_left (per_column_step ground_truth) classifications ∅.

(** The counters kept per column by [_aggregate_per_column_outcome]. *)
Record column_stats : Type := {
  total : Z;
  baseline_correct : Z;
  custom_correct : Z
}.

(** [semantic_types[col]]: the optional 'baseline' and 'custom' entries. *)
Record column_types : Type := {
  ct_baseline : option string;
  ct_custom : option string
}.

(** [m.get(col, {}).get('correct', False)] *)
Definition correct_in (m : gmap string column_result) (col : string) : bool :=
  default false (cr_correct <$> m !! col).

(** Body of the inner loop of [_aggregate_per_column_outcome]. *)
Definition column_step (base_map cust_map : gmap string column_result)
    (acc : gmap string column_stats * gmap string column_types) (col : string)
    : gmap string column_stats * gmap string column_types :=
  let '(totals, semantic_types) := acc in
  let stats := default {| total := 0; baseline_correct := 0; custom_correct := 0 |}
                       (totals !! col) in
  let stats := {| total := total stats + 1;
                  baseline_correct := if correct_in base_map col
                                      then baseline_correct stats + 1
                                      else baseline_correct stats;
                  custom_correct := if correct_in cust_map col
                                    then custom_correct stats + 1
                                    else custom_correct stats |} in
  let types := default {| ct_baseline := None; ct_custom := None |}
                       (semantic_types !! col) in
  let types := match base_map !! col with
               | Some r => {| ct_baseline := Some (cr_semantic_type r);
                              ct_custom := ct_custom types |}
               | None => types
               end in
  let types := match cust_map !! col with
               | Some r => {| ct_baseline := ct_baseline types;
                              ct_custom := Some (cr_semantic_type r) |}
               | None => types
               end in
  (<[col := stats]> totals, <[col := types]> semantic_types).

(** Body of the outer loop: one input file, given its baseline and its
    custom map. *)
Definition file_step
    (acc : gmap string column_stats * gmap string column_types)
    (maps : gmap string column_result * gmap string column_result)
    : gmap string column_stats * gmap string column_types :=
  let '(base_map, cust_map) := maps in
  let cols : gset string := dom base_map ∪ dom cust_map in
  fold_left (column_step base_map cust_map) (elements cols) acc.

(** [_aggregate_per_column_outcome], over the per-file pairs
    ([_per_column_correct_map(f, False)], [_per_column_correct_map(f, True)]). *)
Definition _aggregate_per_column_outcome
    (files : list (gmap string column_result * gmap string column_result))
    : gmap string column_stats * gmap string column_types :=
  fold_left file_step files (∅, ∅).

(** [outcome_label] of [_print_aggregate_per_column_outcome]. *)
Definition outcome_label (stats : column_stats) : outcome :=
  let b_ok := baseline_correct stats =? total stats in
  let c_ok := custom_correct stats =? total stats in
  if b_ok && c_ok then Both
  else if c_ok && negb b_ok then CustomOnly
  else if b_ok && negb c_ok then BaselineOnly
  else Neither.

(** The sort key [(-total, col)]. *)
Definition row_le (a b : string * column_stats) : Prop :=
  - total a.2 < - total b.2 \/ (total a.2 = total b.2 /\ str_le a.1 b.1).
#[global] Instance row_le_dec a b : Decision (row_le a b).
Proof. unfold row_le. apply _. Defined.

(** [_print_aggregate_per_column_outcome]: the rows (column, total,
    outcome, baseline type, custom type) that it prints. *)
Definition _print_aggregate_per_column_outcome
    (aggregated : gmap string column_stats) (semantic_types : gmap string column_types)
    : list (string * Z * outcome * string * string) :=
  map (fun item : string * column_stats =>
         let '(col, stats) := item in
         let types := default {| ct_baseline := None; ct_custom := None |}
                              (semantic_types !! col) in
         (col, total stats, outcome_label stats,
          default "N/A" (ct_baseline types), default "N/A" (ct_custom types)))
      (merge_sort row_le (map_to_list aggregated)).


(** A file contributes an occurrence of [col] when one of its two maps has
    the column: [cols = set(base_map.keys()).union(cust_map.keys())]. *)
Definition occurs_in (col : string)
    (maps : gmap string column_result * gmap string column_result) : bool :=
  bool_decide (col ∈ dom maps.1 ∪ dom maps.2).

(** ** Profiling client *)

(** A column object of the list form of a profiling response. *)
Record column_entry : Type := {
  ce_column_name : option string;
  ce_columnName : option string;
  ce_name : option string;
  ce_semantic_type : option string;
  ce_semanticType : option string
}.

(** The decoded body of a profiling response, as far as
    [_parse_predictions] looks at it: [column_classifications] when the key
    is present and holds a dict, [columns] when it holds a list (an entry
    that is not an object is [None]). *)
Record predictions_payload : Type := {
  column_classifications : option prediction_map;
  columns : option (list (option column_entry))
}.

(** [{}] *)
Definition empty_dict_payload : predictions_payload :=
  {| column_classifications := None; columns := None |}.

(** [{"columns": [], "column_classifications": {}}] *)
Definition empty_predictions_payload : predictions_payload :=
  {| column_classifications := Some []; columns := Some [] |}.

(** Body of the loop of [_parse_predictions] over the list form. *)
Definition parse_step (normalized : prediction_map) (col : option column_entry)
    : prediction_map :=
  match col with
  | None => normalized
  | Some c =>
      let name := or_str (or_opt (or_opt (ce_column_name c) (ce_columnName c)) (ce_name c)) "" in
      let semt := or_opt (ce_semantic_type c) (ce_semanticType c) in
      let entry := {| semantic_type := match semt with
                                       | Some _ => semt
                                       | None => ce_semantic_type c
                                       end;
                      semanticType := ce_semanticType c |} in
      if PyStr.truthy name then dict_set name entry normalized else normalized
  end.

Definition _parse_predictions (predictions : predictions_payload) : result prediction_map :=
  match column_classifications predictions with
  | Some m => Ok m
  | None =>
      match columns predictions with
      | Some cols => Ok (fold_left parse_step cols [])
      | None => Raise ValueError
      end
  end.

(** The JSON request of the profiling endpoint. *)
Record profile_request : Type := {
  table_name : string;
  req_columns : list string;
  req_data : list data_row;
  max_samples : Z;
  include_statistics : bool;
  custom_only : bool
}.

(** [l[:n]], also for a negative [n]. *)
Definition slice_to {A} (n : Z) (l : list A) : list A :=
  if 0 <=? n then take (Z.to_nat n) l else take (Z.to_nat (len l + n)) l.

Definition truthy_words : list string := ["1"; "true"; "yes"; "on"].

Section ProfilingClient.

(** [int(s)] on a string is Python's own parser: [None] stands for
    [ValueError]. *)
Variable int_of_str : string -> option Z.

(** [os.environ]. *)
Variable environ : gmap string string.

(** The profiling endpoint: [POST {BASE_URL}/classify/table]. *)
Variable post_classify_table : profile_request -> http_outcome predictions_payload.

Definition _is_eval_mode : bool :=
  bool_decide (PyStr.lower (PyStr.strip (default "" (environ !! "EVAL_MODE"))) ∈ truthy_words).

Definition _eval_get_int (var_name : string) (eval_default fallback_default : Z) : Z :=
  match environ !! var_name with
  | Some raw =>
      if negb (String.eqb (PyStr.strip raw) "") then
        match int_of_str (PyStr.strip raw) with
        | Some z => z
        | None => eval_default
        end
      else if _is_eval_mode then eval_default else fallback_default
  | None => if _is_eval_mode then eval_default else fallback_default
  end.

Definition _eval_get_bool (var_name : string) (eval_default fallback_default : bool) : bool :=
  match environ !! var_name with
  | Some raw => bool_decide (PyStr.lower (PyStr.strip raw) ∈ truthy_words)
  | None => if _is_eval_mode then eval_default else fallback_default
  end.

(** The request that [profile_rows] builds: the column cap, the row cap,
    then the JSON object. *)
Definition profile_rows_request (dataset : string) (_full_data : bool)
    (columns : list string) (data_rows : list data_row) (custom_only : bool)
    : profile_request :=
  let actual_headers := columns in
  let '(actual_headers, data_rows) :=
    if negb _full_data then
      let max_cols_cap := _eval_get_int "EVAL_MAX_COLUMNS" 300 300 in
      if max_cols_cap <? len actual_headers then
        let actual_headers := slice_to max_cols_cap actual_headers in
        (actual_headers,
         map (fun row : data_row =>
                filter (fun kv : string * option string => kv.1 ∈ actual_headers) row)
             data_rows)
      else (actual_headers, data_rows)
    else (actual_headers, data_rows) in
  let should_truncate :=
    if _full_data then false else _eval_get_bool "EVAL_TRUNCATE_DATA" true true in
  let data_rows :=
    if should_truncate then slice_to (_eval_get_int "EVAL_MAX_ROWS" 1000 1000) data_rows
    else data_rows in
  {| table_name := dataset ++ "_table";
     req_columns := actual_headers;
     req_data := data_rows;
     max_samples := len data_rows;
     include_statistics := false;
     custom_only := custom_only |}.

(** The statements of [profile_rows] inside its [try]. *)
Definition profile_rows_body (dataset : string) (_full_data : bool)
    (columns : list string) (data_rows : list data_row) (custom_only : bool)
    : result predictions_payload :=
  let request := profile_rows_request dataset _full_data columns data_rows custom_only in
  match post_classify_table request with
  | HttpRaise e => Raise e
  | Response status_code json =>
      if status_code =? 200 then response_json json
      else Ok empty_predictions_payload
  end.

(** [profile_rows]: the client of the multi-file flows. *)
Definition profile_rows (dataset : string) (_full_data : bool)
    (columns : list string) (data_rows : list data_row) (custom_only : bool)
    : result predictions_payload :=
  try_except (profile_rows_body dataset _full_data columns data_rows custom_only)
    (fun e =>
       match e with
       | RequestsTimeout => Ok empty_dict_payload
       | _ => Ok empty_dict_payload
       end).

(** The statements of [profile_data] inside its [try].  [prepared] is the
    request that lines 1073-1134 build from the data file with pandas, or
    the exception they raise. *)
Definition profile_data_body (prepared : result profile_request)
    : result predictions_payload :=
  request <-? prepared ;;
  match post_classify_table request with
  | HttpRaise e => Raise e
  | Response status_code json =>
      if status_code =? 200 then response_json json
      else Raise RuntimeError
  end.

(** [profile_data]: the client of the single-file flows. *)
Definition profile_data (prepared : result profile_request) : result predictions_payload :=
  try_except (profile_data_body prepared)
    (fun e =>
       match e with
       | RequestsTimeout => Raise TimeoutError
       | _ => Raise RuntimeError
       end).

End ProfilingClient.

(** ** Type lifecycle manager: data *)

(** A JSON value of a generated-types file where the code converts it
    itself ([int(...)], [bool(...)], [isinstance]); [PContainer] is a list
    or an object, which is truthy when it is not empty. *)
Inductive pyval : Type :=
  | PNone
  | PBool (b : bool)
  | PInt (z : Z)
  | PFloat (f : float)
  | PStr (s : string)
  | PContainer (nonempty : bool).

(** [bool(v)] *)
Definition py_truthy (v : pyval) : bool :=
  match v with
  | PNone => false
  | PBool b => b
  | PInt z => negb (z =? 0)
  | PFloat f => negb (PrimFloat.eqb f 0%float)
  | PStr s => PyStr.truthy s
  | PContainer nonempty => nonempty
  end.

(** One element of [headerPatterns]; for [confidence] and [mandatory] an
    absent key ([None]) is not a null value ([Some PNone]). *)
Record header_pattern : Type := {
  hp_regExp : option string;
  hp_confidence : option pyval;
  hp_mandatory : option pyval
}.

(** [GeneratedType]: one object of a generated-types file.  A string field
    is [None] when the key is absent or null; [listValues] is [None] when
    it is not a list, and each of its elements is null ([None]) or given
    by its [str()]. *)
Module GeneratedType.
Record t : Type := {
  semanticType : option string;
  description : option string;
  pluginType : option string;
  baseType : option string;
  confidenceThreshold : pyval;
  priority : pyval;
  regexPattern : option string;
  listValues : option (list (option string));
  backout : option string;
  headerPatterns : list header_pattern
}.
End GeneratedType.

(** [RegistryPayload]: the object sent to and read from the registry.
    [.get] on an absent key is [None]. *)
Module Payload.
Record header_regexp : Type := {
  regExp : option string;
  confidence : option Z;
  mandatory : option bool
}.
Record match_entry : Type := {
  regExpReturned : option string;
  isRegExpComplete : option bool
}.
Record locale : Type := {
  localeTag : option string;
  headerRegExps : option (list header_regexp);
  matchEntries : option (list match_entry)
}.
Record content_t : Type := {
  type : option string;
  values : option (list string)
}.
Record t : Type := {
  semanticType : option string;
  description : option string;
  pluginType : option string;
  baseType : option string;
  threshold : option Z;
  priority : option Z;
  validLocales : option (list locale);
  content : option content_t;
  backout : option string;
  ephemeral : option bool
}.

(** [custom_type["content"] = c] and the like. *)
Definition set_content (c : content_t) (p : t) : t :=
  {| semanticType := semanticType p; description := description p;
     pluginType := pluginType p; baseType := baseType p; threshold := threshold p;
     priority := priority p; validLocales := validLocales p; content := Some c;
     backout := backout p; ephemeral := ephemeral p |}.
Definition set_backout (b : string) (p : t) : t :=
  {| semanticType := semanticType p; description := description p;
     pluginType := pluginType p; baseType := baseType p; threshold := threshold p;
     priority := priority p; validLocales := validLocales p; content := content p;
     backout := Some b; ephemeral := ephemeral p |}.
Definition set_ephemeral (e : bool) (p : t) : t :=
  {| semanticType := semanticType p; description := description p;
     pluginType := pluginType p; baseType := baseType p; threshold := threshold p;
     priority := priority p; validLocales := validLocales p; content := content p;
     backout := backout p; ephemeral := Some e |}.
Definition set_validLocales (l : option (list locale)) (p : t) : t :=
  {| semanticType := semanticType p; description := description p;
     pluginType := pluginType p; baseType := baseType p; threshold := threshold p;
     priority := priority p; validLocales := l; content := content p;
     backout := backout p; ephemeral := ephemeral p |}.

(** [custom_type["validLocales"][0][...] = ...]; an [IndexError] when there
    is no first locale. *)
Definition update_first_locale (f : locale -> locale) (p : t) : result t :=
  match validLocales p with
  | Some (loc :: rest) => Ok (set_validLocales (Some (f loc :: rest)) p)
  | _ => Raise IndexError
  end.
Definition set_matchEntries (m : list match_entry) (loc : locale) : locale :=
  {| localeTag := localeTag loc; headerRegExps := headerRegExps loc;
     matchEntries := Some m |}.
Definition set_headerRegExps (h : list header_regexp) (loc : locale) : locale :=
  {| localeTag := localeTag loc; headerRegExps := Some h;
     matchEntries := matchEntries loc |}.
End Payload.

(** The view of a payload that [_is_same_type] compares. *)
Record normalized_locale : Type := {
  n_localeTag : string;
  n_headerRegExps : list (option string * Z * bool);
  n_matchEntries : list (option string * bool)
}.
Record normalized_type : Type := {
  n_pluginType : option string;
  n_baseType : option string;
  n_threshold : option Z;
  n_priority : option Z;
  n_backout : option string;
  n_validLocales : list normalized_locale;
  n_content : option string * option (list string)
}.
#[global] Instance normalized_locale_eq_dec : EqDecision normalized_locale.
Proof. solve_decision. Defined.
#[global] Instance normalized_type_eq_dec : EqDecision normalized_type.
Proof. solve_decision. Defined.

(** [norm_locales] of [_is_same_type]. *)
Definition norm_locales (x : Payload.t) : list normalized_locale :=
  map (fun loc =>
         {| n_localeTag := default "*" (Payload.localeTag loc);
            n_headerRegExps :=
              map (fun h => (Payload.regExp h,
                             default 95 (Payload.confidence h),
                             default false (Payload.mandatory h)))
                  (default [] (Payload.headerRegExps loc));
            n_matchEntries :=
              map (fun m => (Payload.regExpReturned m,
                             default true (Payload.isRegExpComplete m)))
                  (default [] (Payload.matchEntries loc)) |})
      (default [] (Payload.validLocales x)).

(** [norm_content] of [_is_same_type]. *)
Definition norm_content (x : Payload.t) : option string * option (list string) :=
  match Payload.content x with
  | Some c => (Payload.type c, Payload.values c)
  | None => (None, None)
  end.

(** [pick] of the five compared keys, updated with the normalised locales
    and content. *)
Definition normalize_type (x : Payload.t) : normalized_type :=
  {| n_pluginType := Payload.pluginType x;
     n_baseType := Payload.baseType x;
     n_threshold := Payload.threshold x;
     n_priority := Payload.priority x;
     n_backout := Payload.backout x;
     n_validLocales := norm_locales x;
     n_content := norm_content x |}.

(** [_is_same_type]: the two normalised dicts have the same keys and
    [json.dumps(..., sort_keys=True)] is injective on their values, so the
    comparison of the two texts is the comparison of the two values.  The
    payloads are the typed records above, whose fields hold values of
    their JSON types: on these the conversions [int(...)] and [bool(...)]
    of [norm_locales] return, and the [except] branch of lines 1056-1057,
    which answers [False] when a conversion raises (a listed type with a
    confidence such as ["high"]), is not taken. *)
Definition _is_same_type (existing new : Payload.t) : bool :=
  bool_decide (normalize_type existing = normalize_type new).

(** ** Type lifecycle manager: building the payload *)

Section PayloadBuilder.

(** [int(s)] on a string is Python's own parser: [None] stands for
    [ValueError]. *)
Variable int_of_str : string -> option Z.

(** [str.upper] and [str.isdigit] are Python's own as well: the case
    mapping and the digit classes of Unicode. *)
Variable str_upper : string -> string.
Variable str_isdigit : string -> bool.

(** [int(v)] *)
Definition py_int (v : pyval) : result Z :=
  match v with
  | PNone => Raise TypeError
  | PBool b => Ok (if b then 1 else 0)
  | PInt z => Ok z
  | PFloat f => py_int_of_float f
  | PStr s =>
      match int_of_str s with
      | Some z => Ok z
      | None => Raise ValueError
      end
  | PContainer _ => Raise TypeError
  end.

(** [float(v)] for a [v] that [isinstance(v, (float, int))] accepts. *)
Definition py_float (v : pyval) : result float :=
  match v with
  | PBool b => Ok (if b then 1%float else 0%float)
  | PInt z => py_float_of_int z
  | PFloat f => Ok f
  | _ => Raise TypeError
  end.

(** [isinstance(v, (float, int))]; a [bool] is an [int]. *)
Definition is_number (v : pyval) : bool :=
  match v with
  | PBool _ | PInt _ | PFloat _ => true
  | _ => false
  end.

(** The [try] block of the threshold resolution. *)
Definition threshold_of_raw (raw_threshold : pyval) : result Z :=
  match raw_threshold with
  | PNone => Ok 95
  | _ =>
      if is_number raw_threshold then
        f <-? py_float raw_threshold ;;
        if PrimFloat.leb f 1%float
        then py_round (PrimFloat.mul f 100%float)
        else py_int raw_threshold
      else py_int raw_threshold
  end.

(** The clamp to the range [80, 100]: two [if] statements in a row. *)
Definition clamp_threshold (threshold_int : Z) : Z :=
  let threshold_int := if threshold_int <? 80 then 95 else threshold_int in
  let threshold_int := if 100 <? threshold_int then 100 else threshold_int in
  threshold_int.

(** Lines 776-792 of [_build_custom_type_payload]. *)
Definition resolve_threshold (raw_threshold : pyval) : result Z :=
  threshold_int <-?
    try_except (threshold_of_raw raw_threshold)
      (fun e =>
         match e with
         | ValueError | TypeError => Ok 95
         | _ => Raise e
         end) ;;
  Ok (clamp_threshold threshold_int).

Definition _determine_base_type (generated_type : GeneratedType.t) : string :=
  if opt_truthy (GeneratedType.baseType generated_type) then
    let base_type := default "" (GeneratedType.baseType generated_type) in
    if String.eqb (PyStr.lower base_type) "string" then "STRING" else base_type
  else if bool_decide (GeneratedType.pluginType generated_type = Some "regex") then
    let pattern := default "" (GeneratedType.regexPattern generated_type) in
    let stripped := PyStr.remove_char "$" (PyStr.remove_char "^" pattern) in
    let numeric_like :=
      PyStr.all_chars (fun ch => PyStr.has_char ch "\d{}0123456789") stripped in
    if numeric_like then "LONG" else "STRING"
  else if bool_decide (GeneratedType.pluginType generated_type = Some "list") then
    let values := omap id (default [] (GeneratedType.listValues generated_type)) in
    if negb (bool_decide (values = [])) && forallb str_isdigit values
    then "LONG" else "STRING"
  else "STRING".

Definition _determine_priority (generated_type : GeneratedType.t) : pyval :=
  match GeneratedType.priority generated_type with
  | PNone => PInt 1000
  | generated_priority => generated_priority
  end.

(** Body of the loop of [_add_list_content] that upper-cases the values
    and drops nulls, blanks and repetitions. *)
Definition member_step (acc : list string) (v : option string) : list string :=
  match v with
  | None => acc
  | Some sv =>
      let s := PyStr.strip sv in
      if negb (PyStr.truthy s) then acc
      else
        let u := str_upper s in
        if bool_decide (u ∈ acc) then acc else (acc ++ [u])%list
  end.

(** [_add_list_content]: the flag it returns and the payload as it leaves it. *)
Definition _add_list_content (custom_type : Payload.t) (generated_type : GeneratedType.t)
    : bool * Payload.t :=
  match GeneratedType.listValues generated_type with
  | None | Some [] => (false, custom_type)
  | Some list_values =>
      let members := fold_left member_step list_values [] in
      let custom_type :=
        Payload.set_content {| Payload.type := Some "inline";
                               Payload.values := Some members |} custom_type in
      let backout := PyStr.strip (or_str (GeneratedType.backout generated_type) "") in
      if negb (PyStr.truthy backout) then (false, custom_type)
      else (true, Payload.set_backout backout custom_type)
  end.

Definition _add_regex_content (custom_type : Payload.t) (generated_type : GeneratedType.t)
    : result (bool * Payload.t) :=
  let regex_pattern := PyStr.strip (or_str (GeneratedType.regexPattern generated_type) "") in
  if negb (PyStr.truthy regex_pattern) then Ok (false, custom_type)
  else
    custom_type <-?
      Payload.update_first_locale
        (Payload.set_matchEntries
           [ {| Payload.regExpReturned := Some regex_pattern;
                Payload.isRegExpComplete := Some true |} ])
        custom_type ;;
    Ok (true, custom_type).

(** Body of the loop of [_add_header_patterns]; an exception skips the
    pattern. *)
Definition header_pattern_step (header_patterns : list Payload.header_regexp)
    (hp : header_pattern) : list Payload.header_regexp :=
  let reg := PyStr.strip (or_str (hp_regExp hp) "") in
  if negb (PyStr.truthy reg) then header_patterns
  else
    match py_int (default (PInt 95) (hp_confidence hp)) with
    | Ok confidence =>
        (header_patterns ++
         [ {| Payload.regExp := Some reg;
              Payload.confidence := Some confidence;
              Payload.mandatory :=
                Some (py_truthy (default (PBool false) (hp_mandatory hp))) |} ])%list
    | Raise _ => header_patterns
    end.

Definition _add_header_patterns (custom_type : Payload.t) (generated_type : GeneratedType.t)
    : result Payload.t :=
  let header_patterns :=
    fold_left header_pattern_step (GeneratedType.headerPatterns generated_type) [] in
  match header_patterns with
  | [] => Ok custom_type
  | _ => Payload.update_first_locale (Payload.set_headerRegExps header_patterns) custom_type
  end.

(** [d[key]] on a key that may be absent. *)
Definition required (o : option string) : result string :=
  match o with
  | Some s => Ok s
  | None => Raise KeyError
  end.

(** [_build_custom_type_payload]: [Ok None] is the [None] it returns when
    the kind-specific content is invalid. *)
Definition _build_custom_type_payload (generated_type : GeneratedType.t)
    : result (option Payload.t) :=
  plugin_type <-? required (GeneratedType.pluginType generated_type) ;;
  threshold_int <-? resolve_threshold (GeneratedType.confidenceThreshold generated_type) ;;
  semantic_type <-? required (GeneratedType.semanticType generated_type) ;;
  description <-? required (GeneratedType.description generated_type) ;;
  priority <-? py_int (_determine_priority generated_type) ;;
  let custom_type :=
    {| Payload.semanticType := Some (PyStr.strip semantic_type);
       Payload.description := Some (PyStr.strip description);
       Payload.pluginType := Some plugin_type;
       Payload.baseType := Some (_determine_base_type generated_type);
       Payload.threshold := Some threshold_int;
       Payload.priority := Some priority;
       Payload.validLocales :=
         Some [ {| Payload.localeTag := Some "*"; Payload.headerRegExps := None;
                   Payload.matchEntries := None |} ];
       Payload.content := None;
       Payload.backout := None;
       Payload.ephemeral := None |} in
  if String.eqb plugin_type "list" then
    let '(ok, custom_type) := _add_list_content custom_type generated_type in
    if negb ok then Ok None
    else custom_type <-? _add_header_patterns custom_type generated_type ;;
         Ok (Some custom_type)
  else if String.eqb plugin_type "regex" then
    r <-? _add_regex_content custom_type generated_type ;;
    let '(ok, custom_type) := r in
    if negb ok then Ok None
    else custom_type <-? _add_header_patterns custom_type generated_type ;;
         Ok (Some custom_type)
  else
    custom_type <-? _add_header_patterns custom_type generated_type ;;
    Ok (Some custom_type).

End PayloadBuilder.

(** ** Type lifecycle manager: validation and upsert *)

(** The fields of [ProfileEvaluator] that the lifecycle manager uses. *)
Record evaluator : Type := {
  _created_types : gset string;
  _existing_types_cache : gmap string Payload.t;
  _only_types_regex : option string;
  _dry_run_create : bool
}.

Definition set_cache (cache : gmap string Payload.t) (self : evaluator) : evaluator :=
  {| _created_types := _created_types self; _existing_types_cache := cache;
     _only_types_regex := _only_types_regex self;
     _dry_run_create := _dry_run_create self |}.

Definition set_created (created : gset string) (self : evaluator) : evaluator :=
  {| _created_types := created; _existing_types_cache := _existing_types_cache self;
     _only_types_regex := _only_types_regex self;
     _dry_run_create := _dry_run_create self |}.

(** The calls to the registry endpoints. *)
Inductive registry_request : Type :=
  | GetCustomOnly                                (* GET  /semantic-types/custom-only *)
  | PostType (payload : Payload.t)               (* POST /semantic-types *)
  | PutType (name : string) (payload : Payload.t). (* PUT  /semantic-types/{name} *)

Definition is_write (r : registry_request) : bool :=
  match r with
  | GetCustomOnly => false
  | PostType _ | PutType _ _ => true
  end.

Section Lifecycle.

Variable int_of_str : string -> option Z.
Variable str_upper : string -> string.
Variable str_isdigit : string -> bool.

(** [re.search(pattern, s)] finds a match, or raises on a bad pattern. *)
Variable re_search : string -> string -> result bool.

(** The remote registry: any state, and any way of answering a request. *)
Variable Registry : Type.
Variable serve : registry_request -> Registry -> http_outcome (list Payload.t) * Registry.

(** The evaluator, the registry it talks to, and the requests sent so far. *)
Record world : Type := {
  self : evaluator;
  registry : Registry;
  sent : list registry_request
}.

(** Stateful code that may raise; a raised exception keeps the state
    reached so far. *)
Definition M (A : Type) : Type := world -> result A * world.

Definition mret {A} (a : A) : M A := fun w => (Ok a, w).
Definition mraise {A} (e : exn) : M A := fun w => (Raise e, w).
Definition mbind {A B} (c : M A) (k : A -> M B) : M B :=
  fun w =>
    match c w with
    | (Ok a, w') => k a w'
    | (Raise e, w') => (Raise e, w')
    end.
Definition mlift {A} (r : result A) : M A := fun w => (r, w).

(** [try: c except Exception: h] *)
Definition mcatch {A} (c : M A) (h : M A) : M A :=
  fun w =>
    match c w with
    | (Ok a, w') => (Ok a, w')
    | (Raise _, w') => h w'
    end.

Definition get_self : M evaluator := fun w => (Ok (self w), w).
Definition put_self (s : evaluator) : M unit :=
  fun w => (Ok tt, {| self := s; registry := registry w; sent := sent w |}).

(** One call of [self.session]: the registry answers and moves on, the
    request is recorded. *)
Definition http (r : registry_request) : M (Z * option (list Payload.t)) :=
  fun w =>
    let '(answer, registry') := serve r (registry w) in
    let w' := {| self := self w; registry := registry'; sent := (sent w ++ [r])%list |} in
    match answer with
    | Response status_code json => (Ok (status_code, json), w')
    | HttpRaise e => (Raise e, w')
    end.

Notation "x <- c ;; k" := (mbind c (fun x => k))
  (at level 100, c at next level, right associativity).
Notation "c ;;; k" := (mbind c (fun _ => k))
  (at level 100, right associativity).

Definition _is_valid_generated_type (generated_type : GeneratedType.t) : M bool :=
  s <- get_self ;;
  passes_filter <-
    (if opt_truthy (_only_types_regex s) then
       let name := default "" (GeneratedType.semanticType generated_type) in
       mlift (re_search (default "" (_only_types_regex s)) name)
     else mret true) ;;
  if negb passes_filter then mret false
  else if bool_decide (GeneratedType.pluginType generated_type = Some "java") then mret false
  else if negb (opt_truthy (GeneratedType.semanticType generated_type)) then mret false
  else if negb (opt_truthy (GeneratedType.description generated_type)) then mret false
  else if negb (opt_truthy (GeneratedType.pluginType generated_type)) then mret false
  else mret true.

(** The loop of [_refresh_existing_types_cache] over the listed types. *)
Definition cache_step (cache : gmap string Payload.t) (t : Payload.t)
    : gmap string Payload.t :=
  if opt_truthy (Payload.semanticType t)
  then <[default "" (Payload.semanticType t) := t]> cache
  else cache.

Definition _refresh_existing_types_cache : M unit :=
  mcatch
    (resp <- http GetCustomOnly ;;
     let '(status_code, json) := resp in
     if status_code =? 200 then
       types <- mlift (response_json json) ;;
       s <- get_self ;;
       put_self (set_cache (fold_left cache_step types ∅) s)
     else mret tt)
    (mret tt).

(** [status in [200, 201]] *)
Definition is_success (status_code : Z) : bool :=
  (status_code =? 200) || (status_code =? 201).

Definition _upsert_custom_type (custom_type : Payload.t) : M bool :=
  s <- get_self ;;
  (if bool_decide (_existing_types_cache s = ∅) then _refresh_existing_types_cache
   else mret tt) ;;;
  s <- get_self ;;
  type_name <- mlift (required (Payload.semanticType custom_type)) ;;
  let existing := _existing_types_cache s !! type_name in
  if match existing with
     | Some e => _is_same_type e custom_type
     | None => false
     end
  then mret false
  else if _dry_run_create s then mret false
  else
    let custom_type := Payload.set_ephemeral true custom_type in
    let is_put := bool_decide (is_Some existing) in
    response <- http (if is_put then PutType type_name custom_type
                      else PostType custom_type) ;;
    response <-
      (if (response.1 =? 404) && is_put then http (PostType custom_type)
       else if (response.1 =? 409) && negb is_put then http (PutType type_name custom_type)
       else mret response) ;;
    if is_success response.1 then
      s <- get_self ;;
      put_self (set_cache (<[type_name := custom_type]> (_existing_types_cache s))
                  (set_created ({[type_name]} ∪ _created_types s) s)) ;;;
      mret true
    else mret false.

Definition create_custom_type (generated_type : GeneratedType.t) : M bool :=
  mcatch
    (valid <- _is_valid_generated_type generated_type ;;
     if negb valid then mret false
     else
       custom_type_payload <- mlift (_build_custom_type_payload int_of_str str_upper str_isdigit generated_type) ;;
       match custom_type_payload with
       | None => mret false
       | Some payload => _upsert_custom_type payload
       end)
    (mret false).

(** The number of write requests (POST or PUT of a type) sent so far. *)
Definition writes (w : world) : Z := count_if is_write (sent w).

End Lifecycle.

(** ** Two registries to run the lifecycle manager against *)

(** A registry that stores what it is sent: it lists its entries, and
    answers 201 to a create and 200 to an update. *)
Definition accepting_registry (r : registry_request) (stored : list Payload.t)
    : http_outcome (list Payload.t) * list Payload.t :=
  match r with
  | GetCustomOnly => (Response 200 (Some stored), stored)
  | PostType p => (Response 201 None, (stored ++ [p])%list)
  | PutType _ p => (Response 200 None, (stored ++ [p])%list)
  end.

(** A registry that lists its entries but answers 500 to every write. *)
Definition rejecting_registry (r : registry_request) (stored : list Payload.t)
    : http_outcome (list Payload.t) * list Payload.t :=
  match r with
  | GetCustomOnly => (Response 200 (Some stored), stored)
  | PostType _ | PutType _ _ => (Response 500 None, stored)
  end.

(** A registry that lists its entries, answers 409 to a create (the name
    is taken by a type it does not list) and 200 to an update. *)
Definition conflicting_registry (r : registry_request) (stored : list Payload.t)
    : http_outcome (list Payload.t) * list Payload.t :=
  match r with
  | GetCustomOnly => (Response 200 (Some stored), stored)
  | PostType _ => (Response 409 None, stored)
  | PutType _ p => (Response 200 None, (stored ++ [p])%list)
  end.

(** A fresh evaluator, as [__init__] leaves it, in front of a registry. *)
Definition fresh_world {Registry : Type} (reg : Registry) : world Registry :=
  {| self := {| _created_types := ∅; _existing_types_cache := ∅;
                _only_types_regex := None; _dry_run_create := false |};
     registry := reg;
     sent := [] |}.

(** A well-formed [regex] type, and the payload that is built for it. *)
Definition zip_type : GeneratedType.t :=
  {| GeneratedType.semanticType := Some "ZIP";
     GeneratedType.description := Some "US postal code";
     GeneratedType.pluginType := Some "regex";
     GeneratedType.baseType := None;
     GeneratedType.confidenceThreshold := PFloat 0.5;
     GeneratedType.priority := PNone;
     GeneratedType.regexPattern := Some "^\d{5}$";
     GeneratedType.listValues := None;
     GeneratedType.backout := None;
     GeneratedType.headerPatterns := [] |}.

Definition zip_payload : Payload.t :=
  {| Payload.semanticType := Some "ZIP";
     Payload.description := Some "US postal code";
     Payload.pluginType := Some "regex";
     Payload.baseType := Some "LONG";
     Payload.threshold := Some 95;
     Payload.priority := Some 1000;
     Payload.validLocales :=
       Some [ {| Payload.localeTag := Some "*"; Payload.headerRegExps := None;
                 Payload.matchEntries :=
                   Some [ {| Payload.regExpReturned := Some "^\d{5}$";
                             Payload.isRegExpComplete := Some true |} ] |} ];
     Payload.content := None;
     Payload.backout := None;
     Payload.ephemeral := None |}.

(** The name and the label that [_parse_predictions] reads from a column
    object: [col.get('column_name') or col.get('columnName') or
    col.get('name') or ''] and [col.get('semantic_type') or
    col.get('semanticType')]. *)
Definition entry_name (c : column_entry) : string :=
  or_str (or_opt (or_opt (ce_column_name c) (ce_columnName c)) (ce_name c)) "".

Definition entry_label (c : column_entry) : option string :=
  or_opt (ce_semantic_type c) (ce_semanticType c).

(** ** Dataset loader: the single-file ground truth and the scoring pipeline *)

(** Body of the header loop of [load_ground_truth]: a header that is
    empty, "nan" or blank is skipped; a ground-truth row that is too short
    reads as the empty string. *)
Definition ground_truth_step (baseline_row custom_row : list cell)
    (acc : ground_truth_map * ground_truth_map) (item : nat * cell)
    : ground_truth_map * ground_truth_map :=
  let '(gt_base, gt_cust) := acc in
  let '(idx, header) := item in
  let col_name := str_of_cell header in
  if negb (PyStr.truthy col_name) || String.eqb (PyStr.lower col_name) "nan"
     || negb (PyStr.truthy (PyStr.strip col_name))
  then acc
  else
    let record (row : list cell) (gt : ground_truth_map) : ground_truth_map :=
      match gt_label (default (Some "") (row !! idx)) with
      | Some t => <[col_name := t]> gt
      | None => gt
      end in
    (record baseline_row gt_base, record custom_row gt_cust).

(** [load_ground_truth]: the active map that it returns, and the two maps
    that it stores in [_gt_baseline] and [_gt_custom] (it also sets
    [_headers_row_index] to 2).  [read_data_file] is what
    [pd.read_csv(self.data_file, ...)] gives at line 400: the frame, or
    the exception that the read raises, which nothing here catches.  The
    class declares [data_file] but no line of the file assigns it, so on
    an evaluator that [__init__] has built and nobody has touched the read
    is [Raise AttributeError]. *)
Definition load_ground_truth (_baseline_mode : bool) (read_data_file : result frame)
    : result (ground_truth_map * (ground_truth_map * ground_truth_map)) :=
  data_df <-? read_data_file ;;
  if len data_df <? 4 then Raise ValueError
  else
    let headers_row := default [] (data_df !! 2%nat) in
    let baseline_row := default [] (data_df !! 0%nat) in
    let custom_row := default [] (data_df !! 1%nat) in
    let '(gt_base, gt_cust) :=
      fold_left (ground_truth_step baseline_row custom_row) (enumerate headers_row) (∅, ∅) in
    let active := if _baseline_mode then gt_base else gt_cust in
    Ok (active, (gt_base, gt_cust)).

Section ProfileAndScore.

Variable int_of_str : string -> option Z.
Variable environ : gmap string string.
Variable post_classify_table : profile_request -> http_outcome predictions_payload.

(** [_profile_and_score] on the frame that [pd.read_csv] reads from
    [file_path]. *)
Definition _profile_and_score (dataset : string) (_full_data : bool)
    (df : frame) (custom_only : bool) : result MetricSet :=
  loaded <-? _load_universal df ;;
  let '(headers, rows, gt_base, gt_custom) := loaded in
  preds <-? profile_rows int_of_str environ post_classify_table
              dataset _full_data headers rows custom_only ;;
  let gt := if custom_only then gt_custom else gt_base in
  classifications <-? _parse_predictions preds ;;
  Ok (calculate_metrics classifications gt).

End ProfileAndScore.

(** ** Type lifecycle manager: clearing *)

(** The calls that the clearing functions make. *)
Inductive cleanup_request : Type :=
  | ListCustomTypes                 (* GET    /semantic-types/custom-only *)
  | DeleteType (name : string).     (* DELETE /semantic-types/{name} *)

Section Clearing.

Variable Registry : Type.

(** The registry answering the calls of the clearing functions. *)
Variable serve_cleanup :
  cleanup_request -> Registry -> http_outcome (list Payload.t) * Registry.

(** The delete loop of both clearing functions: one DELETE per name,
    whatever status comes back (the status is only logged and counted); an
    exception of the HTTP call leaves the loop.  It gives back whether the
    loop ran to its end, the registry, and the requests sent. *)
Fixpoint delete_each (names : list string) (reg : Registry)
    : bool * Registry * list cleanup_request :=
  match names with
  | [] => (true, reg, [])
  | name :: rest =>
      match serve_cleanup (DeleteType name) reg with
      | (Response _ _, reg') =>
          let '(finished, reg'', log) := delete_each rest reg' in
          (finished, reg'', DeleteType name :: log)
      | (HttpRaise _, reg') => (false, reg', [DeleteType name])
      end
  end.

Definition set_registry (reg : Registry) (w : world Registry) : world Registry :=
  {| self := self Registry w; registry := reg; sent := sent Registry w |}.

(** The names that [_clear_all_custom_types] goes on to delete: an entry
    without a name is skipped. *)
Definition names_to_clear (custom_types : list Payload.t) : list string :=
  omap (fun t => if opt_truthy (Payload.semanticType t)
                 then Payload.semanticType t else None) custom_types.

(** [_clear_all_custom_types]: the world it leaves and the requests it
    sent; every exception is caught and logged. *)
Definition _clear_all_custom_types (w : world Registry)
    : world Registry * list cleanup_request :=
  match serve_cleanup ListCustomTypes (registry Registry w) with
  | (HttpRaise _, reg') => (set_registry reg' w, [ListCustomTypes])
  | (Response status_code json, reg') =>
      if negb (status_code =? 200) then (set_registry reg' w, [ListCustomTypes])
      else
        match response_json json with
        | Raise _ => (set_registry reg' w, [ListCustomTypes])
        | Ok custom_types =>
            let '(_, reg'', log) := delete_each (names_to_clear custom_types) reg' in
            (set_registry reg'' w, ListCustomTypes :: log)
        end
  end.

(** [clear_custom_types]: with [preserve_existing] the types created in
    this session are deleted (the set is iterated in the order of its
    elements) and the set is emptied once the loop has ended; otherwise
    every custom type of the registry is deleted. *)
Definition clear_custom_types (preserve_existing : bool) (w : world Registry)
    : world Registry * list cleanup_request :=
  if preserve_existing then
    if bool_decide (_created_types (self Registry w) = ∅) then (w, [])
    else
      let '(finished, reg', log) :=
        delete_each (elements (_created_types (self Registry w))) (registry Registry w) in
      if finished
      then ({| self := set_created ∅ (self Registry w); registry := reg';
               sent := sent Registry w |}, log)
      else (set_registry reg' w, log)
  else _clear_all_custom_types w.

End Clearing.

(** ** Session bookkeeping *)

(** The loop that keeps the first occurrence of every non-empty tag
    ([__init__], lines 183-190; [_find_generated_types_file], lines
    593-598): [if c and c not in seen: uniq.append(c); seen.add(c)]. *)
Definition unique_step (acc : list string * gset string) (c : string)
    : list string * gset string :=
  let '(uniq, seen) := acc in
  if PyStr.truthy c && negb (bool_decide (c ∈ seen))
  then ((uniq ++ [c])%list, {[c]} ∪ seen)
  else acc.

Definition unique_tags (candidates : list string) : list string :=
  (fold_left unique_step candidates ([], ∅)).1.

(** The progress units of [run_comparative_evaluation].  [desc_types] is
    the dict of the preloaded generated types, read as [desc_types[d]]. *)
Section Progress.

Context {File : Type}.
Variable input_files : list File.
Variable desc_types : Z -> list GeneratedType.t.

(** [total_units], computed up front. *)
Definition total_units (descriptions : list Z) : Z :=
  fold_left (fun total d => total + (1 + 1 + len (desc_types d) + len input_files + 1))
            descriptions (len input_files + 1).

(** [bar.update(1)] in every pass of a loop over [l]. *)
Definition update_each {A} (l : list A) (n : Z) : Z :=
  fold_left (fun n _ => n + 1) l n.

(** The position [bar.n] when the bar is closed, if no step raised: the
    baseline files and the baseline metrics, then per description the
    clear, the load, each type, each file and the metrics. *)
Definition bar_position (descriptions : list Z) : Z :=
  let n := 0 in
  let n := update_each input_files n in
  let n := n + 1 in
  fold_left (fun n desc_num =>
               let n := n + 1 in
               let n := n + 1 in
               let n := update_each (desc_types desc_num) n in
               let n := update_each input_files n in
               n + 1)
            descriptions n.

End Progress.

(** ** Two registries to run the clearing functions against *)

(** A registry that lists its entries and deletes the entries of a name. *)
Definition deleting_registry (r : cleanup_request) (stored : list Payload.t)
    : http_outcome (list Payload.t) * list Payload.t :=
  match r with
  | ListCustomTypes => (Response 200 (Some stored), stored)
  | DeleteType name =>
      (Response 204 None, filter (fun t => Payload.semanticType t <> Some name) stored)
  end.

(** A registry that lists its entries but answers 500 to every delete. *)
Definition refusing_registry (r : cleanup_request) (stored : list Payload.t)
    : http_outcome (list Payload.t) * list Payload.t :=
  match r with
  | ListCustomTypes => (Response 200 (Some stored), stored)
  | DeleteType _ => (Response 500 None, stored)
  end.

(* ===================================================================== *)
(** * Part II.  Properties                                                *)
(* ===================================================================== *)

Example score_one_hit :
  calculate_metrics [("A", {| semantic_type := Some "ZIP"; semanticType := None |})]
                    {[ "A" := "ZIP" ]}
  = {| accuracy := NFloat 1; precision := NFloat 1; recall := NFloat 1; f1_score := NFloat 1;
       total_columns := 1; excluded_columns := 0; correct_predictions := 1;
       true_positives := 1; false_positives := 0; false_negatives := 0;
       details := [ {| column := "A"; predicted := "ZIP"; actual := "ZIP"; correct := true |} ] |}.
Proof. vm_compute. reflexivity. Qed.

(** ** Counting *)

Lemma fold_add_shift (l : list Z) (a : Z) :
  fold_left Z.add l a = a + py_sum l.
Proof.
  unfold py_sum. revert a.
  induction l as [|x l IH]; intros a; cbn [fold_left].
  - lia.
  - rewrite (IH (a + x)), (IH (0 + x)). lia.
Qed.

Lemma count_if_nil {A} (p : A -> bool) : count_if p [] = 0.
Proof. reflexivity. Qed.

Lemma count_if_cons {A} (p : A -> bool) (x : A) (l : list A) :
  count_if p (x :: l) = (if p x then 1 else 0) + count_if p l.
Proof.
  unfold count_if. simpl. destruct (p x); [|lia].
  simpl. unfold py_sum. simpl. rewrite fold_add_shift. reflexivity.
Qed.

Lemma count_if_app {A} (p : A -> bool) (l1 l2 : list A) :
  count_if p (l1 ++ l2) = count_if p l1 + count_if p l2.
Proof.
  induction l1 as [|x l1 IH]; simpl.
  - rewrite count_if_nil. lia.
  - rewrite !count_if_cons, IH. lia.
Qed.

Lemma count_if_length {A} (p : A -> bool) (l : list A) :
  count_if p l = Z.of_nat (length (List.filter p l)).
Proof.
  induction l as [|x l IH]; [reflexivity|].
  rewrite count_if_cons, IH. simpl. destruct (p x); simpl; lia.
Qed.

Lemma count_if_bounds {A} (p : A -> bool) (l : list A) :
  0 <= count_if p l <= len l.
Proof.
  induction l as [|x l IH]; unfold len in *; simpl length.
  - rewrite count_if_nil. simpl. lia.
  - rewrite count_if_cons. destruct (p x); lia.
Qed.

Lemma count_if_perm {A} (p : A -> bool) (l1 l2 : list A) :
  l1 ≡ₚ l2 -> count_if p l1 = count_if p l2.
Proof.
  induction 1 as [|x l1 l2 _ IH|x y l|l1 l2 l3 _ IH1 _ IH2].
  - reflexivity.
  - rewrite !count_if_cons, IH. reflexivity.
  - rewrite !count_if_cons. lia.
  - congruence.
Qed.

Lemma len_app {A} (l1 l2 : list A) : len (l1 ++ l2) = len l1 + len l2.
Proof. unfold len. rewrite length_app. lia. Qed.

Lemma len_cons {A} (x : A) (l : list A) : len (x :: l) = 1 + len l.
Proof. unfold len. simpl length. lia. Qed.

Lemma len_perm {A} (l1 l2 : list A) : l1 ≡ₚ l2 -> len l1 = len l2.
Proof. intros H. unfold len. by rewrite H. Qed.

(** ** The classification loop *)

Lemma classify_step_acc gt rd ex item :
  classify_step gt (rd, ex) item =
  ((rd ++ (classify_step gt ([], []) item).1)%list,
   (ex ++ (classify_step gt ([], []) item).2)%list).
Proof.
  destruct item as [col cls]. unfold classify_step.
  destruct (no_label (gt !! col)); simpl; by rewrite ?app_nil_r.
Qed.

Lemma classify_fold_acc gt cls rd ex :
  fold_left (classify_step gt) cls (rd, ex) =
  ((rd ++ (_compute_classification_details cls gt).1)%list,
   (ex ++ (_compute_classification_details cls gt).2)%list).
Proof.
  unfold _compute_classification_details.
  revert rd ex. induction cls as [|item cls IH]; intros rd ex; cbn [fold_left].
  - simpl. by rewrite !app_nil_r.
  - rewrite (classify_step_acc gt rd ex), IH.
    destruct (classify_step gt ([], []) item) as [rd1 ex1] eqn:E1.
    rewrite (IH rd1 ex1). simpl. by rewrite !app_assoc.
Qed.

Lemma classify_cons gt item cls :
  _compute_classification_details (item :: cls) gt =
  (((classify_step gt ([], []) item).1 ++ (_compute_classification_details cls gt).1)%list,
   ((classify_step gt ([], []) item).2 ++ (_compute_classification_details cls gt).2)%list).
Proof.
  unfold _compute_classification_details at 1. cbn [fold_left].
  destruct (classify_step gt ([], []) item) as [rd1 ex1].
  apply classify_fold_acc.
Qed.

Lemma classify_perm gt cls cls' :
  cls ≡ₚ cls' ->
  (_compute_classification_details cls gt).1 ≡ₚ (_compute_classification_details cls' gt).1 /\
  (_compute_classification_details cls gt).2 ≡ₚ (_compute_classification_details cls' gt).2.
Proof.
  induction 1 as [|x l1 l2 _ [IH1 IH2]|x y l|l1 l2 l3 _ [IHa IHb] _ [IHc IHd]].
  - done.
  - rewrite !classify_cons. simpl. by rewrite IH1, IH2.
  - rewrite !classify_cons. simpl. split.
    + rewrite !app_assoc. f_equiv. apply Permutation_app_comm.
    + rewrite !app_assoc. f_equiv. apply Permutation_app_comm.
  - split; etrans; eauto.
Qed.

(** Every detail row is built from an entry of the prediction map, carries
    the ground-truth label of its column, and is flagged correct exactly
    when the two labels are equal. *)
Lemma classify_details_spec gt cls d :
  d ∈ (_compute_classification_details cls gt).1 ->
  column d ∈ cls.*1 /\
  gt !! column d = Some (actual d) /\
  (correct d = true <-> predicted d = actual d).
Proof.
  induction cls as [|[col c] cls IH].
  - simpl. by intros ?%elem_of_nil.
  - rewrite classify_cons. cbn [fst]. intros [Hd|Hd]%elem_of_app.
    + unfold classify_step in Hd.
      destruct (no_label (gt !! col)) eqn:Hl; simpl in Hd.
      { by apply elem_of_nil in Hd. }
      apply list_elem_of_singleton in Hd. subst d. simpl.
      split; [set_solver|]. split.
      * unfold no_label in Hl. destruct (gt !! col); simpl in *; [done|discriminate].
      * rewrite String.eqb_eq. done.
    + destruct (IH Hd) as (? & ? & ?). split; [|done].
      rewrite fmap_cons. set_solver.
Qed.

Lemma classify_excluded_spec gt cls c :
  c ∈ (_compute_classification_details cls gt).2 -> c ∈ cls.*1.
Proof.
  induction cls as [|[col cl] cls IH].
  - simpl. by intros ?%elem_of_nil.
  - rewrite classify_cons. cbn [snd]. rewrite fmap_cons. intros [Hd|Hd]%elem_of_app.
    + unfold classify_step in Hd.
      destruct (no_label (gt !! col)); simpl in Hd; set_solver.
    + set_solver.
Qed.

Lemma classify_partition gt cls :
  len (_compute_classification_details cls gt).1 +
  len (_compute_classification_details cls gt).2 = len cls.
Proof.
  induction cls as [|[col cl] cls IH]; [reflexivity|].
  rewrite classify_cons. cbn [fst snd]. rewrite !len_app.
  unfold classify_step. destruct (no_label (gt !! col)); unfold len in *; simpl; lia.
Qed.

Lemma classify_ignores_other_labels gt gt' cls :
  (forall c, c ∈ cls.*1 -> gt' !! c = gt !! c) ->
  _compute_classification_details cls gt' = _compute_classification_details cls gt.
Proof.
  induction cls as [|[col cl] cls IH]; intros H; [reflexivity|].
  rewrite !classify_cons, IH.
  - unfold classify_step. rewrite (H col); [done|]. rewrite fmap_cons. set_solver.
  - intros c Hc. apply H. rewrite fmap_cons. set_solver.
Qed.

(** ** Scoring engine: the claims *)

Lemma metric_counts_perm (d1 d2 : list detail) (e1 e2 : Z) :
  d1 ≡ₚ d2 -> e1 = e2 ->
  let m1 := _calculate_metric_scores d1 e1 in
  let m2 := _calculate_metric_scores d2 e2 in
  accuracy m1 = accuracy m2 /\ precision m1 = precision m2 /\
  recall m1 = recall m2 /\ f1_score m1 = f1_score m2 /\
  total_columns m1 = total_columns m2 /\ excluded_columns m1 = excluded_columns m2 /\
  correct_predictions m1 = correct_predictions m2 /\
  true_positives m1 = true_positives m2 /\
  false_positives m1 = false_positives m2 /\
  false_negatives m1 = false_negatives m2.
Proof.
  intros Hp ->. simpl.
  rewrite (count_if_perm (fun d => correct d) _ _ Hp),
          (count_if_perm is_true_positive _ _ Hp),
          (count_if_perm is_false_positive _ _ Hp),
          (count_if_perm is_false_negative _ _ Hp),
          (len_perm _ _ Hp).
  repeat split.
Qed.

Lemma incorrect_counted_once_or_twice (l : list detail) :
  Forall (fun d => correct d = true <-> predicted d = actual d) l ->
  len l - count_if (fun d => correct d) l <=
  count_if is_false_positive l + count_if is_false_negative l.
Proof.
  induction 1 as [|d l Hd _ IH].
  - rewrite !count_if_nil. unfold len. simpl. lia.
  - rewrite !count_if_cons, len_cons.
    revert IH.
    generalize (count_if (fun d => correct d) l) (count_if is_false_positive l)
               (count_if is_false_negative l) (len l).
    intros c fp fn n IH.
    unfold is_false_positive, is_false_negative, is_none_label.
    destruct (correct d) eqn:Hc; cbn [negb andb]; [lia|].
    destruct (String.eqb_spec (predicted d) "NONE") as [Hp|Hp]; cbn [negb];
      [|destruct (negb _); lia].
    destruct (String.eqb_spec (actual d) "NONE") as [Ha|Ha]; cbn [negb]; [|lia].
    assert (false = true); [|discriminate].
    apply Hd. congruence.
Qed.

Lemma indicators_spec (d : detail) :
  (correct d = true <-> predicted d = actual d) ->
  (is_true_positive d = true <-> predicted d = actual d /\ predicted d <> "NONE") /\
  (is_false_positive d = true <-> predicted d <> actual d /\ predicted d <> "NONE") /\
  (is_false_negative d = true <-> predicted d <> actual d /\ actual d <> "NONE") /\
  (predicted d <> actual d ->
     (is_false_positive d = true \/ is_false_negative d = true) /\
     (predicted d = "NONE" -> is_false_positive d = false /\ is_false_negative d = true)).
Proof.
  intros Hinv.
  unfold is_true_positive, is_false_positive, is_false_negative, is_none_label.
  destruct (String.eqb_spec (predicted d) "NONE") as [Hp|Hp];
  destruct (String.eqb_spec (actual d) "NONE") as [Ha|Ha];
  destruct (correct d); cbn [negb andb];
  intuition (try discriminate; try congruence).
Qed.

(** C1 (as amended).  For the columns that [_compute_classification_details]
    scores, the three counters of [_calculate_metric_scores] count exactly
    the rows with: prediction equal to the label and not "NONE" (TP);
    prediction different from the label and not "NONE" (FP); prediction
    different from the label and label not "NONE" (FN).  An incorrectly
    classified column is therefore counted at least once: as a false
    positive exactly when something was predicted, as a false negative
    exactly when its label is not "NONE", and as both when both hold. *)
Theorem C1_tp_fp_fn_counts (cls : prediction_map) (gt : ground_truth_map) :
  let m := calculate_metrics cls gt in
  true_positives m = Z.of_nat (length (List.filter is_true_positive (details m))) /\
  false_positives m = Z.of_nat (length (List.filter is_false_positive (details m))) /\
  false_negatives m = Z.of_nat (length (List.filter is_false_negative (details m))) /\
  (forall d, d ∈ details m ->
     (is_true_positive d = true <-> predicted d = actual d /\ predicted d <> "NONE") /\
     (is_false_positive d = true <-> predicted d <> actual d /\ predicted d <> "NONE") /\
     (is_false_negative d = true <-> predicted d <> actual d /\ actual d <> "NONE") /\
     (predicted d <> actual d ->
        (is_false_positive d = true \/ is_false_negative d = true) /\
        (predicted d = "NONE" -> is_false_positive d = false /\ is_false_negative d = true))) /\
  total_columns m - correct_predictions m <= false_positives m + false_negatives m.
Proof.
  unfold calculate_metrics.
  destruct (_compute_classification_details cls gt) as [rd ex] eqn:E.
  assert (Hinv : forall d, d ∈ rd -> correct d = true <-> predicted d = actual d).
  { intros d Hd. apply (classify_details_spec gt cls). by rewrite E. }
  cbn zeta. cbn [true_positives false_positives false_negatives details
                 total_columns correct_predictions _calculate_metric_scores].
  split; [apply count_if_length|]. split; [apply count_if_length|].
  split; [apply count_if_length|]. split.
  - intros d Hd. apply indicators_spec, Hinv, Hd.
  - apply incorrect_counted_once_or_twice.
    apply Forall_forall. intros d Hd. by apply Hinv.
Qed.

(** C1, the claim as written fails: a column with a wrong, non-"NONE"
    prediction and a non-"NONE" label is counted as a false positive and as
    a false negative at once. *)
Lemma C1_counterexample_fp_and_fn :
  let m := calculate_metrics
             [("A", {| semantic_type := Some "ZIP"; semanticType := None |})]
             {[ "A" := "EMAIL" ]} in
  total_columns m = 1 /\ correct_predictions m = 0 /\
  false_positives m = 1 /\ false_negatives m = 1 /\
  exists d, details m = [d] /\ correct d = false /\
            is_false_positive d = true /\ is_false_negative d = true.
Proof. vm_compute. repeat split; eauto 10. Qed.

(** C8.  Aggregating two metric sets adds the six counters and recomputes
    the four ratios from the sums; hence aggregating the metric sets of two
    one-file runs gives exactly the metric set obtained by scoring the two
    detail lists together (with the excluded counts added). *)
Theorem C8_aggregation_additive :
  (forall m1 m2 : MetricSet,
     let a := _aggregate_metrics_list [m1; m2] in
     correct_predictions a = correct_predictions m1 + correct_predictions m2 /\
     true_positives a = true_positives m1 + true_positives m2 /\
     false_positives a = false_positives m1 + false_positives m2 /\
     false_negatives a = false_negatives m1 + false_negatives m2 /\
     total_columns a = total_columns m1 + total_columns m2 /\
     excluded_columns a = excluded_columns m1 + excluded_columns m2 /\
     details a = (details m1 ++ details m2)%list /\
     accuracy a = ratio (correct_predictions a) (total_columns a) /\
     precision a = ratio (true_positives a) (true_positives a + false_positives a) /\
     recall a = ratio (true_positives a) (true_positives a + false_negatives a) /\
     f1_score a = f1_of (precision a) (recall a)) /\
  (forall (d1 d2 : list detail) (e1 e2 : Z),
     _aggregate_metrics_list [_calculate_metric_scores d1 e1; _calculate_metric_scores d2 e2]
     = _calculate_metric_scores (d1 ++ d2) (e1 + e2)).
Proof.
  assert (Hd : forall (ds : list detail) (m : MetricSet),
             match details m with [] => ds | _ => (ds ++ details m)%list end
             = (ds ++ details m)%list).
  { intros ds m. destruct (details m); [by rewrite app_nil_r|done]. }
  split.
  - intros m1 m2. unfold _aggregate_metrics_list. cbn [fold_left aggregate_step].
    rewrite !Hd. cbn. repeat split; try lia.
  - intros d1 d2 e1 e2. unfold _aggregate_metrics_list. cbn [fold_left aggregate_step].
    rewrite !Hd. unfold _calculate_metric_scores. cbn.
    rewrite !count_if_app, len_app.
    repeat match goal with
           | |- context [0 + ?x + ?y] => replace (0 + x + y) with (x + y) by lia
           end.
    reflexivity.
Qed.

(** Summing first is not averaging: one file with its single column right
    and one file with three columns wrong aggregate to accuracy 1/4, not to
    the mean 1/2 of the two per-file accuracies. *)
Example aggregate_is_not_mean_of_ratios :
  let hit := {| column := "a"; predicted := "X"; actual := "X"; correct := true |} in
  let miss := {| column := "b"; predicted := "X"; actual := "Y"; correct := false |} in
  accuracy (_aggregate_metrics_list
              [_calculate_metric_scores [hit] 0;
               _calculate_metric_scores [miss; miss; miss] 0]) = NFloat 0.25.
Proof. vm_compute. reflexivity. Qed.

(** C9 (as amended).  Reordering the prediction map leaves the six counters
    and the four ratios unchanged; the detail list is reordered along with
    the map. *)
Theorem C9_scoring_permutation_invariant
    (cls cls' : prediction_map) (gt : ground_truth_map) :
  cls ≡ₚ cls' ->
  let m := calculate_metrics cls gt in
  let m' := calculate_metrics cls' gt in
  accuracy m = accuracy m' /\ precision m = precision m' /\
  recall m = recall m' /\ f1_score m = f1_score m' /\
  total_columns m = total_columns m' /\ excluded_columns m = excluded_columns m' /\
  correct_predictions m = correct_predictions m' /\
  true_positives m = true_positives m' /\
  false_positives m = false_positives m' /\
  false_negatives m = false_negatives m' /\
  details m ≡ₚ details m'.
Proof.
  intros Hp. destruct (classify_perm gt cls cls' Hp) as [H1 H2].
  unfold calculate_metrics.
  destruct (_compute_classification_details cls gt) as [rd ex].
  destruct (_compute_classification_details cls' gt) as [rd' ex'].
  simpl in H1, H2.
  pose proof (metric_counts_perm rd rd' (len ex) (len ex') H1 (len_perm _ _ H2)) as H.
  cbv zeta in H. cbv zeta. intuition.
Qed.

Lemma C9_scoring_permutation_invariant_witness :
  let a := ("A", {| semantic_type := Some "ZIP"; semanticType := None |}) in
  let b := ("B", {| semantic_type := None; semanticType := Some "EMAIL" |}) in
  let gt : ground_truth_map := {[ "A" := "ZIP"; "B" := "PHONE" ]} in
  false_positives (calculate_metrics [a; b] gt) = false_positives (calculate_metrics [b; a] gt).
Proof.
  intros a b gt.
  apply (C9_scoring_permutation_invariant [a; b] [b; a] gt).
  apply Permutation_swap.
Defined.

(** C9, the claim as written fails: the two orders of a two-column
    prediction map give different metric sets, because the detail list
    follows the order of the map. *)
Lemma C9_counterexample_details_order :
  let a := ("A", {| semantic_type := Some "ZIP"; semanticType := None |}) in
  let b := ("B", {| semantic_type := Some "EMAIL"; semanticType := None |}) in
  let gt : ground_truth_map := {[ "A" := "ZIP"; "B" := "EMAIL" ]} in
  [a; b] ≡ₚ [b; a] /\
  calculate_metrics [a; b] gt <> calculate_metrics [b; a] gt /\
  details (calculate_metrics [a; b] gt) <> details (calculate_metrics [b; a] gt).
Proof.
  intros a b gt. split; [apply Permutation_swap|].
  split.
  - intros H. apply (f_equal details) in H. vm_compute in H. discriminate H.
  - intros H. vm_compute in H. discriminate H.
Qed.

(** C10.  A ground-truth column that the prediction map does not mention
    changes nothing: adding, relabelling or removing it leaves the whole
    metric set as it is; every scored or excluded column is a key of the
    prediction map, and scored and excluded columns together are exactly
    the entries of the prediction map. *)
Theorem C10_unpredicted_label_not_counted
    (cls : prediction_map) (gt : ground_truth_map) (col label : string) :
  col ∉ cls.*1 ->
  calculate_metrics cls (<[col := label]> gt) = calculate_metrics cls gt /\
  calculate_metrics cls (delete col gt) = calculate_metrics cls gt /\
  (forall d, d ∈ details (calculate_metrics cls gt) -> column d ∈ cls.*1 /\ column d <> col) /\
  total_columns (calculate_metrics cls gt) + excluded_columns (calculate_metrics cls gt)
    = len cls.
Proof.
  intros Hcol. unfold calculate_metrics.
  rewrite (classify_ignores_other_labels gt (<[col := label]> gt) cls),
          (classify_ignores_other_labels gt (delete col gt) cls).
  - pose proof (classify_partition gt cls) as Hpart.
    pose proof (classify_details_spec gt cls) as Hspec.
    destruct (_compute_classification_details cls gt) as [rd ex].
    simpl in *. repeat split; try done.
    + by apply Hspec.
    + intros Heq. apply Hcol. rewrite <- Heq. by apply Hspec.
  - intros c Hc. apply lookup_delete_ne. by intros ->.
  - intros c Hc. apply lookup_insert_ne. by intros ->.
Qed.

Lemma C10_unpredicted_label_not_counted_witness :
  let cls := [("A", {| semantic_type := Some "ZIP"; semanticType := None |})] in
  let gt : ground_truth_map := {[ "A" := "ZIP" ]} in
  calculate_metrics cls (<["B" := "EMAIL"]> gt) = calculate_metrics cls gt.
Proof.
  intros cls gt.
  apply (C10_unpredicted_label_not_counted cls gt "B" "EMAIL").
  vm_compute. intros H. inversion H as [|? ? ? H']; inversion H'.
Defined.

(** ** Dataset loader: the claims *)

Example load_small_frame :
  _load_universal
    [ [Some "NUM"; None; Some "EMAIL.2"];
      [Some "ZIP"; Some "X"; None];
      [Some "A"; None; Some "C"];
      [Some "1"; Some "2"; Some " "] ]
  = Ok (["A"; "C"],
        [ {[ "A" := Some "1"; "C" := Some "2" ]} ],
        {[ "A" := "NUM"; "C" := "EMAIL" ]},
        {[ "A" := "ZIP" ]}).
Proof. vm_compute. reflexivity. Qed.

Lemma skipped_header_false (name : string) :
  skipped_header name = false -> name <> "" /\ PyStr.lower name <> "nan".
Proof.
  unfold skipped_header, PyStr.truthy. intros H.
  apply orb_false_elim in H as [H1 H2].
  apply negb_false_iff in H1. apply negb_true_iff in H1.
  split.
  - intros ->. discriminate.
  - by apply String.eqb_neq.
Qed.

Lemma record_label_dom row idx name (gt : ground_truth_map) (c : string) :
  is_Some (record_label row idx name gt !! c) -> c = name \/ is_Some (gt !! c).
Proof.
  unfold record_label.
  destruct (row !! idx) as [cl|]; [|by right].
  destruct (gt_label cl) as [t|]; [|by right].
  destruct (decide (c = name)) as [->|Hne]; [by left|].
  rewrite lookup_insert_ne by done. by right.
Qed.

Lemma header_step_inv baseline_row custom_row acc item :
  header_inv acc -> header_inv (header_step baseline_row custom_row acc item).
Proof.
  destruct acc as [[headers gb] gc], item as [idx h].
  intros (Hh & Hb & Hc). unfold header_step.
  destruct (skipped_header (str_of_cell h)) eqn:Hs; [done|].
  apply skipped_header_false in Hs.
  split; [|split]; simpl in *.
  - apply Forall_app. split; [done|]. by apply Forall_singleton.
  - intros c [->|H]%record_label_dom; set_solver.
  - intros c [->|H]%record_label_dom; set_solver.
Qed.

Lemma header_loop_inv baseline_row custom_row items acc :
  header_inv acc -> header_inv (fold_left (header_step baseline_row custom_row) items acc).
Proof.
  revert acc. induction items as [|item items IH]; intros acc H; [done|].
  simpl. apply IH. by apply header_step_inv.
Qed.

(** C7.  On a frame of at least four rows the loader returns, and the
    header list it returns has no empty name and no name that lower-cases
    to "nan"; every key of the baseline and of the custom ground-truth map
    is one of the returned headers. *)
Theorem C7_loader_headers_and_labels (df : frame) :
  4 <= len df ->
  exists headers rows gt_base gt_custom,
    _load_universal df = Ok (headers, rows, gt_base, gt_custom) /\
    Forall (fun h => h <> "" /\ PyStr.lower h <> "nan") headers /\
    (forall c, c ∈ dom gt_base -> c ∈ headers) /\
    (forall c, c ∈ dom gt_custom -> c ∈ headers).
Proof.
  intros Hrows. unfold _load_universal.
  destruct (len df <? 4) eqn:Hlt; [apply Z.ltb_lt in Hlt; lia|].
  pose proof (header_loop_inv (default [] (df !! 0%nat)) (default [] (df !! 1%nat))
                (enumerate (default [] (df !! 2%nat))) ([], ∅, ∅)) as Hinv.
  destruct (fold_left _ _ _) as [[headers gb] gc].
  destruct Hinv as (Hh & Hb & Hc).
  { split; [constructor|]. split; intros c [x Hx]; simpl in Hx; by rewrite lookup_empty in Hx. }
  exists headers, (map (build_data_row headers) (drop 3 df)), gb, gc.
  split; [done|]. split; [done|].
  split; intros c Hin%elem_of_dom; auto.
Qed.

Lemma C7_loader_headers_and_labels_witness :
  exists headers rows gt_base gt_custom,
    _load_universal
      [ [Some "NUM"; None]; [Some "ZIP"; Some "X"]; [Some "A"; Some "NaN"]; [Some "1"; Some "2"] ]
    = Ok (headers, rows, gt_base, gt_custom) /\
    Forall (fun h => h <> "" /\ PyStr.lower h <> "nan") headers /\
    (forall c, c ∈ dom gt_base -> c ∈ headers) /\
    (forall c, c ∈ dom gt_custom -> c ∈ headers).
Proof.
  apply (C7_loader_headers_and_labels
           [ [Some "NUM"; None]; [Some "ZIP"; Some "X"]; [Some "A"; Some "NaN"];
             [Some "1"; Some "2"] ]).
  vm_compute. discriminate.
Defined.

(** Fewer than four rows is a format error. *)
Lemma load_too_short (df : frame) : len df < 4 -> _load_universal df = Raise ValueError.
Proof. intros H. unfold _load_universal. by apply Z.ltb_lt in H as ->. Qed.

(** ** Per-column outcome tables: the claims *)

Lemma outcome_of_spec (b c : bool) :
  (outcome_of b c = Both <-> b = true /\ c = true) /\
  (outcome_of b c = CustomOnly <-> b = false /\ c = true) /\
  (outcome_of b c = BaselineOnly <-> b = true /\ c = false) /\
  (outcome_of b c = Neither <-> b = false /\ c = false).
Proof. destruct b, c; cbn; intuition discriminate. Qed.

Lemma outcome_label_of (st : column_stats) :
  outcome_label st =
  outcome_of (baseline_correct st =? total st) (custom_correct st =? total st).
Proof. reflexivity. Qed.

Lemma any_correct_spec (col : string) (maps : list (gmap string bool)) :
  any_correct col maps = true <-> exists m, m ∈ maps /\ m !! col = Some true.
Proof.
  unfold any_correct. rewrite existsb_exists. split.
  - intros (m & Hin & Hm). exists m. split; [by apply list_elem_of_In|].
    destruct (m !! col) as [[]|]; simpl in Hm; congruence.
  - intros (m & Hin & Hm). exists m. split; [by apply list_elem_of_In|].
    by rewrite Hm.
Qed.

Lemma sorted_strings_elem (cols : gset string) (c : string) :
  c ∈ sorted_strings cols <-> c ∈ cols.
Proof.
  unfold sorted_strings. rewrite merge_sort_Permutation. apply elem_of_elements.
Qed.

Lemma all_cols_elem (files : list prediction_map) (acc : gset string) (c : string) :
  c ∈ fold_left (fun (acc : gset string) (preds : prediction_map) =>
                   acc ∪ list_to_set preds.*1) files acc
  <-> c ∈ acc \/ exists preds, preds ∈ files /\ c ∈ preds.*1.
Proof.
  revert acc. induction files as [|p files IH]; intros acc; simpl.
  - split; [by left|]. intros [?|(? & []%elem_of_nil & _)]. done.
  - rewrite IH. rewrite elem_of_union, elem_of_list_to_set. split.
    + intros [[?|?]|(q & ? & ?)]; [by left| |].
      * right. exists p. split; [left|done].
      * right. exists q. split; [by right|done].
    + intros [?|(q & Hq & ?)]; [by left; left|].
      apply elem_of_cons in Hq as [->|Hq]; [by left; right|].
      right. by exists q.
Qed.

(** The inner loop touches exactly the columns it iterates over. *)
Lemma column_loop_lookup base_map cust_map (l : list string) acc (col : string) :
  NoDup l ->
  (fold_left (column_step base_map cust_map) l acc).1 !! col =
  if bool_decide (col ∈ l) then
    let st := default {| total := 0; baseline_correct := 0; custom_correct := 0 |}
                      (acc.1 !! col) in
    Some {| total := total st + 1;
            baseline_correct := if correct_in base_map col then baseline_correct st + 1
                                else baseline_correct st;
            custom_correct := if correct_in cust_map col then custom_correct st + 1
                              else custom_correct st |}
  else acc.1 !! col.
Proof.
  revert acc. induction l as [|c l IH]; intros acc Hnd.
  - simpl. done.
  - apply NoDup_cons in Hnd as [Hc Hnd]. cbn [fold_left]. rewrite (IH _ Hnd).
    destruct acc as [totals types]. unfold column_step at 1 2. cbn [fst].
    destruct (decide (col = c)) as [->|Hne].
    + rewrite (bool_decide_eq_false_2 _ Hc).
      rewrite bool_decide_eq_true_2 by left.
      by rewrite lookup_insert_eq.
    + rewrite lookup_insert_ne by done.
      destruct (bool_decide (col ∈ l)) eqn:Hl.
      * apply bool_decide_eq_true in Hl. rewrite bool_decide_eq_true_2 by (by right). done.
      * apply bool_decide_eq_false in Hl. rewrite bool_decide_eq_false_2; [done|].
        intros [?|?]%elem_of_cons; done.
Qed.

Lemma file_step_lookup acc maps (col : string) :
  (file_step acc maps).1 !! col =
  if occurs_in col maps then
    let st := default {| total := 0; baseline_correct := 0; custom_correct := 0 |}
                      (acc.1 !! col) in
    Some {| total := total st + 1;
            baseline_correct := if correct_in maps.1 col then baseline_correct st + 1
                                else baseline_correct st;
            custom_correct := if correct_in maps.2 col then custom_correct st + 1
                              else custom_correct st |}
  else acc.1 !! col.
Proof.
  destruct maps as [b c]. unfold file_step, occurs_in. cbn [fst snd].
  rewrite column_loop_lookup by apply NoDup_elements.
  rewrite (bool_decide_ext (col ∈ elements (dom b ∪ dom c)) (col ∈ dom b ∪ dom c));
    [done|apply elem_of_elements].
Qed.

Lemma aggregate_snoc files maps :
  _aggregate_per_column_outcome (files ++ [maps]) =
  file_step (_aggregate_per_column_outcome files) maps.
Proof. unfold _aggregate_per_column_outcome. by rewrite fold_left_app. Qed.

(** The counters of a column after all files: its occurrences, and the
    occurrences that are correct on either side. *)
Lemma aggregate_lookup files (col : string) :
  (_aggregate_per_column_outcome files).1 !! col =
  if count_if (occurs_in col) files =? 0 then None
  else Some {| total := count_if (occurs_in col) files;
               baseline_correct :=
                 count_if (fun f => occurs_in col f && correct_in f.1 col) files;
               custom_correct :=
                 count_if (fun f => occurs_in col f && correct_in f.2 col) files |}.
Proof.
  induction files as [|maps files IH] using rev_ind.
  - reflexivity.
  - rewrite aggregate_snoc, file_step_lookup, IH, !count_if_app, !count_if_cons, !count_if_nil.
    pose proof (count_if_bounds (occurs_in col) files) as [Hlo _].
    destruct (occurs_in col maps) eqn:Ho; cbn [andb].
    + destruct (count_if (occurs_in col) files =? 0) eqn:Hz.
      * apply Z.eqb_eq in Hz.
        pose proof (count_if_bounds (fun f => occurs_in col f && correct_in f.1 col) files).
        pose proof (count_if_bounds (fun f => occurs_in col f && correct_in f.2 col) files).
        assert (Hb : count_if (fun f => occurs_in col f && correct_in f.1 col) files = 0).
        { clear -Hz Hlo. induction files as [|f files IH'].
          - reflexivity.
          - rewrite count_if_cons in *.
            pose proof (count_if_bounds (occurs_in col) files).
            destruct (occurs_in col f); cbn [andb]; [lia|].
            rewrite IH'; lia. }
        assert (Hc : count_if (fun f => occurs_in col f && correct_in f.2 col) files = 0).
        { clear -Hz Hlo. induction files as [|f files IH'].
          - reflexivity.
          - rewrite count_if_cons in *.
            pose proof (count_if_bounds (occurs_in col) files).
            destruct (occurs_in col f); cbn [andb]; [lia|].
            rewrite IH'; lia. }
        rewrite Hz, Hb, Hc.
        destruct (0 + (1 + 0) =? 0) eqn:Hz'; [apply Z.eqb_eq in Hz'; lia|].
        cbn [default from_option id total baseline_correct custom_correct].
        destruct (correct_in maps.1 col), (correct_in maps.2 col); f_equal.
      * destruct (_ + (1 + 0) =? 0) eqn:Hz'; [apply Z.eqb_eq in Hz'; lia|].
        cbn [default from_option id total baseline_correct custom_correct].
        destruct (correct_in maps.1 col), (correct_in maps.2 col); do 2 f_equal; lia.
    + rewrite !Z.add_0_r. done.
Qed.

Lemma count_if_and_le {A} (p q : A -> bool) (l : list A) :
  count_if (fun x => p x && q x) l <= count_if p l.
Proof.
  induction l as [|x l IH]; [done|].
  rewrite !count_if_cons. destruct (p x), (q x); cbn [andb]; lia.
Qed.

Lemma count_if_and_eq {A} (p q : A -> bool) (l : list A) :
  count_if (fun x => p x && q x) l = count_if p l <->
  forall x, x ∈ l -> p x = true -> q x = true.
Proof.
  induction l as [|x l IH].
  - split; [intros _ x []%elem_of_nil|done].
  - rewrite !count_if_cons. pose proof (count_if_and_le p q l) as Hle. split.
    + intros Heq y [Hyx|Hy]%elem_of_cons Hp.
      * subst y. rewrite Hp in Heq. destruct (q x); [done|]. cbn [andb] in Heq. lia.
      * apply IH; [|done..]. destruct (p x), (q x); cbn [andb] in Heq; lia.
    + intros H.
      assert (Hl : count_if (fun x => p x && q x) l = count_if p l).
      { apply IH. intros y Hy. apply H. by right. }
      destruct (p x) eqn:Hp; cbn [andb]; [|lia].
      rewrite (H x); [lia|by left|done].
Qed.

Lemma aggregate_rows_elem (aggregated : gmap string column_stats)
    (semantic_types : gmap string column_types) col tot o bt ct :
  (col, tot, o, bt, ct) ∈ _print_aggregate_per_column_outcome aggregated semantic_types ->
  exists st, aggregated !! col = Some st /\ tot = total st /\ o = outcome_label st.
Proof.
  unfold _print_aggregate_per_column_outcome.
  intros ([c st] & Heq & Hin)%list_elem_of_fmap.
  rewrite merge_sort_Permutation in Hin. apply elem_of_map_to_list in Hin.
  inversion Heq; subst. by exists st.
Qed.

Lemma aggregate_rows_complete (aggregated : gmap string column_stats)
    (semantic_types : gmap string column_types) col st :
  aggregated !! col = Some st ->
  exists bt ct, (col, total st, outcome_label st, bt, ct)
                ∈ _print_aggregate_per_column_outcome aggregated semantic_types.
Proof.
  intros H. unfold _print_aggregate_per_column_outcome.
  eexists _, _. apply list_elem_of_fmap. exists (col, st). split; [reflexivity|].
  rewrite merge_sort_Permutation. by apply elem_of_map_to_list.
Qed.

Lemma count_if_pos_exists {A} (p : A -> bool) (l : list A) :
  count_if p l <> 0 <-> exists x, x ∈ l /\ p x = true.
Proof.
  induction l as [|x l IH].
  - split; [done|]. intros (? & []%elem_of_nil & _).
  - rewrite count_if_cons. pose proof (count_if_bounds p l) as [Hlo _].
    destruct (p x) eqn:Hp.
    + split; [|lia]. intros _. exists x. split; [left|done].
    + rewrite Z.add_0_l, IH. split.
      * intros (y & ? & ?). exists y. split; [by right|done].
      * intros (y & [->|?]%elem_of_cons & Hy); [congruence|]. by exists y.
Qed.

(** C4 (as amended).  The aggregate table
    ([_print_aggregate_per_column_outcome]) has a row for exactly the
    columns labelled in some file and credits a side if and only if that
    side is correct at every occurrence of the column across the files.
    The table of [run_comparative_evaluation]
    ([_print_per_column_outcome_summary]) has a row for every predicted
    column and credits a side if and only if that side is correct in at
    least one file. *)
Theorem C4_per_column_outcome_tables :
  (forall files col,
     let agg := _aggregate_per_column_outcome files in
     let table := _print_aggregate_per_column_outcome agg.1 agg.2 in
     let all_base := forall f, f ∈ files -> occurs_in col f = true -> correct_in f.1 col = true in
     let all_cust := forall f, f ∈ files -> occurs_in col f = true -> correct_in f.2 col = true in
     ((exists f, f ∈ files /\ occurs_in col f = true) ->
      exists tot o bt ct, (col, tot, o, bt, ct) ∈ table) /\
     (forall tot o bt ct, (col, tot, o, bt, ct) ∈ table ->
        (exists f, f ∈ files /\ occurs_in col f = true) /\
        (o = Both <-> all_base /\ all_cust) /\
        (o = CustomOnly <-> ~ all_base /\ all_cust) /\
        (o = BaselineOnly <-> all_base /\ ~ all_cust) /\
        (o = Neither <-> ~ all_base /\ ~ all_cust))) /\
  (forall baseline_predictions custom_predictions baseline_maps custom_maps col,
     let table := _print_per_column_outcome_summary
                    baseline_predictions custom_predictions baseline_maps custom_maps in
     let any_base := exists m, m ∈ baseline_maps /\ m !! col = Some true in
     let any_cust := exists m, m ∈ custom_maps /\ m !! col = Some true in
     ((exists preds, preds ∈ (baseline_predictions ++ custom_predictions)%list /\
                     col ∈ preds.*1) ->
      exists bt ct o, (col, bt, ct, o) ∈ table) /\
     (forall bt ct o, (col, bt, ct, o) ∈ table ->
        (o = Both <-> any_base /\ any_cust) /\
        (o = CustomOnly <-> ~ any_base /\ any_cust) /\
        (o = BaselineOnly <-> any_base /\ ~ any_cust) /\
        (o = Neither <-> ~ any_base /\ ~ any_cust))).
Proof.
  split.
  - intros files col agg table all_base all_cust.
    pose proof (aggregate_lookup files col) as Hlk. fold agg in Hlk.
    pose proof (count_if_pos_exists (occurs_in col) files) as Hocc.
    assert (Hb : count_if (fun f => occurs_in col f && correct_in f.1 col) files
                 = count_if (occurs_in col) files <-> all_base)
      by apply (count_if_and_eq (occurs_in col) (fun f => correct_in f.1 col)).
    assert (Hc : count_if (fun f => occurs_in col f && correct_in f.2 col) files
                 = count_if (occurs_in col) files <-> all_cust)
      by apply (count_if_and_eq (occurs_in col) (fun f => correct_in f.2 col)).
    split.
    + intros Hex. apply Hocc in Hex.
      destruct (count_if (occurs_in col) files =? 0) eqn:Hz;
        [apply Z.eqb_eq in Hz; done|].
      destruct (aggregate_rows_complete agg.1 agg.2 col _ Hlk) as (bt & ct & Hrow).
      eauto.
    + intros tot o bt ct (st & Hst & -> & ->)%aggregate_rows_elem.
      rewrite Hst in Hlk.
      destruct (count_if (occurs_in col) files =? 0) eqn:Hz; [discriminate|].
      apply Z.eqb_neq in Hz. split; [by apply Hocc|].
      injection Hlk as ->. rewrite outcome_label_of. cbn [total baseline_correct custom_correct].
      pose proof (outcome_of_spec
        (count_if (fun f => occurs_in col f && correct_in f.1 col) files
           =? count_if (occurs_in col) files)
        (count_if (fun f => occurs_in col f && correct_in f.2 col) files
           =? count_if (occurs_in col) files)) as (H1 & H2 & H3 & H4).
      rewrite H1, H2, H3, H4, !Z.eqb_eq, !Z.eqb_neq, Hb, Hc. done.
  - intros bp cp bm cm col table any_base any_cust.
    pose proof (any_correct_spec col bm) as Hb.
    pose proof (any_correct_spec col cm) as Hc.
    fold any_base in Hb. fold any_cust in Hc.
    split.
    + intros Hex. unfold table, _print_per_column_outcome_summary.
      eexists _, _, _. apply list_elem_of_fmap. exists col. split; [reflexivity|].
      apply sorted_strings_elem, all_cols_elem. by right.
    + intros bt ct o (c & Heq & Hin)%list_elem_of_fmap.
      inversion Heq; subst c bt ct o.
      pose proof (outcome_of_spec (any_correct col bm) (any_correct col cm))
        as (H1 & H2 & H3 & H4).
      rewrite H1, H2, H3, H4, <- !not_true_iff_false, Hb, Hc. done.
Qed.

(** C4, the claim as written fails on the table that
    [run_comparative_evaluation] prints: column A is right in the first
    file and wrong in the second one, on both sides, and is still reported
    as [Both]. *)
Lemma C4_counterexample_summary_credits_any :
  let hit : prediction_map := [("A", {| semantic_type := Some "ZIP"; semanticType := None |})] in
  let miss : prediction_map := [("A", {| semantic_type := Some "EMAIL"; semanticType := None |})] in
  let gt : ground_truth_map := {[ "A" := "ZIP" ]} in
  let m0 := _compute_correct_map hit gt in
  let m1 := _compute_correct_map miss gt in
  m0 !! "A" = Some true /\ m1 !! "A" = Some false /\
  _print_per_column_outcome_summary [hit; miss] [hit; miss] [m0; m1] [m0; m1]
  = [("A", "ZIP", "ZIP", Both)].
Proof. vm_compute. repeat split. Qed.

(** On the same two files the aggregate table reports [Neither]. *)
Example aggregate_table_requires_all :
  let hit : prediction_map := [("A", {| semantic_type := Some "ZIP"; semanticType := None |})] in
  let miss : prediction_map := [("A", {| semantic_type := Some "EMAIL"; semanticType := None |})] in
  let gt : ground_truth_map := {[ "A" := "ZIP" ]} in
  let f0 := (_per_column_correct_map hit gt, _per_column_correct_map hit gt) in
  let f1 := (_per_column_correct_map miss gt, _per_column_correct_map miss gt) in
  let agg := _aggregate_per_column_outcome [f0; f1] in
  _print_aggregate_per_column_outcome agg.1 agg.2 = [("A", 2, Neither, "EMAIL", "EMAIL")].
Proof. vm_compute. reflexivity. Qed.

(** ** Profiling client: the claims *)

Section ProfilingClientFacts.

Variable int_of_str : string -> option Z.
Variable environ : gmap string string.
Variable post : profile_request -> http_outcome predictions_payload.

Lemma parse_empty_predictions : _parse_predictions empty_predictions_payload = Ok [].
Proof. reflexivity. Qed.

Lemma parse_empty_dict : _parse_predictions empty_dict_payload = Raise ValueError.
Proof. reflexivity. Qed.

(** [profile_rows] catches everything: it always returns a dict. *)
Lemma profile_rows_total dataset full cols rows co :
  exists p, profile_rows int_of_str environ post dataset full cols rows co = Ok p.
Proof.
  unfold profile_rows, profile_rows_body, try_except.
  destruct (post _) as [st body|e].
  - destruct (st =? 200); [|eauto]. destruct body; simpl; eauto.
  - destruct e; eauto.
Qed.

(** C5 (as amended).  [profile_data] reports a non-success status as a
    [RuntimeError] and a timeout as a [TimeoutError], and returns normally
    only with the decoded body of a 200 response.  [profile_rows] never
    raises: on a non-success status it returns the empty prediction
    payload, which parses to the empty prediction map, and on a timeout or
    any other exception it returns the empty dict, which
    [_parse_predictions] rejects with a [ValueError]. *)
Theorem C5_profiling_failure_reporting :
  (forall prepared request,
     prepared = Ok request ->
     (forall status body, post request = Response status body -> status <> 200 ->
        profile_data post prepared = Raise RuntimeError) /\
     (post request = HttpRaise RequestsTimeout ->
        profile_data post prepared = Raise TimeoutError)) /\
  (forall prepared p,
     profile_data post prepared = Ok p ->
     exists request, prepared = Ok request /\ post request = Response 200 (Some p)) /\
  (forall dataset full cols rows co,
     let request := profile_rows_request int_of_str environ dataset full cols rows co in
     let answer := profile_rows int_of_str environ post dataset full cols rows co in
     (forall status body, post request = Response status body -> status <> 200 ->
        answer = Ok empty_predictions_payload /\
        (p <-? answer ;; _parse_predictions p) = Ok []) /\
     (forall e, post request = HttpRaise e ->
        answer = Ok empty_dict_payload /\
        (p <-? answer ;; _parse_predictions p) = Raise ValueError) /\
     (forall p, post request = Response 200 (Some p) -> answer = Ok p)).
Proof.
  split; [|split].
  - intros prepared request ->. split.
    + intros status body Hpost Hst. unfold profile_data, profile_data_body. simpl.
      rewrite Hpost. apply Z.eqb_neq in Hst. by rewrite Hst.
    + intros Hpost. unfold profile_data, profile_data_body. simpl. by rewrite Hpost.
  - intros prepared p. unfold profile_data, profile_data_body.
    destruct prepared as [request|e]; simpl; [|by destruct e].
    destruct (post request) as [st body|e] eqn:Hpost; simpl; [|by destruct e].
    destruct (st =? 200) eqn:Hst; simpl; [|done].
    apply Z.eqb_eq in Hst. subst st.
    destruct body as [b|]; simpl; [|done].
    intros [= ->]. eauto.
  - intros dataset full cols rows co request answer.
    unfold answer, profile_rows, profile_rows_body. fold request.
    split; [|split].
    + intros status body -> Hst. apply Z.eqb_neq in Hst. rewrite Hst. done.
    + intros e ->. simpl. by destruct e.
    + intros p ->. done.
Qed.

End ProfilingClientFacts.

(** C5, the claim as written fails on [profile_rows]: a 500 response is
    turned by the client itself into a result that parses and scores like
    an ordinary, empty prediction map, and a timeout into a plain dict
    rather than a timeout failure. *)
Lemma C5_counterexample_profile_rows_swallows :
  let no_int : string -> option Z := fun _ => None in
  let server_error : profile_request -> http_outcome predictions_payload :=
    fun _ => Response 500 None in
  let timing_out : profile_request -> http_outcome predictions_payload :=
    fun _ => HttpRaise RequestsTimeout in
  let gt : ground_truth_map := {[ "A" := "ZIP" ]} in
  let answer := profile_rows no_int ∅ server_error "d" false ["A"] [ {[ "A" := Some "1" ]} ] true in
  answer = Ok empty_predictions_payload /\
  (p <-? answer ;; _parse_predictions p) = Ok [] /\
  (p <-? answer ;; m <-? _parse_predictions p ;; Ok (calculate_metrics m gt))
    = Ok (_aggregate_metrics_list []) /\
  profile_rows no_int ∅ timing_out "d" false ["A"] [ {[ "A" := Some "1" ]} ] true
    = Ok empty_dict_payload.
Proof. vm_compute. repeat split. Qed.

(** ** Type lifecycle manager: threshold resolution *)

Section ThresholdFacts.

Variable int_of_str : string -> option Z.
Variable str_upper : string -> string.
Variable str_isdigit : string -> bool.

Lemma clamp_threshold_cases (t : Z) :
  clamp_threshold t = if t <? 80 then 95 else if 100 <? t then 100 else t.
Proof. unfold clamp_threshold. destruct (t <? 80); reflexivity. Qed.

Lemma clamp_threshold_range (t : Z) : 80 <= clamp_threshold t <= 100.
Proof.
  rewrite clamp_threshold_cases.
  destruct (t <? 80) eqn:H1; [lia|]. destruct (100 <? t) eqn:H2; [lia|].
  apply Z.ltb_ge in H1. apply Z.ltb_ge in H2. lia.
Qed.

Lemma add_header_patterns_threshold p g p' :
  _add_header_patterns int_of_str p g = Ok p' -> Payload.threshold p' = Payload.threshold p.
Proof.
  unfold _add_header_patterns, Payload.update_first_locale.
  destruct (fold_left _ _ _); [by intros [= <-]|].
  destruct (Payload.validLocales p) as [[|loc rest]|]; try done. by intros [= <-].
Qed.

Lemma build_payload_threshold g p :
  _build_custom_type_payload int_of_str str_upper str_isdigit g = Ok (Some p) ->
  exists t, resolve_threshold int_of_str (GeneratedType.confidenceThreshold g) = Ok t /\
            Payload.threshold p = Some t.
Proof.
  unfold _build_custom_type_payload.
  destruct (required (GeneratedType.pluginType g)) as [plugin|]; [|done]. cbn [rbind].
  destruct (resolve_threshold _ _) as [t|]; [|done]. cbn [rbind].
  destruct (required (GeneratedType.semanticType g)) as [st|]; [|done]. cbn [rbind].
  destruct (required (GeneratedType.description g)) as [ds|]; [|done]. cbn [rbind].
  destruct (py_int _ _) as [pr|]; [|done]. cbn [rbind].
  intros H. exists t. split; [done|].
  destruct (String.eqb plugin "list").
  - unfold _add_list_content in H.
    destruct (GeneratedType.listValues g) as [[|v vs]|]; try done.
    destruct (negb (PyStr.truthy _)); [done|]. cbn [negb] in H.
    destruct (_add_header_patterns _ _ _) as [p1|] eqn:Hh; [|done].
    apply add_header_patterns_threshold in Hh. cbn [rbind] in H.
    injection H as <-. by rewrite Hh.
  - destruct (String.eqb plugin "regex").
    + unfold _add_regex_content, Payload.update_first_locale in H.
      destruct (negb (PyStr.truthy _)); [done|]. cbn [Payload.validLocales rbind negb] in H.
      destruct (_add_header_patterns _ _ _) as [p1|] eqn:Hh; [|done].
      apply add_header_patterns_threshold in Hh. cbn [rbind] in H.
      injection H as <-. by rewrite Hh.
    + destruct (_add_header_patterns _ _ _) as [p1|] eqn:Hh; [|done].
      apply add_header_patterns_threshold in Hh. cbn [rbind] in H.
      injection H as <-. by rewrite Hh.
Qed.

(** C2.  Threshold resolution of [_build_custom_type_payload]: a missing
    threshold gives 95; a number that is at most 1.0 is multiplied by 100
    and rounded; any other value is converted with [int]; the result is
    then set to 95 when below 80 and to 100 when above 100, and it is the
    threshold of the payload that is built.  Confidence 0.5 gives 95,
    120 gives 100 and 88 gives 88. *)
Theorem C2_threshold_resolution :
  resolve_threshold int_of_str PNone = Ok 95 /\
  (forall raw f r,
     is_number raw = true -> py_float raw = Ok f -> PrimFloat.leb f 1%float = true ->
     py_round (PrimFloat.mul f 100%float) = Ok r ->
     resolve_threshold int_of_str raw = Ok (clamp_threshold r)) /\
  (forall raw z,
     raw <> PNone ->
     (is_number raw = true -> exists f, py_float raw = Ok f /\ PrimFloat.leb f 1%float = false) ->
     py_int int_of_str raw = Ok z ->
     resolve_threshold int_of_str raw = Ok (clamp_threshold z)) /\
  (forall t, clamp_threshold t = if t <? 80 then 95 else if 100 <? t then 100 else t) /\
  (forall t, 80 <= clamp_threshold t <= 100) /\
  resolve_threshold int_of_str (PFloat 0.5) = Ok 95 /\
  resolve_threshold int_of_str (PInt 120) = Ok 100 /\
  resolve_threshold int_of_str (PInt 88) = Ok 88 /\
  (forall g p,
     _build_custom_type_payload int_of_str str_upper str_isdigit g = Ok (Some p) ->
     exists t, resolve_threshold int_of_str (GeneratedType.confidenceThreshold g) = Ok t /\
               Payload.threshold p = Some t).
Proof.
  split; [reflexivity|]. split; [|split; [|split; [|split]]].
  - intros raw x r Hn Hf Hle Hr. unfold resolve_threshold, threshold_of_raw.
    destruct raw; try discriminate Hn; cbn [is_number]; rewrite Hf; cbn [rbind];
      rewrite Hle, Hr; reflexivity.
  - intros raw z Hne Hnum Hz. unfold resolve_threshold, threshold_of_raw.
    destruct raw; try done; cbn [is_number] in *.
    1-3: destruct Hnum as (x & Hf & Hle); [done|]; rewrite Hf; cbn [rbind];
         rewrite Hle, Hz; reflexivity.
    all: rewrite Hz; reflexivity.
  - apply clamp_threshold_cases.
  - apply clamp_threshold_range.
  - split; [vm_compute; reflexivity|]. split; [vm_compute; reflexivity|].
    split; [vm_compute; reflexivity|]. apply build_payload_threshold.
Qed.

(** Further values: fractions inside the range are kept, the boundary 1.0
    means 100 percent, a half-way fraction rounds to the even neighbour,
    and a value that [int] rejects falls back to 95. *)
Example threshold_examples :
  resolve_threshold int_of_str (PFloat 0.85) = Ok 85 /\
  resolve_threshold int_of_str (PFloat 1) = Ok 100 /\
  resolve_threshold int_of_str (PInt 1) = Ok 100 /\
  resolve_threshold int_of_str (PFloat 0.825) = Ok 82 /\
  resolve_threshold int_of_str (PFloat 88.9) = Ok 88 /\
  resolve_threshold int_of_str (PFloat nan) = Ok 95 /\
  resolve_threshold int_of_str (PContainer true) = Ok 95 /\
  resolve_threshold int_of_str (PFloat infinity) = Raise OverflowError.
Proof. vm_compute. repeat split. Qed.

End ThresholdFacts.

(** ** Type lifecycle manager: validation, rejection and idempotence *)

Section LifecycleFacts.

Variable int_of_str : string -> option Z.
Variable str_upper : string -> string.
Variable str_isdigit : string -> bool.
Variable re_search : string -> string -> result bool.
Variable Registry : Type.
Variable serve : registry_request -> Registry -> http_outcome (list Payload.t) * Registry.

Abbreviation world := (world Registry).
Abbreviation create := (create_custom_type int_of_str str_upper str_isdigit re_search Registry serve).
Abbreviation upsert := (_upsert_custom_type Registry serve).
Abbreviation valid := (_is_valid_generated_type re_search Registry).

(** Validation reads the name filter and nothing else, and changes nothing. *)
Lemma valid_pure g (w : world) :
  exists r, valid g w = (r, w) /\
            forall w' : world, _only_types_regex (self Registry w') = _only_types_regex (self Registry w) ->
                               valid g w' = (r, w').
Proof.
  exists (valid g w).1. split.
  - unfold _is_valid_generated_type, mbind, get_self, mlift, mret.
    destruct (opt_truthy _); [destruct (re_search _ _) as [[]|]|]; cbn [negb];
      repeat case_match; reflexivity.
  - intros w' Hw'.
    unfold _is_valid_generated_type, mbind, get_self, mlift, mret. rewrite Hw'.
    destruct (opt_truthy _); [destruct (re_search _ _) as [[]|]|]; cbn [negb];
      repeat case_match; reflexivity.
Qed.

(** A list type whose backout is missing or blank never gets a payload. *)
Lemma build_list_without_backout g :
  GeneratedType.pluginType g = Some "list" ->
  PyStr.strip (or_str (GeneratedType.backout g) "") = "" ->
  _build_custom_type_payload int_of_str str_upper str_isdigit g = Ok None \/
  exists e, _build_custom_type_payload int_of_str str_upper str_isdigit g = Raise e.
Proof.
  intros Hp Hb. unfold _build_custom_type_payload. rewrite Hp. cbn [required rbind].
  destruct (resolve_threshold _ _) as [t|]; [|eauto]. cbn [rbind].
  destruct (required (GeneratedType.semanticType g)) as [st|]; [|eauto]. cbn [rbind].
  destruct (required (GeneratedType.description g)) as [ds|]; [|eauto]. cbn [rbind].
  destruct (py_int _ _) as [pr|]; [|eauto]. cbn [rbind].
  left. cbn [String.eqb Ascii.eqb Bool.eqb andb]. unfold _add_list_content.
  destruct (GeneratedType.listValues g) as [[|v vs]|]; try done.
  by rewrite Hb.
Qed.

(** C6.  A [list] type whose backout pattern is missing or blank is
    rejected by [create_custom_type]: it returns false and leaves the
    evaluator, the registry and the list of requests as they were, so no
    write (indeed no request at all) reaches the registry. *)
Theorem C6_list_without_backout_rejected (g : GeneratedType.t) (w : world) :
  GeneratedType.pluginType g = Some "list" ->
  PyStr.strip (or_str (GeneratedType.backout g) "") = "" ->
  create g w = (Ok false, w) /\
  writes Registry (create g w).2 = writes Registry w.
Proof.
  intros Hp Hb.
  assert (H : create g w = (Ok false, w)); [|by rewrite H].
  unfold create_custom_type, mcatch, mbind at 1.
  destruct (valid_pure g w) as (r & Hv & _). rewrite Hv.
  destruct r as [[]|e]; cbn [negb]; try reflexivity.
  unfold mbind, mlift.
  destruct (build_list_without_backout g Hp Hb) as [H|(e & H)]; rewrite H; reflexivity.
Qed.

Lemma http_run r (w : world) res (w' : world) :
  http Registry serve r w = (res, w') ->
  self Registry w' = self Registry w /\ sent Registry w' = (sent Registry w ++ [r])%list.
Proof.
  unfold http. destruct (serve r (registry Registry w)) as [[st body|e] reg'];
    intros [= <- <-]; done.
Qed.

Lemma writes_snoc (w w' : world) r :
  sent Registry w' = (sent Registry w ++ [r])%list ->
  writes Registry w' = writes Registry w + (if is_write r then 1 else 0).
Proof.
  unfold writes. intros ->. rewrite count_if_app, count_if_cons, count_if_nil. lia.
Qed.

(** Refreshing the cache never raises, sends one read request and leaves
    the name filter and the dry-run flag alone. *)
Lemma refresh_run (w : world) :
  exists w' : world,
    _refresh_existing_types_cache Registry serve w = (Ok tt, w') /\
    _only_types_regex (self Registry w') = _only_types_regex (self Registry w) /\
    _dry_run_create (self Registry w') = _dry_run_create (self Registry w) /\
    writes Registry w' = writes Registry w.
Proof.
  unfold _refresh_existing_types_cache, mcatch, mbind at 1.
  destruct (http Registry serve GetCustomOnly w) as [res w0] eqn:Hh.
  destruct (http_run _ _ _ _ Hh) as [Hs Hl].
  pose proof (writes_snoc w w0 GetCustomOnly Hl) as Hw. cbn [is_write] in Hw.
  rewrite Z.add_0_r in Hw.
  destruct res as [[st body]|e]; unfold mret; [|exists w0; by rewrite Hs].
  destruct (st =? 200); [|exists w0; by rewrite Hs].
  unfold mbind, mlift, get_self, put_self.
  destruct (response_json body) as [types|e]; [|exists w0; by rewrite Hs].
  eexists. split; [reflexivity|]. cbn. by rewrite Hs.
Qed.

(** A payload whose cached copy normalises to the same value is skipped
    without any request. *)
Lemma upsert_skips_cached p name e (w : world) :
  Payload.semanticType p = Some name ->
  _existing_types_cache (self Registry w) !! name = Some e ->
  _is_same_type e p = true ->
  upsert p w = (Ok false, w).
Proof.
  intros Hn Hc Hs. unfold _upsert_custom_type, mbind, get_self, mlift, mret.
  rewrite bool_decide_eq_false_2.
  - rewrite Hn. cbn [required]. by rewrite Hc, Hs.
  - intros Hem. rewrite Hem in Hc. by rewrite lookup_empty in Hc.
Qed.

Lemma same_type_ephemeral p : _is_same_type (Payload.set_ephemeral true p) p = true.
Proof. unfold _is_same_type. by apply bool_decide_eq_true. Qed.

(** What a successful upsert leaves behind. *)
Lemma upsert_true_run p (w w1 : world) :
  upsert p w = (Ok true, w1) ->
  exists name,
    Payload.semanticType p = Some name /\
    _existing_types_cache (self Registry w1) !! name = Some (Payload.set_ephemeral true p) /\
    _only_types_regex (self Registry w1) = _only_types_regex (self Registry w) /\
    1 <= writes Registry w1 - writes Registry w <= 2.
Proof.
  unfold _upsert_custom_type, mbind at 1, get_self at 1.
  intros H.
  assert (Hr : exists w0 : world,
             (if bool_decide (_existing_types_cache (self Registry w) = ∅)
              then _refresh_existing_types_cache Registry serve else mret Registry tt) w
             = (Ok tt, w0) /\
             _only_types_regex (self Registry w0) = _only_types_regex (self Registry w) /\
             writes Registry w0 = writes Registry w).
  { destruct (bool_decide _).
    - destruct (refresh_run w) as (w0 & ? & ? & ? & ?). eauto.
    - exists w. done. }
  destruct Hr as (w0 & Hr & Hre0 & Hw0).
  unfold mbind at 1 in H. rewrite Hr in H.
  unfold mbind at 1, get_self at 1 in H.
  unfold mbind at 1, mlift at 1 in H.
  destruct (Payload.semanticType p) as [name|]; cbn [required] in H; [|discriminate].
  exists name. split; [done|].
  destruct (match _existing_types_cache (self Registry w0) !! name with
            | Some e => _is_same_type e p | None => false end); [discriminate|].
  destruct (_dry_run_create (self Registry w0)); [discriminate|].
  unfold mbind at 1 in H.
  destruct (http Registry serve _ w0) as [res1 w2] eqn:Hh1.
  destruct (http_run _ _ _ _ Hh1) as [Hs2 Hl2].
  apply writes_snoc in Hl2.
  assert (Hwr2 : writes Registry w2 = writes Registry w0 + 1).
  { rewrite Hl2. by destruct (bool_decide _). }
  clear Hl2.
  destruct res1 as [resp1|e]; [|discriminate].
  unfold mbind at 1 in H.
  assert (Hf : exists (resp : Z * option (list Payload.t)) (w3 : world) res,
            (if (resp1.1 =? 404) && bool_decide (is_Some (_existing_types_cache (self Registry w0) !! name))
             then http Registry serve (PostType (Payload.set_ephemeral true p))
             else if (resp1.1 =? 409) && negb (bool_decide (is_Some (_existing_types_cache (self Registry w0) !! name)))
                  then http Registry serve (PutType name (Payload.set_ephemeral true p))
                  else mret Registry resp1) w2 = (res, w3) /\
            self Registry w3 = self Registry w2 /\
            0 <= writes Registry w3 - writes Registry w2 <= 1).
  { destruct (_ && _).
    - destruct (http Registry serve _ w2) as [res w3] eqn:Hh2.
      destruct (http_run _ _ _ _ Hh2) as [Hs3 Hl3]. apply writes_snoc in Hl3.
      cbn [is_write] in Hl3. exists resp1, w3, res. split; [done|]. split; [done|]. lia.
    - destruct (_ && _).
      + destruct (http Registry serve _ w2) as [res w3] eqn:Hh2.
        destruct (http_run _ _ _ _ Hh2) as [Hs3 Hl3]. apply writes_snoc in Hl3.
        cbn [is_write] in Hl3. exists resp1, w3, res. split; [done|]. split; [done|]. lia.
      + exists resp1, w2, (Ok resp1). split; [done|]. split; [done|]. lia. }
  destruct Hf as (_ & w3 & res & Hf & Hs3 & Hw3). rewrite Hf in H.
  destruct res as [resp2|e]; [|discriminate].
  destruct (is_success resp2.1); [|discriminate].
  unfold mbind, get_self, put_self, mret in H. injection H as <-.
  cbn [self _existing_types_cache set_cache set_created _only_types_regex sent writes].
  split; [by rewrite lookup_insert_eq|]. split; [by rewrite Hs3, Hs2|].
  unfold writes in *. cbn [sent]. lia.
Qed.

(** The requests of a successful upsert, in order: the refresh when the
    cache was empty, the write, and the retry with the other method when
    the write was answered 404 (an update) or 409 (a create). *)
Lemma upsert_true_trace p (w w1 : world) :
  upsert p w = (Ok true, w1) ->
  exists name pre first rest reg0,
    Payload.semanticType p = Some name /\
    sent Registry w1 = (sent Registry w ++ pre ++ first :: rest)%list /\
    ((pre = [] /\ reg0 = registry Registry w) \/
     (pre = [GetCustomOnly] /\ reg0 = (serve GetCustomOnly (registry Registry w)).2)) /\
    let flagged := Payload.set_ephemeral true p in
    let status_code := status_of (serve first reg0).1 in
    (first = PutType name flagged /\
     ((status_code = Some 404 /\ rest = [PostType flagged]) \/
      (status_code <> Some 404 /\ rest = []))) \/
    (first = PostType flagged /\
     ((status_code = Some 409 /\ rest = [PutType name flagged]) \/
      (status_code <> Some 409 /\ rest = []))).
Proof.
  unfold _upsert_custom_type, mbind at 1, get_self at 1.
  intros H.
  assert (Hr : exists (w0 : world) pre,
             (if bool_decide (_existing_types_cache (self Registry w) = ∅)
              then _refresh_existing_types_cache Registry serve else mret Registry tt) w
             = (Ok tt, w0) /\
             sent Registry w0 = (sent Registry w ++ pre)%list /\
             ((pre = [] /\ registry Registry w0 = registry Registry w) \/
              (pre = [GetCustomOnly] /\
               registry Registry w0 = (serve GetCustomOnly (registry Registry w)).2))).
  { destruct (bool_decide _).
    - unfold _refresh_existing_types_cache, mcatch, mbind at 1, http.
      destruct (serve GetCustomOnly (registry Registry w)) as [[st body|e] reg'];
        cbn [fst snd].
      + destruct (st =? 200); [destruct body as [types|]|];
          cbn; eexists _, [GetCustomOnly]; split_and!; try reflexivity; by right.
      + cbn. eexists _, [GetCustomOnly]. split_and!; try reflexivity; by right.
    - exists w, []. rewrite app_nil_r. split_and!; try done. by left. }
  destruct Hr as (w0 & pre & Hr & Hs0 & Hpre).
  unfold mbind at 1 in H. rewrite Hr in H.
  unfold mbind at 1, get_self at 1 in H.
  unfold mbind at 1, mlift at 1 in H.
  destruct (Payload.semanticType p) as [name|]; cbn [required] in H; [|discriminate].
  destruct (match _existing_types_cache (self Registry w0) !! name with
            | Some e => _is_same_type e p | None => false end); [discriminate|].
  destruct (_dry_run_create (self Registry w0)); [discriminate|].
  set (flagged := Payload.set_ephemeral true p) in *.
  set (is_put := bool_decide (is_Some (_existing_types_cache (self Registry w0) !! name))) in *.
  set (first := if is_put then PutType name flagged else PostType flagged) in *.
  unfold mbind at 1, http at 1 in H.
  destruct (serve first (registry Registry w0)) as [[st1 body1|e1] reg1] eqn:Hfirst;
    [|discriminate].
  unfold mbind at 1 in H. cbn [fst snd] in H.
  assert (Hreg0 : exists reg0,
             ((pre = [] /\ reg0 = registry Registry w) \/
              (pre = [GetCustomOnly] /\
               reg0 = (serve GetCustomOnly (registry Registry w)).2)) /\
             status_of (serve first reg0).1 = Some st1).
  { exists (registry Registry w0). split.
    - destruct Hpre as [[? ?]|[? ?]]; [left|right]; done.
    - by rewrite Hfirst. }
  destruct Hreg0 as (reg0 & Hreg0 & Hst).
  assert (Hrest : exists rest,
             sent Registry w1 = (sent Registry w ++ pre ++ first :: rest)%list /\
             ((first = PutType name flagged /\
               ((st1 = 404 /\ rest = [PostType flagged]) \/ (st1 <> 404 /\ rest = []))) \/
              (first = PostType flagged /\
               ((st1 = 409 /\ rest = [PutType name flagged]) \/ (st1 <> 409 /\ rest = []))))).
  { subst first. destruct is_put.
    - rewrite andb_true_r, andb_false_r in H.
      destruct (Z.eqb_spec st1 404) as [E|E].
      + unfold http at 1 in H. cbn [registry sent self] in H.
        destruct (serve (PostType flagged) reg1) as [[st2 body2|e2] reg2]; [|discriminate].
        cbn [fst snd] in H. destruct (is_success st2); [|discriminate].
        unfold mbind, get_self, put_self, mret in H. injection H as <-. cbn [sent].
        exists [PostType flagged]. rewrite Hs0, <- !(assoc_L (++)). cbn [app].
        split; [done|]. left. split; [done|]. by left.
      + unfold mret at 1 in H. cbn [fst snd] in H.
        destruct (is_success st1); [|discriminate].
        unfold mbind, get_self, put_self, mret in H. injection H as <-. cbn [sent].
        exists []. rewrite Hs0, <- !(assoc_L (++)). cbn [app].
        split; [done|]. left. split; [done|]. by right.
    - rewrite andb_false_r, andb_true_r in H. cbn [negb] in H.
      destruct (Z.eqb_spec st1 409) as [E|E].
      + unfold http at 1 in H. cbn [registry sent self] in H.
        destruct (serve (PutType name flagged) reg1) as [[st2 body2|e2] reg2];
          [|discriminate].
        cbn [fst snd] in H. destruct (is_success st2); [|discriminate].
        unfold mbind, get_self, put_self, mret in H. injection H as <-. cbn [sent].
        exists [PutType name flagged]. rewrite Hs0, <- !(assoc_L (++)). cbn [app].
        split; [done|]. right. split; [done|]. by left.
      + unfold mret at 1 in H. cbn [fst snd] in H.
        destruct (is_success st1); [|discriminate].
        unfold mbind, get_self, put_self, mret in H. injection H as <-. cbn [sent].
        exists []. rewrite Hs0, <- !(assoc_L (++)). cbn [app].
        split; [done|]. right. split; [done|]. by right. }
  destruct Hrest as (rest & Hsent & Hcases).
  exists name, pre, first, rest, reg0. split_and!; try done.
  cbv zeta. rewrite Hst.
  destruct Hcases as [[Hf [[-> ->]|[Hn ->]]]|[Hf [[-> ->]|[Hn ->]]]].
  - left. split; [done|]. by left.
  - left. split; [done|]. right. split; [congruence|done].
  - right. split; [done|]. by left.
  - right. split; [done|]. right. split; [congruence|done].
Qed.

(** C3 (as amended).  When a submission of a generated type ends with a
    write that the registry accepts ([create_custom_type] returns true),
    submitting the same generated type again, with the evaluator and the
    registry as the first submission left them, finds the cached payload
    identical after normalisation: it returns false and sends no request.
    The two submissions together perform the writes of the first one: one
    write, or two when the first attempt was retried after a 404 or 409.
    In full: the requests of both submissions are the refresh of the cache
    (when it was empty), then one write of the built payload, then its
    retry; the retry is there, and the writes are two, exactly when the
    registry answered the first write, an update, with 404 (the retry is
    the create) or the first write, a create, with 409 (the retry is the
    update); otherwise the write is the only one. *)
Theorem C3_resubmission_skips_write (g : GeneratedType.t) (w w1 : world) :
  create g w = (Ok true, w1) ->
  create g w1 = (Ok false, w1) /\
  1 <= writes Registry (create g w1).2 - writes Registry w <= 2 /\
  exists payload name pre first rest reg0,
    _build_custom_type_payload int_of_str str_upper str_isdigit g = Ok (Some payload) /\
    Payload.semanticType payload = Some name /\
    sent Registry (create g w1).2 = (sent Registry w ++ pre ++ first :: rest)%list /\
    ((pre = [] /\ reg0 = registry Registry w) \/
     (pre = [GetCustomOnly] /\ reg0 = (serve GetCustomOnly (registry Registry w)).2)) /\
    let flagged := Payload.set_ephemeral true payload in
    let status_code := status_of (serve first reg0).1 in
    let written := writes Registry (create g w1).2 - writes Registry w in
    (first = PutType name flagged /\
     ((status_code = Some 404 /\ rest = [PostType flagged] /\ written = 2) \/
      (status_code <> Some 404 /\ rest = [] /\ written = 1))) \/
    (first = PostType flagged /\
     ((status_code = Some 409 /\ rest = [PutType name flagged] /\ written = 2) \/
      (status_code <> Some 409 /\ rest = [] /\ written = 1))).
Proof.
  intros H1.
  unfold create_custom_type, mcatch in H1.
  unfold mbind at 1 in H1.
  destruct (valid_pure g w) as (r & Hv & Hv'). rewrite Hv in H1.
  destruct r as [[]|e]; cbn [negb] in H1; [|discriminate..].
  unfold mbind at 1, mlift at 1 in H1.
  destruct (_build_custom_type_payload int_of_str str_upper str_isdigit g)
    as [[p|]|e] eqn:Hb; [|discriminate..].
  destruct (upsert p w) as [[[]|e] w'] eqn:Hu; [|discriminate..].
  injection H1 as <-.
  destruct (upsert_true_run p w w' Hu) as (name & Hn & Hc & Hre & Hw).
  assert (Hsecond : create g w' = (Ok false, w')).
  { unfold create_custom_type, mcatch. unfold mbind at 1.
    rewrite (Hv' w' Hre). cbn [negb].
    unfold mbind at 1, mlift at 1. rewrite Hb.
    by rewrite (upsert_skips_cached p name _ w' Hn Hc (same_type_ephemeral p)). }
  rewrite Hsecond. cbn [snd]. split_and!; try done; try lia.
  destruct (upsert_true_trace p w w' Hu)
    as (name' & pre & first & rest & reg0 & Hn' & Hsent & Hreg0 & Hcases).
  assert (name' = name) as -> by congruence.
  exists p, name, pre, first, rest, reg0. split_and!; try done.
  cbv zeta in *.
  assert (Hcount : writes Registry w' - writes Registry w
                   = count_if is_write pre + count_if is_write (first :: rest)).
  { unfold writes. rewrite Hsent, !count_if_app. lia. }
  assert (Hpre0 : count_if is_write pre = 0).
  { destruct Hreg0 as [[-> _]|[-> _]]; reflexivity. }
  rewrite Hcount, Hpre0.
  destruct Hcases as [[-> [[? ->]|[? ->]]]|[-> [[? ->]|[? ->]]]].
  - left. split; [done|]. left. done.
  - left. split; [done|]. right. done.
  - right. split; [done|]. left. done.
  - right. split; [done|]. right. done.
Qed.

End LifecycleFacts.

Lemma C6_list_without_backout_rejected_witness :
  let g := {| GeneratedType.semanticType := Some "STATE";
              GeneratedType.description := Some "US state codes";
              GeneratedType.pluginType := Some "list";
              GeneratedType.baseType := None;
              GeneratedType.confidenceThreshold := PInt 95;
              GeneratedType.priority := PNone;
              GeneratedType.regexPattern := None;
              GeneratedType.listValues := Some [Some "CA"; Some "NY"];
              GeneratedType.backout := None;
              GeneratedType.headerPatterns := [] |} in
  let accept_all (r : registry_request) (_ : unit) : http_outcome (list Payload.t) * unit :=
    (Response 200 (Some []), tt) in
  let w := {| self := {| _created_types := ∅; _existing_types_cache := ∅;
                         _only_types_regex := None; _dry_run_create := false |};
              registry := tt; sent := [] |} in
  create_custom_type (fun _ => None) PyStr.upper PyStr.isdigit
                     (fun _ _ => Ok true) unit accept_all g w = (Ok false, w).
Proof.
  intros g accept_all w.
  apply (C6_list_without_backout_rejected (fun _ => None) PyStr.upper PyStr.isdigit
           (fun _ _ => Ok true) unit accept_all g w).
  - reflexivity.
  - vm_compute. reflexivity.
Defined.

Example zip_payload_built :
  _build_custom_type_payload (fun _ => None) PyStr.upper PyStr.isdigit zip_type
  = Ok (Some zip_payload).
Proof. vm_compute. reflexivity. Qed.

Lemma C3_resubmission_skips_write_witness :
  let create := create_custom_type (fun _ => None) PyStr.upper PyStr.isdigit
                     (fun _ _ => Ok true) (list Payload.t) accepting_registry in
  let w1 := (create zip_type (fresh_world [])).2 in
  create zip_type w1 = (Ok false, w1) /\
  1 <= writes (list Payload.t) (create zip_type w1).2
       - writes (list Payload.t) (fresh_world []) <= 2.
Proof.
  intros create w1.
  destruct (C3_resubmission_skips_write (fun _ => None) PyStr.upper PyStr.isdigit
              (fun _ _ => Ok true) (list Payload.t) accepting_registry
              zip_type (fresh_world []) w1) as (Hskip & Hwrites & _).
  - vm_compute. reflexivity.
  - exact (conj Hskip Hwrites).
Defined.

(** C3, the claim as written fails: two submissions of the same type
    perform two writes when the create is answered 409 and retried as an
    update (the first submission succeeds with two writes, the second is
    skipped), two writes when the registry rejects the write (nothing is
    cached, so the second submission tries again), and no write at all
    when the registry already holds the same definition. *)
Lemma C3_counterexample_not_exactly_one_write :
  let create_on serve := create_custom_type (fun _ => None) PyStr.upper PyStr.isdigit
                     (fun _ _ => Ok true) (list Payload.t) serve in
  let twice serve stored :=
    let first := create_on serve zip_type (fresh_world stored) in
    let second := create_on serve zip_type first.2 in
    (first.1, second.1, writes (list Payload.t) second.2) in
  twice conflicting_registry [] = (Ok true, Ok false, 2) /\
  twice rejecting_registry [] = (Ok false, Ok false, 2) /\
  twice accepting_registry [zip_payload] = (Ok false, Ok false, 0).
Proof. vm_compute. repeat split. Qed.

(** On a registry that accepts the write, the same two submissions write once. *)
Example resubmission_writes_once :
  let create := create_custom_type (fun _ => None) PyStr.upper PyStr.isdigit
                     (fun _ _ => Ok true) (list Payload.t) accepting_registry in
  let first := create zip_type (fresh_world []) in
  let second := create zip_type first.2 in
  first.1 = Ok true /\ second.1 = Ok false /\
  sent _ second.2 = [GetCustomOnly; PostType (Payload.set_ephemeral true zip_payload)].
Proof. vm_compute. repeat split. Qed.

(* ===================================================================== *)
(** * Part III.  Further properties of the evaluator                      *)
(* ===================================================================== *)

(** ** Scoring engine *)

Lemma py_sum_cons (x : Z) (l : list Z) : py_sum (x :: l) = x + py_sum l.
Proof. unfold py_sum. cbn [fold_left]. rewrite fold_add_shift. unfold py_sum. lia. Qed.

Lemma py_sum_app (l1 l2 : list Z) : py_sum (l1 ++ l2) = py_sum l1 + py_sum l2.
Proof.
  induction l1 as [|x l1 IH]; [unfold py_sum at 2; simpl; lia|].
  simpl. rewrite !py_sum_cons, IH. lia.
Qed.

Lemma py_sum_perm (l1 l2 : list Z) : l1 ≡ₚ l2 -> py_sum l1 = py_sum l2.
Proof.
  induction 1 as [|x l1 l2 _ IH|x y l|l1 l2 l3 _ IH1 _ IH2].
  - done.
  - by rewrite !py_sum_cons, IH.
  - rewrite !py_sum_cons. lia.
  - congruence.
Qed.

Lemma classify_columns gt cls :
  map column (_compute_classification_details cls gt).1
    = List.filter (fun c => negb (no_label (gt !! c))) cls.*1 /\
  (_compute_classification_details cls gt).2
    = List.filter (fun c => no_label (gt !! c)) cls.*1.
Proof.
  induction cls as [|[col c] cls [IH1 IH2]]; [done|].
  rewrite classify_cons. cbn [fst snd]. rewrite map_app, IH1, IH2, fmap_cons.
  cbn [fst List.filter]. unfold classify_step.
  destruct (no_label (gt !! col)); done.
Qed.

(** X1.  [_compute_classification_details] splits the prediction map, in
    its order, into the columns with a usable ground-truth label (scored)
    and the others (excluded); a scored row carries the label of its
    column, which is neither empty nor "nan". *)
Theorem X1_scored_and_excluded_columns (cls : prediction_map) (gt : ground_truth_map) :
  let has_label c := negb (no_label (gt !! c)) in
  let result := _compute_classification_details cls gt in
  map column result.1 = List.filter has_label cls.*1 /\
  result.2 = List.filter (fun c => negb (has_label c)) cls.*1 /\
  (forall d, d ∈ result.1 ->
     gt !! column d = Some (actual d) /\ actual d <> "" /\ actual d <> "nan") /\
  (forall c, c ∈ result.2 ->
     gt !! c = None \/ gt !! c = Some "" \/ gt !! c = Some "nan").
Proof.
  cbv zeta. destruct (classify_columns gt cls) as [H1 H2].
  split; [done|]. split.
  { rewrite H2. apply filter_ext. intros c. by rewrite negb_involutive. }
  split.
  - intros d Hd. destruct (classify_details_spec gt cls d Hd) as (_ & Hl & _).
    split; [done|].
    assert (Hin : column d ∈ map column (_compute_classification_details cls gt).1).
    { apply list_elem_of_fmap. eauto. }
    rewrite H1 in Hin. apply list_elem_of_In, filter_In in Hin as [_ Hf].
    rewrite Hl in Hf. unfold no_label, opt_truthy, PyStr.truthy in Hf.
    apply negb_true_iff, orb_false_elim in Hf as [Hf1 Hf2].
    apply negb_false_iff, negb_true_iff in Hf1.
    split; by apply String.eqb_neq.
  - intros c Hc. rewrite H2 in Hc. apply list_elem_of_In, filter_In in Hc as [_ Hf].
    unfold no_label, opt_truthy, PyStr.truthy in Hf.
    destruct (gt !! c) as [t|]; [|by left]. right.
    apply orb_true_iff in Hf as [Hf|Hf].
    + left. apply negb_true_iff, negb_false_iff, String.eqb_eq in Hf. by subst.
    + right. apply String.eqb_eq in Hf. by subst.
Qed.

(** X2.  The counters of [_calculate_metric_scores] are consistent for any
    detail list: true positives are among the correct rows, false positives
    and false negatives among the incorrect ones, and the denominator of
    precision, TP + FP, is the number of rows with a prediction other than
    "NONE". *)
Theorem X2_metric_counter_bounds (results_detail : list detail) (excluded_count : Z) :
  let m := _calculate_metric_scores results_detail excluded_count in
  0 <= true_positives m <= correct_predictions m /\
  correct_predictions m <= total_columns m /\
  0 <= false_positives m <= total_columns m - correct_predictions m /\
  0 <= false_negatives m <= total_columns m - correct_predictions m /\
  true_positives m + false_positives m
    = count_if (fun d => negb (is_none_label (predicted d))) results_detail /\
  total_columns m = len results_detail /\
  excluded_columns m = excluded_count.
Proof.
  cbv zeta. cbn [_calculate_metric_scores true_positives false_positives false_negatives
                  correct_predictions total_columns excluded_columns].
  split; [|split; [|split; [|split; [|split; [|done]]]]].
  all: induction results_detail as [|d l IH];
    [rewrite ?count_if_nil; unfold len; simpl; lia|].
  all: rewrite !count_if_cons, ?len_cons; revert IH;
    generalize (count_if is_true_positive l) (count_if is_false_positive l)
               (count_if is_false_negative l) (count_if (fun d => correct d) l)
               (count_if (fun d => negb (is_none_label (predicted d))) l) (len l);
    intros tp fp fn c np n IH;
    unfold is_true_positive, is_false_positive, is_false_negative;
    destruct (correct d), (is_none_label (predicted d)), (is_none_label (actual d));
    cbn [negb andb]; lia.
Qed.

Lemma aggregate_fold (ms : list MetricSet) (s : sums) (ds : list detail) :
  let r := fold_left aggregate_step ms (s, ds) in
  s_correct_predictions r.1 = s_correct_predictions s + py_sum (map correct_predictions ms) /\
  s_true_positives r.1 = s_true_positives s + py_sum (map true_positives ms) /\
  s_false_positives r.1 = s_false_positives s + py_sum (map false_positives ms) /\
  s_false_negatives r.1 = s_false_negatives s + py_sum (map false_negatives ms) /\
  s_total_columns r.1 = s_total_columns s + py_sum (map total_columns ms) /\
  s_excluded_columns r.1 = s_excluded_columns s + py_sum (map excluded_columns ms) /\
  r.2 = (ds ++ concat (map details ms))%list.
Proof.
  revert s ds. induction ms as [|m ms IH]; intros s ds; cbv zeta.
  - cbn. unfold py_sum. cbn. rewrite app_nil_r. repeat split; lia.
  - cbn [fold_left aggregate_step map concat]. rewrite !py_sum_cons.
    specialize (IH
      {| s_correct_predictions := s_correct_predictions s + correct_predictions m;
         s_true_positives := s_true_positives s + true_positives m;
         s_false_positives := s_false_positives s + false_positives m;
         s_false_negatives := s_false_negatives s + false_negatives m;
         s_total_columns := s_total_columns s + total_columns m;
         s_excluded_columns := s_excluded_columns s + excluded_columns m |}
      (match details m with [] => ds | _ => (ds ++ details m)%list end)).
    cbv zeta in IH. cbn [s_correct_predictions s_true_positives s_false_positives
                         s_false_negatives s_total_columns s_excluded_columns] in IH.
    destruct IH as (H1 & H2 & H3 & H4 & H5 & H6 & H7).
    rewrite H1, H2, H3, H4, H5, H6, H7.
    repeat split; try lia.
    destruct (details m) eqn:E; [done|]. by rewrite <- app_assoc.
Qed.

(** The aggregate of any list of metric sets, in closed form. *)
Lemma aggregate_closed_form (ms : list MetricSet) :
  _aggregate_metrics_list ms =
  let c := py_sum (map correct_predictions ms) in
  let tp := py_sum (map true_positives ms) in
  let fp := py_sum (map false_positives ms) in
  let fn := py_sum (map false_negatives ms) in
  let t := py_sum (map total_columns ms) in
  {| accuracy := ratio c t; precision := ratio tp (tp + fp); recall := ratio tp (tp + fn);
     f1_score := f1_of (ratio tp (tp + fp)) (ratio tp (tp + fn));
     total_columns := t; excluded_columns := py_sum (map excluded_columns ms);
     correct_predictions := c; true_positives := tp; false_positives := fp;
     false_negatives := fn; details := concat (map details ms) |}.
Proof.
  destruct ms as [|m ms]; [reflexivity|].
  unfold _aggregate_metrics_list.
  pose proof (aggregate_fold (m :: ms) zero_sums []) as H. cbv zeta in H.
  destruct (fold_left aggregate_step (m :: ms) (zero_sums, [])) as [s ds].
  cbn [fst snd zero_sums s_correct_predictions s_true_positives s_false_positives
       s_false_negatives s_total_columns s_excluded_columns] in H.
  destruct H as (H1 & H2 & H3 & H4 & H5 & H6 & H7).
  rewrite H1, H2, H3, H4, H5, H6, H7, !Z.add_0_l. reflexivity.
Qed.

(** X3.  Aggregation is additive over any number of files: the aggregate
    of the metric sets of the runs, none included, is the metric set of
    all their detail rows scored together with the excluded counts added. *)
Theorem X3_aggregate_of_scored_runs (runs : list (list detail * Z)) :
  _aggregate_metrics_list (map (fun r => _calculate_metric_scores r.1 r.2) runs)
  = _calculate_metric_scores (concat (map fst runs)) (py_sum (map snd runs)).
Proof.
  rewrite aggregate_closed_form. cbv zeta.
  assert (Hc : forall (p : detail -> bool) (proj : MetricSet -> Z),
             (forall d e, proj (_calculate_metric_scores d e) = count_if p d) ->
             py_sum (map proj (map (fun r => _calculate_metric_scores r.1 r.2) runs))
             = count_if p (concat (map fst runs))).
  { intros p proj Hproj. induction runs as [|[d e] runs IH]; [done|].
    cbn [map concat fst snd]. rewrite py_sum_cons, IH, count_if_app, Hproj. done. }
  rewrite (Hc (fun d => correct d) correct_predictions) by done.
  rewrite (Hc is_true_positive true_positives) by done.
  rewrite (Hc is_false_positive false_positives) by done.
  rewrite (Hc is_false_negative false_negatives) by done.
  assert (Ht : py_sum (map total_columns (map (fun r => _calculate_metric_scores r.1 r.2) runs))
               = len (concat (map fst runs))).
  { clear Hc. induction runs as [|[d e] runs IH]; [done|].
    cbn [map concat fst snd]. rewrite py_sum_cons, IH, len_app. done. }
  assert (He : py_sum (map excluded_columns (map (fun r => _calculate_metric_scores r.1 r.2) runs))
               = py_sum (map snd runs)).
  { clear Hc Ht. induction runs as [|[d e] runs IH]; [done|].
    cbn [map fst snd]. rewrite !py_sum_cons, IH. done. }
  assert (Hd : concat (map details (map (fun r => _calculate_metric_scores r.1 r.2) runs))
               = concat (map fst runs)).
  { clear. induction runs as [|[d e] runs IH]; [done|].
    cbn [map concat fst snd]. by rewrite IH. }
  rewrite Ht, He, Hd. reflexivity.
Qed.

(** X4.  The aggregate does not depend on the order in which the per-file
    metric sets were collected (the thread pool appends them in completion
    order): counters and ratios are the same, and the detail lists are
    permutations of each other. *)
Theorem X4_aggregate_order_independent (ms ms' : list MetricSet) :
  ms ≡ₚ ms' ->
  let a := _aggregate_metrics_list ms in
  let a' := _aggregate_metrics_list ms' in
  accuracy a = accuracy a' /\ precision a = precision a' /\
  recall a = recall a' /\ f1_score a = f1_score a' /\
  total_columns a = total_columns a' /\ excluded_columns a = excluded_columns a' /\
  correct_predictions a = correct_predictions a' /\
  true_positives a = true_positives a' /\
  false_positives a = false_positives a' /\
  false_negatives a = false_negatives a' /\
  details a ≡ₚ details a'.
Proof.
  intros Hp. cbv zeta. rewrite !aggregate_closed_form. cbv zeta.
  cbn [accuracy precision recall f1_score total_columns excluded_columns
       correct_predictions true_positives false_positives false_negatives details].
  assert (Hs : forall proj : MetricSet -> Z, py_sum (map proj ms) = py_sum (map proj ms')).
  { intros proj. apply py_sum_perm. by apply Permutation_map. }
  rewrite !(Hs correct_predictions), !(Hs true_positives), !(Hs false_positives),
          !(Hs false_negatives), !(Hs total_columns), !(Hs excluded_columns).
  repeat split. by rewrite Hp.
Qed.

Lemma X4_aggregate_order_independent_witness :
  let hit := {| column := "a"; predicted := "X"; actual := "X"; correct := true |} in
  let miss := {| column := "b"; predicted := "X"; actual := "Y"; correct := false |} in
  let m1 := _calculate_metric_scores [hit] 0 in
  let m2 := _calculate_metric_scores [miss; miss] 1 in
  accuracy (_aggregate_metrics_list [m1; m2]) = accuracy (_aggregate_metrics_list [m2; m1]).
Proof.
  intros hit miss m1 m2.
  apply (X4_aggregate_order_independent [m1; m2] [m2; m1]).
  apply Permutation_swap.
Defined.

(** X5.  A file whose prediction map is empty (what a non-success
    profiling response is turned into) adds nothing: leaving its metric set
    out of the list, wherever it stands, gives the same aggregate. *)
Theorem X5_empty_file_does_not_change_aggregate
    (ms1 ms2 : list MetricSet) (gt : ground_truth_map) :
  _aggregate_metrics_list (ms1 ++ calculate_metrics [] gt :: ms2)
  = _aggregate_metrics_list (ms1 ++ ms2).
Proof.
  rewrite !aggregate_closed_form. cbv zeta.
  rewrite !map_app, !map_cons, !py_sum_app, !py_sum_cons, !concat_app.
  change (calculate_metrics [] gt) with (_calculate_metric_scores [] 0).
  cbn [_calculate_metric_scores correct_predictions true_positives false_positives
       false_negatives total_columns excluded_columns details concat app].
  rewrite !count_if_nil. unfold len. cbn [length Z.of_nat].
  rewrite !Z.add_0_l. reflexivity.
Qed.

Lemma classify_snoc gt (cls : prediction_map) item :
  _compute_classification_details (cls ++ [item])%list gt =
  (((_compute_classification_details cls gt).1 ++ (classify_step gt ([], []) item).1)%list,
   ((_compute_classification_details cls gt).2 ++ (classify_step gt ([], []) item).2)%list).
Proof.
  unfold _compute_classification_details at 1. rewrite fold_left_app. cbn [fold_left].
  fold (_compute_classification_details cls gt).
  destruct (_compute_classification_details cls gt) as [rd ex].
  apply classify_step_acc.
Qed.

(** X6.  The per-column correctness maps agree with the scoring engine: for
    a prediction map with distinct column names, [_compute_correct_map]
    and [_per_column_correct_map] hold, for a column, exactly the
    correctness flag (and predicted label) of the detail row that
    [_compute_classification_details] produces for it, and nothing for an
    excluded column. *)
Theorem X6_correct_maps_agree_with_details (cls : prediction_map) (gt : ground_truth_map) :
  NoDup cls.*1 ->
  (forall c b,
     _compute_correct_map cls gt !! c = Some b <->
     exists d, d ∈ (_compute_classification_details cls gt).1 /\
               column d = c /\ correct d = b) /\
  (forall c r,
     _per_column_correct_map cls gt !! c = Some r <->
     exists d, d ∈ (_compute_classification_details cls gt).1 /\
               column d = c /\ correct d = cr_correct r /\
               predicted d = cr_semantic_type r).
Proof.
  induction cls as [|[col e] cls IH] using rev_ind.
  - intros _. unfold _compute_correct_map, _per_column_correct_map. cbn [fold_left].
    split; intros c ?; (split; [by rewrite lookup_empty|]);
      intros (d & []%elem_of_nil & _).
  - rewrite fmap_app. intros [Hnd [Hcol _]]%NoDup_app.
    assert (Hnew : col ∉ cls.*1).
    { intros Hin. apply (Hcol col Hin). cbn. left. }
    destruct (IH Hnd) as [IH1 IH2]. clear IH.
    assert (Hnocol : forall d, d ∈ (_compute_classification_details cls gt).1 ->
                               column d <> col).
    { intros d Hd Heq. apply Hnew. rewrite <- Heq.
      by apply (classify_details_spec gt cls d). }
    unfold _compute_correct_map, _per_column_correct_map.
    rewrite !fold_left_app. cbn [fold_left].
    fold (_compute_correct_map cls gt). fold (_per_column_correct_map cls gt).
    rewrite classify_snoc. cbn [fst].
    unfold correct_map_step, per_column_step, classify_step.
    destruct (no_label (gt !! col)) eqn:Hl; cbn [fst].
    + rewrite app_nil_r. done.
    + split.
      * intros c b. destruct (decide (c = col)) as [->|Hne].
        -- rewrite lookup_insert_eq. split.
           ++ intros [= <-]. eexists. split; [apply elem_of_app; right; left|]. done.
           ++ intros (d & [Hd|Hd%list_elem_of_singleton]%elem_of_app & Hc & Hb).
              ** by apply Hnocol in Hd.
              ** subst d. cbn in Hb. by subst b.
        -- rewrite lookup_insert_ne by done. rewrite IH1. split.
           ++ intros (d & Hd & ?). exists d. split; [apply elem_of_app; by left|done].
           ++ intros (d & [Hd|Hd%list_elem_of_singleton]%elem_of_app & Hc & Hb).
              ** by exists d.
              ** subst d. cbn in Hc. congruence.
      * intros c r. destruct (decide (c = col)) as [->|Hne].
        -- rewrite lookup_insert_eq. split.
           ++ intros [= <-]. eexists. split; [apply elem_of_app; right; left|]. done.
           ++ intros (d & [Hd|Hd%list_elem_of_singleton]%elem_of_app & Hc & Hb & Hp).
              ** by apply Hnocol in Hd.
              ** subst d. cbn in Hb, Hp. destruct r. cbn in *. by subst.
        -- rewrite lookup_insert_ne by done. rewrite IH2. split.
           ++ intros (d & Hd & ?). exists d. split; [apply elem_of_app; by left|done].
           ++ intros (d & [Hd|Hd%list_elem_of_singleton]%elem_of_app & Hc & Hb).
              ** by exists d.
              ** subst d. cbn in Hc. congruence.
Qed.

Lemma X6_correct_maps_agree_with_details_witness :
  let cls : prediction_map :=
    [("A", {| semantic_type := Some "ZIP"; semanticType := None |});
     ("B", {| semantic_type := None; semanticType := Some "EMAIL" |})] in
  let gt : ground_truth_map := {[ "A" := "ZIP"; "B" := "PHONE" ]} in
  _compute_correct_map cls gt !! "B" = Some false <->
  exists d, d ∈ (_compute_classification_details cls gt).1 /\
            column d = "B" /\ correct d = false.
Proof.
  intros cls gt.
  apply (X6_correct_maps_agree_with_details cls gt).
  vm_compute. repeat constructor; intros H; inversion H as [|? ? ? H']; inversion H'.
Defined.

(** ** Profiling client *)

Lemma dict_set_keys_elem {V} (k : string) (v : V) (d : list (string * V)) (n : string) :
  n ∈ (dict_set k v d).*1 <-> n = k \/ n ∈ d.*1.
Proof.
  induction d as [|[k' v'] d IH]; cbn [dict_set].
  - rewrite fmap_cons. cbn. set_solver.
  - destruct (String.eqb_spec k k') as [->|Hne]; rewrite !fmap_cons; cbn [fst].
    + set_solver.
    + rewrite !elem_of_cons, IH. tauto.
Qed.

Lemma dict_set_NoDup {V} (k : string) (v : V) (d : list (string * V)) :
  NoDup d.*1 -> NoDup (dict_set k v d).*1.
Proof.
  induction d as [|[k' v'] d IH]; cbn [dict_set].
  - intros _. rewrite fmap_cons. cbn. apply NoDup_singleton.
  - rewrite fmap_cons. cbn [fst]. intros [Hk Hd]%NoDup_cons.
    destruct (String.eqb_spec k k') as [->|Hne]; rewrite fmap_cons; cbn [fst].
    + by apply NoDup_cons.
    + apply NoDup_cons. split; [|by apply IH].
      rewrite dict_set_keys_elem. intros [?|?]; congruence.
Qed.

Lemma dict_set_elem {V} (k : string) (v : V) (d : list (string * V)) (n : string) (e : V) :
  (n, e) ∈ dict_set k v d -> (n = k /\ e = v) \/ (n, e) ∈ d.
Proof.
  induction d as [|[k' v'] d IH]; cbn [dict_set].
  - intros [= -> ->]%list_elem_of_singleton. by left.
  - destruct (String.eqb_spec k k') as [->|Hne].
    + intros [[= -> ->]|H]%elem_of_cons; [by left|]. right. by right.
    + intros [[= -> ->]|H]%elem_of_cons; [right; left|].
      destruct (IH H) as [?|?]; [by left|]. right. by right.
Qed.

Lemma parse_step_label (c : column_entry) :
  predicted_type_of
    {| semantic_type := match entry_label c with
                        | Some _ => entry_label c
                        | None => ce_semantic_type c
                        end;
       semanticType := ce_semanticType c |}
  = or_str (entry_label c) "NONE".
Proof.
  unfold predicted_type_of, entry_label, or_opt, or_str, opt_truthy, PyStr.truthy.
  destruct (ce_semantic_type c) as [[|a s]|], (ce_semanticType c) as [[|b t]|]; reflexivity.
Qed.

Lemma parse_fold_spec (cols : list (option column_entry)) (m0 : prediction_map) :
  let m := fold_left parse_step cols m0 in
  (NoDup m0.*1 -> NoDup m.*1) /\
  (forall n, n ∈ m.*1 <->
             n ∈ m0.*1 \/ (n <> "" /\ exists c, Some c ∈ cols /\ entry_name c = n)) /\
  (forall n e, (n, e) ∈ m ->
               (n, e) ∈ m0 \/
               exists c, Some c ∈ cols /\ entry_name c = n /\
                         predicted_type_of e = or_str (entry_label c) "NONE").
Proof.
  revert m0. induction cols as [|col cols IH]; intros m0; cbv zeta.
  - cbn [fold_left]. split; [done|]. split; [|by left].
    intros n. split; [by left|]. intros [?|(_ & c & []%elem_of_nil & _)]. done.
  - cbn [fold_left]. destruct (IH (parse_step m0 col)) as (I1 & I2 & I3). cbv zeta in *.
    destruct col as [c|]; cbn [parse_step] in *.
    + fold (entry_name c) in *. fold (entry_label c) in *.
      destruct (PyStr.truthy (entry_name c)) eqn:Ht.
      * assert (Hne : entry_name c <> "").
        { intros Heq. rewrite Heq in Ht. discriminate. }
        split; [|split].
        -- intros Hnd. by apply I1, dict_set_NoDup.
        -- intros n. rewrite I2, dict_set_keys_elem. split.
           ++ intros [[->|?]|(? & c' & ? & ?)]; [right|by left|right].
              ** split; [done|]. exists c. split; [left|done].
              ** split; [done|]. exists c'. split; [by right|done].
           ++ intros [?|(? & c' & [[= ->]|?]%elem_of_cons & ?)].
              ** left. by right.
              ** left. left. done.
              ** right. split; [done|]. by exists c'.
        -- intros n e [Hd|(c' & ? & ? & ?)]%I3.
           ++ apply dict_set_elem in Hd as [[-> ->]|?]; [|by left].
              right. exists c. split; [left|]. split; [done|]. apply parse_step_label.
           ++ right. exists c'. split; [by right|done].
      * split; [done|]. split.
        -- intros n. rewrite I2. split.
           ++ intros [?|(? & c' & ? & ?)]; [by left|right].
              split; [done|]. exists c'. split; [by right|done].
           ++ intros [?|(Hn & c' & [[= ->]|?]%elem_of_cons & Hc')]; [by left| |].
              ** exfalso. apply Hn. rewrite <- Hc'.
                 unfold PyStr.truthy in Ht. apply negb_false_iff in Ht.
                 by apply String.eqb_eq in Ht.
              ** right. split; [done|]. by exists c'.
        -- intros n e [?|(c' & ? & ?)]%I3; [by left|].
           right. exists c'. split; [by right|done].
    + split; [done|]. split.
      * intros n. rewrite I2. split.
        -- intros [?|(? & c' & ? & ?)]; [by left|right].
           split; [done|]. exists c'. split; [by right|done].
        -- intros [?|(Hn & c' & [[=]|?]%elem_of_cons & Hc')]; [by left|].
           right. split; [done|]. by exists c'.
      * intros n e [?|(c' & ? & ?)]%I3; [by left|].
        right. exists c'. split; [by right|done].
Qed.

(** X7.  [_parse_predictions] prefers the map form and returns it as it
    is; without it, the list form is turned into a map that has every
    non-empty column name of the list exactly once, and whose entry for a
    name predicts the label of a column object of that name (read from
    either spelling of the key); a payload with neither form is a
    [ValueError]. *)
Theorem X7_parse_predictions_normal_form (p : predictions_payload) :
  (forall m, column_classifications p = Some m -> _parse_predictions p = Ok m) /\
  (column_classifications p = None -> columns p = None ->
   _parse_predictions p = Raise ValueError) /\
  (forall cols,
     column_classifications p = None -> columns p = Some cols ->
     exists m,
       _parse_predictions p = Ok m /\
       NoDup m.*1 /\
       (forall n, n ∈ m.*1 <-> n <> "" /\ exists c, Some c ∈ cols /\ entry_name c = n) /\
       (forall n e, (n, e) ∈ m ->
          exists c, Some c ∈ cols /\ entry_name c = n /\
                    predicted_type_of e = or_str (entry_label c) "NONE")).
Proof.
  unfold _parse_predictions. split; [|split].
  - by intros m ->.
  - by intros -> ->.
  - intros cols -> ->. eexists. split; [reflexivity|].
    destruct (parse_fold_spec cols []) as (H1 & H2 & H3). cbv zeta in *.
    split; [apply H1; constructor|]. split.
    + intros n. rewrite H2. split; [intros [[]%elem_of_nil|?]; done|by right].
    + intros n e [[]%elem_of_nil|?]%H3. done.
Qed.

Example parse_list_form :
  _parse_predictions
    {| column_classifications := None;
       columns := Some [ Some {| ce_column_name := None; ce_columnName := Some "A";
                                 ce_name := None; ce_semantic_type := None;
                                 ce_semanticType := Some "ZIP" |};
                         None;
                         Some {| ce_column_name := Some ""; ce_columnName := None;
                                 ce_name := None; ce_semantic_type := Some "X";
                                 ce_semanticType := None |};
                         Some {| ce_column_name := Some "A"; ce_columnName := None;
                                 ce_name := None; ce_semantic_type := Some "EMAIL";
                                 ce_semanticType := None |} ] |}
  = Ok [("A", {| semantic_type := Some "EMAIL"; semanticType := None |})].
Proof. vm_compute. reflexivity. Qed.

(** ** Dataset loader *)

Lemma enumerate_snd {A} (l : list A) : (enumerate l).*2 = l.
Proof. unfold enumerate. apply snd_zip. by rewrite length_seq. Qed.

Lemma build_data_row_fold (row : list cell) (items : list (nat * string)) (d0 : data_row) :
  let d := fold_left (fun (d : data_row) (item : nat * string) =>
                        <[item.2 := data_cell row item.1]> d) items d0 in
  dom d = dom d0 ∪ list_to_set items.*2 /\
  (forall k v, d !! k = Some v ->
     d0 !! k = Some v \/ exists i, v = data_cell row i).
Proof.
  revert d0. induction items as [|[i col] items IH]; intros d0; cbv zeta.
  - cbn. split; [set_solver|]. by left.
  - cbn [fold_left fst snd]. destruct (IH (<[col := data_cell row i]> d0)) as [H1 H2].
    cbv zeta in *. split.
    + rewrite H1, dom_insert_L, fmap_cons. cbn. set_solver.
    + intros k v [Hk|?]%H2; [|by right]. cbn in Hk.
      destruct (decide (k = col)) as [->|Hne].
      * rewrite lookup_insert_eq in Hk. injection Hk as <-. right. eauto.
      * rewrite lookup_insert_ne in Hk by done. by left.
Qed.

Lemma data_cell_normal (row : list cell) (i : nat) (s : string) :
  data_cell row i = Some s -> PyStr.strip s <> "" /\ PyStr.lower s <> "nan".
Proof.
  unfold data_cell. destruct (row !! i) as [c|]; [|done].
  destruct (String.eqb_spec (PyStr.strip (str_of_cell c)) "") as [|H1]; [done|].
  destruct (String.eqb_spec (PyStr.lower (str_of_cell c)) "nan") as [|H2]; [done|].
  cbn. by intros [= <-].
Qed.

(** X8.  The data rows of [_load_universal]: there is one per frame row
    after the third, each has exactly the returned headers as keys, and
    each value is null or a string that is neither blank nor "nan" in any
    letter case. *)
Theorem X8_loader_data_rows (df : frame) headers rows gt_base gt_custom :
  _load_universal df = Ok (headers, rows, gt_base, gt_custom) ->
  len rows = len df - 3 /\
  (forall row, row ∈ rows ->
     dom row = list_to_set headers /\
     forall k s, row !! k = Some (Some s) ->
                 PyStr.strip s <> "" /\ PyStr.lower s <> "nan").
Proof.
  unfold _load_universal.
  destruct (len df <? 4) eqn:Hlt; [done|]. apply Z.ltb_ge in Hlt.
  destruct (fold_left _ _ _) as [[hs gb] gc].
  intros [= <- <- <- <-]. split.
  - unfold len in *. rewrite length_map, length_drop. lia.
  - intros row (r & -> & _)%list_elem_of_fmap.
    destruct (build_data_row_fold r (enumerate hs) ∅) as [H1 H2]. cbv zeta in *.
    fold (build_data_row hs r) in H1, H2. split.
    + rewrite H1, enumerate_snd, dom_empty_L. set_solver.
    + intros k s [Hk|[i Hi]]%H2; [by rewrite lookup_empty in Hk|].
      by apply (data_cell_normal r i).
Qed.

Lemma X8_loader_data_rows_witness :
  len [ ({[ "A" := Some "1" ]} : data_row) ] = len [ [Some "T"]; [Some "U"]; [Some "A"]; [Some "1"] ] - 3.
Proof.
  apply (X8_loader_data_rows
           [ [Some "T"]; [Some "U"]; [Some "A"]; [Some "1"] ]
           ["A"] [ {[ "A" := Some "1" ]} ] {[ "A" := "T" ]} {[ "A" := "U" ]}).
  vm_compute. reflexivity.
Defined.

Lemma no_dot_no_marker (x s : string) :
  PyStr.has_char "."%char s = false -> PyStr.contains (String "."%char x) s = false.
Proof.
  induction s as [|c s IH]; cbn [PyStr.has_char PyStr.contains String.prefix].
  - done.
  - intros [Hc Hs]%orb_false_elim. rewrite (IH Hs), orb_false_r.
    destruct (ascii_dec "."%char c) as [<-|Hne]; [by rewrite Ascii.eqb_refl in Hc|done].
Qed.

Lemma before_dot_no_dot (s : string) : PyStr.has_char "."%char (PyStr.before_dot s) = false.
Proof.
  induction s as [|c s IH]; [done|]. cbn [PyStr.before_dot].
  destruct (Ascii.eqb c "."%char) eqn:Hc; [done|].
  cbn [PyStr.has_char]. rewrite IH, orb_false_r.
  rewrite Ascii.eqb_sym. done.
Qed.

Lemma gt_label_no_marker (c : cell) (t : string) :
  gt_label c = Some t ->
  PyStr.contains ".1" t = false /\ PyStr.contains ".2" t = false /\
  PyStr.contains ".3" t = false.
Proof.
  unfold gt_label. destruct (_ && _); [|done].
  destruct (PyStr.contains ".1" (str_of_cell c)) eqn:H1; cbn [orb].
  { intros [= <-]. repeat split; apply no_dot_no_marker, before_dot_no_dot. }
  destruct (PyStr.contains ".2" (str_of_cell c)) eqn:H2; cbn [orb].
  { intros [= <-]. repeat split; apply no_dot_no_marker, before_dot_no_dot. }
  destruct (PyStr.contains ".3" (str_of_cell c)) eqn:H3; cbn [orb].
  { intros [= <-]. repeat split; apply no_dot_no_marker, before_dot_no_dot. }
  by intros [= <-].
Qed.

(** Labels the header loop stores never carry a suffix marker. *)
Lemma header_loop_labels baseline_row custom_row items acc :
  let unmarked (t : string) :=
    PyStr.contains ".1" t = false /\ PyStr.contains ".2" t = false /\
    PyStr.contains ".3" t = false in
  (forall c t, acc.1.2 !! c = Some t \/ acc.2 !! c = Some t -> unmarked t) ->
  forall c t,
    (fold_left (header_step baseline_row custom_row) items acc).1.2 !! c = Some t \/
    (fold_left (header_step baseline_row custom_row) items acc).2 !! c = Some t ->
    unmarked t.
Proof.
  cbv zeta. revert acc. induction items as [|[idx h] items IH]; intros acc Hacc; [done|].
  cbn [fold_left]. apply IH. clear IH.
  destruct acc as [[hs gb] gc]. unfold header_step.
  destruct (skipped_header (str_of_cell h)); [done|]. cbn [fst snd] in *.
  assert (Hrec : forall row (gt : ground_truth_map) c t,
            record_label row idx (str_of_cell h) gt !! c = Some t ->
            gt !! c = Some t \/ exists cl, gt_label cl = Some t).
  { intros row gt c t. unfold record_label.
    destruct (row !! idx) as [cl|]; [|by left].
    destruct (gt_label cl) as [t'|] eqn:Hl; [|by left].
    destruct (decide (c = str_of_cell h)) as [->|Hne].
    - rewrite lookup_insert_eq. intros [= <-]. right. eauto.
    - rewrite lookup_insert_ne by done. by left. }
  intros c t [[?|[cl Hl]]%Hrec|[?|[cl Hl]]%Hrec]; eauto using gt_label_no_marker.
Qed.

(** X9.  No ground-truth label that [_load_universal] returns contains one
    of the disambiguating suffixes [.1], [.2], [.3]: a cell that carries
    one is cut at its first dot. *)
Theorem X9_loader_labels_without_suffix (df : frame) headers rows gt_base gt_custom :
  _load_universal df = Ok (headers, rows, gt_base, gt_custom) ->
  forall c t,
    gt_base !! c = Some t \/ gt_custom !! c = Some t ->
    PyStr.contains ".1" t = false /\ PyStr.contains ".2" t = false /\
    PyStr.contains ".3" t = false.
Proof.
  unfold _load_universal. destruct (len df <? 4); [done|].
  pose proof (header_loop_labels (default [] (df !! 0%nat)) (default [] (df !! 1%nat))
                (enumerate (default [] (df !! 2%nat))) ([], ∅, ∅)) as H.
  cbv zeta in H.
  destruct (fold_left _ _ _) as [[hs gb] gc].
  intros [= <- <- <- <-]. apply H.
  intros c t [Hc|Hc]; cbn in Hc; by rewrite lookup_empty in Hc.
Qed.

Lemma X9_loader_labels_without_suffix_witness :
  PyStr.contains ".1" "EMAIL" = false /\ PyStr.contains ".2" "EMAIL" = false /\
  PyStr.contains ".3" "EMAIL" = false.
Proof.
  assert (H : _load_universal [ [Some "EMAIL.2"]; [Some "U"]; [Some "A"]; [Some "1"] ]
              = Ok (["A"], [ ({[ "A" := Some "1" ]} : data_row) ],
                    ({[ "A" := "EMAIL" ]} : ground_truth_map),
                    ({[ "A" := "U" ]} : ground_truth_map)))
    by (vm_compute; reflexivity).
  apply (X9_loader_labels_without_suffix _ _ _ _ _ H "A" "EMAIL").
  left. vm_compute. reflexivity.
Defined.

Lemma gt_label_empty : gt_label (Some "") = None.
Proof. reflexivity. Qed.

Lemma ground_truth_loop_filter baseline_row custom_row items
    (acc : list string * ground_truth_map * ground_truth_map)
    (acc' : ground_truth_map * ground_truth_map) :
  let keep (kv : string * string) := PyStr.strip kv.1 <> "" in
  acc'.1 = filter keep acc.1.2 -> acc'.2 = filter keep acc.2 ->
  (fold_left (ground_truth_step baseline_row custom_row) items acc').1
    = filter keep (fold_left (header_step baseline_row custom_row) items acc).1.2 /\
  (fold_left (ground_truth_step baseline_row custom_row) items acc').2
    = filter keep (fold_left (header_step baseline_row custom_row) items acc).2.
Proof.
  cbv zeta. revert acc acc'.
  induction items as [|[idx h] items IH]; intros acc acc' H1 H2; [done|].
  cbn [fold_left]. apply IH; clear IH;
    destruct acc as [[hs gb] gc], acc' as [gb' gc']; cbn [fst snd] in *; subst gb' gc';
    unfold header_step, ground_truth_step, skipped_header, record_label;
    destruct (negb (PyStr.truthy (str_of_cell h)) ||
              String.eqb (PyStr.lower (str_of_cell h)) "nan"); cbn [orb fst snd]; try done.
  all: unfold PyStr.truthy;
    destruct (String.eqb_spec (PyStr.strip (str_of_cell h)) "") as [Hb|Hb]; cbn [negb fst snd].
  - destruct (baseline_row !! idx) as [cl|]; [|done]. cbn [default].
    destruct (gt_label cl); [|done].
    by rewrite map_filter_insert_not by (intros y Hy; cbn in Hy; done).
  - destruct (baseline_row !! idx) as [cl|]; cbn [default from_option id].
    + destruct (gt_label cl); [|done]. by rewrite map_filter_insert_True.
    + by rewrite gt_label_empty.
  - destruct (custom_row !! idx) as [cl|]; [|done]. cbn [default].
    destruct (gt_label cl); [|done].
    by rewrite map_filter_insert_not by (intros y Hy; cbn in Hy; done).
  - destruct (custom_row !! idx) as [cl|]; cbn [default from_option id].
    + destruct (gt_label cl); [|done]. by rewrite map_filter_insert_True.
    + by rewrite gt_label_empty.
Qed.

(** X10.  [load_ground_truth] against [_load_universal].  An exception of
    the read of [self.data_file] leaves [load_ground_truth] as it is: so
    the [AttributeError] of the never-assigned attribute is what the
    method raises on an evaluator as [__init__] builds it.  When the read
    gives a frame, the two loaders read the same ground truth from it:
    both raise [ValueError] on fewer than four rows, and otherwise the
    baseline and custom maps of [load_ground_truth] are those of
    [_load_universal] without the columns whose header is blank (which
    only [load_ground_truth] skips); it returns the baseline map in
    baseline mode and the custom map otherwise. *)
Theorem X10_ground_truth_loaders_agree (baseline_mode : bool)
    (read_data_file : result frame) :
  match read_data_file with
  | Raise e => load_ground_truth baseline_mode read_data_file = Raise e
  | Ok df =>
      (len df < 4 ->
       load_ground_truth baseline_mode read_data_file = Raise ValueError /\
       _load_universal df = Raise ValueError) /\
      (4 <= len df ->
       exists headers rows gt_base gt_custom,
         _load_universal df = Ok (headers, rows, gt_base, gt_custom) /\
         let keep (kv : string * string) := PyStr.strip kv.1 <> "" in
         load_ground_truth baseline_mode read_data_file =
         Ok (if baseline_mode then filter keep gt_base else filter keep gt_custom,
             (filter keep gt_base, filter keep gt_custom)))
  end.
Proof.
  destruct read_data_file as [df|e]; [|reflexivity].
  unfold load_ground_truth, _load_universal. cbn [rbind]. split.
  - intros H. by apply Z.ltb_lt in H as ->.
  - intros H. apply Z.ltb_ge in H as ->.
    pose proof (ground_truth_loop_filter (default [] (df !! 0%nat)) (default [] (df !! 1%nat))
                  (enumerate (default [] (df !! 2%nat))) ([], ∅, ∅) (∅, ∅)) as Hf.
    cbv zeta in Hf.
    destruct (fold_left (header_step _ _) _ _) as [[hs gb] gc].
    destruct (fold_left (ground_truth_step _ _) _ _) as [gb' gc'].
    destruct Hf as [Hf1 Hf2]; [cbn [fst snd]; by rewrite map_filter_empty..|].
    cbn [fst snd] in Hf1, Hf2. subst gb' gc'.
    eexists _, _, _, _. split; reflexivity.
Qed.

(** On the evaluator as shipped the single-file loader fails before it
    looks at any row. *)
Example load_ground_truth_unassigned :
  load_ground_truth true (Raise AttributeError) = Raise AttributeError /\
  load_ground_truth false (Raise AttributeError) = Raise AttributeError.
Proof. split; reflexivity. Qed.

(** ** Profiling client: the request and the scoring pipeline *)

Lemma slice_to_prefix {A} (n : Z) (l : list A) : slice_to n l `prefix_of` l.
Proof. unfold slice_to. destruct (0 <=? n); apply prefix_take. Qed.

Lemma slice_to_len {A} (n : Z) (l : list A) : 0 <= n -> len (slice_to n l) <= n.
Proof.
  intros Hn. unfold slice_to, len. apply Z.leb_le in Hn as Hn'. rewrite Hn'.
  rewrite length_take. lia.
Qed.

Section ProfilingRequestFacts.

Variable int_of_str : string -> option Z.
Variable environ : gmap string string.
Variable post : profile_request -> http_outcome predictions_payload.

(** X11.  The request that [profile_rows] sends: its columns are a prefix
    of the given columns and its rows a prefix of the given rows;
    [max_samples] is the number of rows sent; with [full_data] nothing is
    cut; otherwise a non-negative column cap (300 when [EVAL_MAX_COLUMNS]
    is unset) bounds the columns, and when it cuts, the rows keep only the
    columns sent; unless [EVAL_TRUNCATE_DATA] switches it off, a
    non-negative row cap (1000 when [EVAL_MAX_ROWS] is unset) bounds the
    rows. *)
Theorem X11_profile_request_caps (dataset : string) (full : bool)
    (cols : list string) (rows : list data_row) (co : bool) :
  let req := profile_rows_request int_of_str environ dataset full cols rows co in
  let col_cap := _eval_get_int int_of_str environ "EVAL_MAX_COLUMNS" 300 300 in
  let row_cap := _eval_get_int int_of_str environ "EVAL_MAX_ROWS" 1000 1000 in
  let truncating := _eval_get_bool environ "EVAL_TRUNCATE_DATA" true true in
  max_samples req = len (req_data req) /\
  custom_only req = co /\
  req_columns req `prefix_of` cols /\
  (length (req_data req) <= length rows)%nat /\
  (full = true -> req_columns req = cols /\ req_data req = rows) /\
  (full = false -> 0 <= col_cap -> len (req_columns req) <= col_cap) /\
  (full = false -> col_cap < len cols ->
   forall row, row ∈ req_data req -> dom row ⊆ list_to_set (req_columns req)) /\
  (full = false -> truncating = true -> 0 <= row_cap -> len (req_data req) <= row_cap) /\
  (environ !! "EVAL_MAX_COLUMNS" = None -> col_cap = 300) /\
  (environ !! "EVAL_MAX_ROWS" = None -> row_cap = 1000).
Proof.
  cbv zeta. unfold profile_rows_request.
  set (col_cap := _eval_get_int int_of_str environ "EVAL_MAX_COLUMNS" 300 300).
  set (row_cap := _eval_get_int int_of_str environ "EVAL_MAX_ROWS" 1000 1000).
  set (truncating := _eval_get_bool environ "EVAL_TRUNCATE_DATA" true true).
  assert (Hdef : (environ !! "EVAL_MAX_COLUMNS" = None -> col_cap = 300) /\
                 (environ !! "EVAL_MAX_ROWS" = None -> row_cap = 1000)).
  { unfold col_cap, row_cap, _eval_get_int.
    split; intros ->; by destruct (_is_eval_mode environ). }
  assert (Hlen : forall (n : Z) (l : list data_row), (length (slice_to n l) <= length l)%nat).
  { intros n l. apply prefix_length, slice_to_prefix. }
  destruct Hdef as [Hd1 Hd2].
  destruct full; cbn [negb].
  - cbn [req_columns req_data max_samples custom_only].
    split_and!; first [done | lia | by intros].
  - destruct (col_cap <? len cols) eqn:Hc.
    + set (kept := slice_to col_cap cols).
      set (rows' := map (fun row : data_row =>
                           filter (fun kv : string * option string => kv.1 ∈ kept) row) rows).
      assert (Hrows' : length rows' = length rows) by (unfold rows'; by rewrite length_map).
      assert (Hdom : forall rows'' : list data_row, rows'' `prefix_of` rows' ->
                       forall row, row ∈ rows'' -> dom row ⊆ list_to_set kept).
      { intros rows'' [k Hk] row Hrow.
        assert (Hin : row ∈ rows') by (rewrite Hk; apply elem_of_app; by left).
        apply list_elem_of_fmap in Hin as (r & -> & _).
        intros c [v Hv]%elem_of_dom. apply map_lookup_filter_Some in Hv as [_ Hv].
        cbn in Hv. by apply elem_of_list_to_set. }
      pose proof (Hlen row_cap rows') as Hl.
      destruct truncating; cbn [req_columns req_data max_samples custom_only].
      * split_and!;
          first [ done | lia | apply slice_to_prefix
                | by (intros; apply slice_to_len)
                | by (intros _ _; apply Hdom, slice_to_prefix) ].
      * split_and!;
          first [ done | lia | apply slice_to_prefix
                | by (intros; apply slice_to_len)
                | by (intros _ _; apply Hdom) ].
    + apply Z.ltb_ge in Hc. pose proof (Hlen row_cap rows) as Hl.
      destruct truncating; cbn [req_columns req_data max_samples custom_only].
      * split_and!;
          first [ done | lia | by (intros; lia)
                | by (intros; apply slice_to_len) ].
      * split_and!; first [ done | lia | by (intros; lia) ].
Qed.

(** X12.  [_profile_and_score] on a loaded file: a non-success answer of
    the profiling endpoint yields the all-zero metric set (that of no
    files at all), an exception of the HTTP call or a body that is not
    JSON ends in the parser's [ValueError], and a 200 answer is parsed and
    scored against the custom ground truth in custom-only mode and the
    baseline ground truth otherwise. *)
Theorem X12_profile_and_score_outcomes (dataset : string) (full : bool) (df : frame)
    (co : bool) headers rows gt_base gt_custom :
  _load_universal df = Ok (headers, rows, gt_base, gt_custom) ->
  let req := profile_rows_request int_of_str environ dataset full headers rows co in
  let result := _profile_and_score int_of_str environ post dataset full df co in
  (forall status body, post req = Response status body -> status <> 200 ->
     result = Ok (_aggregate_metrics_list [])) /\
  (forall e, post req = HttpRaise e -> result = Raise ValueError) /\
  (post req = Response 200 None -> result = Raise ValueError) /\
  (forall p, post req = Response 200 (Some p) ->
     result = (classifications <-? _parse_predictions p ;;
               Ok (calculate_metrics classifications (if co then gt_custom else gt_base)))).
Proof.
  intros Hload. cbv zeta. unfold _profile_and_score. rewrite Hload. cbn [rbind].
  unfold profile_rows, profile_rows_body, try_except.
  repeat split.
  - intros status body -> Hst. apply Z.eqb_neq in Hst. rewrite Hst. reflexivity.
  - intros e ->. by destruct e.
  - intros ->. reflexivity.
  - intros p ->. reflexivity.
Qed.

End ProfilingRequestFacts.

Lemma X12_profile_and_score_outcomes_witness :
  _profile_and_score (fun _ => None) ∅ (fun _ => Response 503 None) "d" false
    [ [Some "T"]; [Some "U"]; [Some "A"]; [Some "1"] ] true
  = Ok (_aggregate_metrics_list []).
Proof.
  assert (H : _load_universal [ [Some "T"]; [Some "U"]; [Some "A"]; [Some "1"] ]
              = Ok (["A"], [ ({[ "A" := Some "1" ]} : data_row) ],
                    ({[ "A" := "T" ]} : ground_truth_map),
                    ({[ "A" := "U" ]} : ground_truth_map)))
    by (vm_compute; reflexivity).
  apply (X12_profile_and_score_outcomes (fun _ => None) ∅ (fun _ => Response 503 None)
           "d" false _ true _ _ _ _ H) with (status := 503) (body := None).
  - reflexivity.
  - discriminate.
Defined.

(** ** Type lifecycle manager: the payload *)

Section PayloadFacts.

Variable int_of_str : string -> option Z.
Variable str_upper : string -> string.
Variable str_isdigit : string -> bool.

(** Header patterns only touch the first locale. *)
Lemma add_header_patterns_frame p g p' :
  _add_header_patterns int_of_str p g = Ok p' ->
  Payload.semanticType p' = Payload.semanticType p /\
  Payload.description p' = Payload.description p /\
  Payload.pluginType p' = Payload.pluginType p /\
  Payload.baseType p' = Payload.baseType p /\
  Payload.threshold p' = Payload.threshold p /\
  Payload.priority p' = Payload.priority p /\
  Payload.content p' = Payload.content p /\
  Payload.backout p' = Payload.backout p /\
  Payload.ephemeral p' = Payload.ephemeral p /\
  (forall loc rest, Payload.validLocales p = Some (loc :: rest) ->
     exists loc', Payload.validLocales p' = Some (loc' :: rest) /\
                  Payload.localeTag loc' = Payload.localeTag loc /\
                  Payload.matchEntries loc' = Payload.matchEntries loc).
Proof.
  unfold _add_header_patterns, Payload.update_first_locale.
  destruct (fold_left _ _ _) as [|h hs].
  - intros [= <-]. repeat split. eauto.
  - destruct (Payload.validLocales p) as [[|loc rest]|] eqn:Hv; try done.
    intros [= <-]. cbn. repeat split. intros loc0 rest0 [= <- <-]. eauto.
Qed.

Lemma members_fold_spec (vs : list (option string)) (acc : list string) :
  let members := fold_left (member_step str_upper) vs acc in
  (NoDup acc -> NoDup members) /\
  (forall u, u ∈ members <->
     u ∈ acc \/ exists sv, Some sv ∈ vs /\ PyStr.strip sv <> "" /\
                           u = str_upper (PyStr.strip sv)).
Proof.
  revert acc. induction vs as [|v vs IH]; intros acc; cbv zeta.
  - cbn. split; [done|]. intros u. split; [by left|].
    intros [?|(? & []%elem_of_nil & _)]. done.
  - cbn [fold_left]. destruct (IH (member_step str_upper acc v)) as [I1 I2]. cbv zeta in *.
    destruct v as [sv|]; cbn [member_step] in *.
    + unfold PyStr.truthy in *.
      destruct (String.eqb_spec (PyStr.strip sv) "") as [Hb|Hb]; cbn [negb] in *.
      * split; [done|]. intros u. rewrite I2. split.
        -- intros [?|(s' & ? & ? & ?)]; [by left|]. right. exists s'. split; [by right|done].
        -- intros [?|(s' & [[= ->]|?]%elem_of_cons & ? & ?)]; [by left|done|].
           right. by exists s'.
      * destruct (bool_decide (str_upper (PyStr.strip sv) ∈ acc)) eqn:Hin.
        -- apply bool_decide_eq_true in Hin.
           split; [done|]. intros u. rewrite I2. split.
           ++ intros [?|(s' & ? & ? & ?)]; [by left|]. right. exists s'. split; [by right|done].
           ++ intros [?|(s' & [[= ->]|?]%elem_of_cons & ? & ->)]; [by left|by left|].
              right. by exists s'.
        -- apply bool_decide_eq_false in Hin. split.
           ++ intros Hnd. apply I1. apply NoDup_app. split; [done|].
              split; [|apply NoDup_singleton].
              intros x Hx Hx'%list_elem_of_singleton. by subst x.
           ++ intros u. rewrite I2, elem_of_app, list_elem_of_singleton. split.
              ** intros [[?| ->]|(s' & ? & ? & ?)]; [by left| |].
                 --- right. exists sv. split; [left|done].
                 --- right. exists s'. split; [by right|done].
              ** intros [?|(s' & [[= ->]|?]%elem_of_cons & ? & ->)]; [by left; left| |].
                 --- left. by right.
                 --- right. by exists s'.
    + split; [done|]. intros u. rewrite I2. split.
      * intros [?|(s' & ? & ? & ?)]; [by left|]. right. exists s'. split; [by right|done].
      * intros [?|(s' & [[=]|?]%elem_of_cons & ? & ?)]; [by left|].
        right. by exists s'.
Qed.

(** X13.  The payload of a [list] type: its content is the inline list of
    the upper-cased, stripped values, each of them once, without nulls
    and blanks, and it carries the stripped, non-empty backout pattern. *)
Theorem X13_list_payload_values (g : GeneratedType.t) (p : Payload.t) :
  GeneratedType.pluginType g = Some "list" ->
  _build_custom_type_payload int_of_str str_upper str_isdigit g = Ok (Some p) ->
  exists values members,
    GeneratedType.listValues g = Some values /\
    Payload.content p = Some {| Payload.type := Some "inline";
                                Payload.values := Some members |} /\
    NoDup members /\
    (forall u, u ∈ members <->
       exists sv, Some sv ∈ values /\ PyStr.strip sv <> "" /\
                  u = str_upper (PyStr.strip sv)) /\
    Payload.backout p = Some (PyStr.strip (or_str (GeneratedType.backout g) "")) /\
    PyStr.strip (or_str (GeneratedType.backout g) "") <> "".
Proof.
  intros Hp. unfold _build_custom_type_payload. rewrite Hp. cbn [required rbind].
  destruct (resolve_threshold _ _) as [t|]; [|done]. cbn [rbind].
  destruct (required (GeneratedType.semanticType g)) as [st|]; [|done]. cbn [rbind].
  destruct (required (GeneratedType.description g)) as [ds|]; [|done]. cbn [rbind].
  destruct (py_int _ _) as [pr|]; [|done]. cbn [rbind].
  cbn [String.eqb Ascii.eqb Bool.eqb andb]. unfold _add_list_content.
  destruct (GeneratedType.listValues g) as [[|v vs]|] eqn:Hv; try done.
  unfold PyStr.truthy.
  destruct (String.eqb_spec (PyStr.strip (or_str (GeneratedType.backout g) "")) "")
    as [Hb|Hb]; cbn [negb]; [done|].
  destruct (_add_header_patterns _ _ _) as [p1|] eqn:Hh; [|done]. cbn [rbind].
  intros [= <-].
  destruct (add_header_patterns_frame _ _ _ Hh) as (_ & _ & _ & _ & _ & _ & Hc & Hbk & _).
  destruct (members_fold_spec (v :: vs) []) as [M1 M2]. cbv zeta in *.
  exists (v :: vs), (fold_left (member_step str_upper) (v :: vs) []).
  split; [done|]. split; [by rewrite Hc|]. split; [apply M1; constructor|]. split.
  - intros u. rewrite M2. split; [intros [[]%elem_of_nil|?]; done|by right].
  - by rewrite Hbk.
Qed.

End PayloadFacts.

Lemma X13_list_payload_values_witness :
  let g := {| GeneratedType.semanticType := Some "STATE";
              GeneratedType.description := Some "US state codes";
              GeneratedType.pluginType := Some "list";
              GeneratedType.baseType := None;
              GeneratedType.confidenceThreshold := PInt 95;
              GeneratedType.priority := PNone;
              GeneratedType.regexPattern := None;
              GeneratedType.listValues := Some [Some "ca"; None; Some " NY "; Some "CA"; Some " "];
              GeneratedType.backout := Some " \p{IsAlphabetic}{2} ";
              GeneratedType.headerPatterns := [] |} in
  let p := {| Payload.semanticType := Some "STATE";
              Payload.description := Some "US state codes";
              Payload.pluginType := Some "list";
              Payload.baseType := Some "STRING";
              Payload.threshold := Some 95;
              Payload.priority := Some 1000;
              Payload.validLocales :=
                Some [ {| Payload.localeTag := Some "*"; Payload.headerRegExps := None;
                          Payload.matchEntries := None |} ];
              Payload.content := Some {| Payload.type := Some "inline";
                                         Payload.values := Some ["CA"; "NY"] |};
              Payload.backout := Some "\p{IsAlphabetic}{2}";
              Payload.ephemeral := None |} in
  exists values members,
    GeneratedType.listValues g = Some values /\
    Payload.content p = Some {| Payload.type := Some "inline";
                                Payload.values := Some members |} /\
    NoDup members /\
    (forall u, u ∈ members <->
       exists sv, Some sv ∈ values /\ PyStr.strip sv <> "" /\
                  u = PyStr.upper (PyStr.strip sv)) /\
    Payload.backout p = Some (PyStr.strip (or_str (GeneratedType.backout g) "")) /\
    PyStr.strip (or_str (GeneratedType.backout g) "") <> "".
Proof.
  intros g p.
  apply (X13_list_payload_values (fun _ => None) PyStr.upper PyStr.isdigit g p).
  - reflexivity.
  - vm_compute. reflexivity.
Defined.

Section PayloadShape.

Variable int_of_str : string -> option Z.
Variable str_upper : string -> string.
Variable str_isdigit : string -> bool.

Lemma resolve_threshold_range raw t :
  resolve_threshold int_of_str raw = Ok t -> 80 <= t <= 100.
Proof.
  unfold resolve_threshold. destruct (try_except _ _) as [t0|]; [|done].
  cbn [rbind]. intros [= <-]. apply clamp_threshold_range.
Qed.

(** X14.  The shape of every payload that [_build_custom_type_payload]
    returns: the stripped name and description, the plugin kind as given,
    the determined base type, a threshold between 80 and 100, the priority
    (1000 when none is given), no ephemeral flag yet, and exactly one
    locale, tagged "*"; that locale carries the stripped, non-empty pattern
    as its one complete match entry for a [regex] type and no match entry
    otherwise; only a [list] type has content and backout. *)
Theorem X14_built_payload_shape (g : GeneratedType.t) (p : Payload.t) :
  _build_custom_type_payload int_of_str str_upper str_isdigit g = Ok (Some p) ->
  Payload.semanticType p = PyStr.strip <$> GeneratedType.semanticType g /\
  Payload.description p = PyStr.strip <$> GeneratedType.description g /\
  Payload.pluginType p = GeneratedType.pluginType g /\
  Payload.baseType p = Some (_determine_base_type str_isdigit g) /\
  Payload.ephemeral p = None /\
  (exists t, Payload.threshold p = Some t /\ 80 <= t <= 100) /\
  (exists pr, Payload.priority p = Some pr /\
              (GeneratedType.priority g = PNone -> pr = 1000)) /\
  (exists loc,
     Payload.validLocales p = Some [loc] /\
     Payload.localeTag loc = Some "*" /\
     let pattern := PyStr.strip (or_str (GeneratedType.regexPattern g) "") in
     (GeneratedType.pluginType g = Some "regex" ->
      pattern <> "" /\
      Payload.matchEntries loc = Some [ {| Payload.regExpReturned := Some pattern;
                                           Payload.isRegExpComplete := Some true |} ]) /\
     (GeneratedType.pluginType g <> Some "regex" -> Payload.matchEntries loc = None)) /\
  (GeneratedType.pluginType g <> Some "list" ->
   Payload.content p = None /\ Payload.backout p = None).
Proof.
  unfold _build_custom_type_payload.
  destruct (GeneratedType.pluginType g) as [plugin|] eqn:Hpl; [|done]. cbn [required rbind].
  destruct (resolve_threshold _ _) as [t|] eqn:Ht; [|done]. cbn [rbind].
  apply resolve_threshold_range in Ht.
  destruct (GeneratedType.semanticType g) as [st|]; [|done]. cbn [required rbind].
  destruct (GeneratedType.description g) as [ds|]; [|done]. cbn [required rbind].
  destruct (py_int _ _) as [pr|] eqn:Hpr; [|done]. cbn [rbind].
  assert (Hprio : GeneratedType.priority g = PNone -> pr = 1000).
  { intros Hn. unfold _determine_priority in Hpr. rewrite Hn in Hpr. cbn in Hpr. congruence. }
  set (base := {| Payload.semanticType := Some (PyStr.strip st);
                  Payload.description := Some (PyStr.strip ds);
                  Payload.pluginType := Some plugin;
                  Payload.baseType := Some (_determine_base_type str_isdigit g);
                  Payload.threshold := Some t; Payload.priority := Some pr;
                  Payload.validLocales :=
                    Some [ {| Payload.localeTag := Some "*";
                              Payload.headerRegExps := None;
                              Payload.matchEntries := None |} ];
                  Payload.content := None; Payload.backout := None;
                  Payload.ephemeral := None |}).
  assert (Hfin : forall q (entries : option (list Payload.match_entry)),
            Payload.semanticType q = Some (PyStr.strip st) ->
            Payload.description q = Some (PyStr.strip ds) ->
            Payload.pluginType q = Some plugin ->
            Payload.baseType q = Some (_determine_base_type str_isdigit g) ->
            Payload.threshold q = Some t -> Payload.priority q = Some pr ->
            Payload.ephemeral q = None ->
            Payload.validLocales q =
              Some [ {| Payload.localeTag := Some "*"; Payload.headerRegExps := None;
                        Payload.matchEntries := entries |} ] ->
            _add_header_patterns int_of_str q g = Ok p ->
            Payload.semanticType p = Some (PyStr.strip st) /\
            Payload.description p = Some (PyStr.strip ds) /\
            Payload.pluginType p = Some plugin /\
            Payload.baseType p = Some (_determine_base_type str_isdigit g) /\
            Payload.ephemeral p = None /\
            (exists t, Payload.threshold p = Some t /\ 80 <= t <= 100) /\
            (exists pr, Payload.priority p = Some pr /\
                        (GeneratedType.priority g = PNone -> pr = 1000)) /\
            (exists loc, Payload.validLocales p = Some [loc] /\
                         Payload.localeTag loc = Some "*" /\
                         Payload.matchEntries loc = entries) /\
            Payload.content p = Payload.content q /\
            Payload.backout p = Payload.backout q).
  { intros q entries Q1 Q2 Q3 Q4 Q5 Q6 Q7 Q8 Hh.
    destruct (add_header_patterns_frame int_of_str _ _ _ Hh)
      as (F1 & F2 & F3 & F4 & F5 & F6 & F7 & F8 & F9 & F10).
    destruct (F10 _ _ Q8) as (loc' & L1 & L2 & L3).
    rewrite F1, F2, F3, F4, F5, F6, F9. split_and!; try done; eauto. }
  destruct (String.eqb_spec plugin "list") as [->|Hnl].
  - unfold _add_list_content.
    destruct (GeneratedType.listValues g) as [[|v vs]|]; try done.
    destruct (negb (PyStr.truthy _)); [done|]. cbn [negb].
    destruct (_add_header_patterns _ _ _) as [p1|] eqn:Hh; [|done]. cbn [rbind].
    intros [= ->].
    match type of Hh with
    | _add_header_patterns _ ?q _ = _ =>
        destruct (Hfin q None eq_refl eq_refl eq_refl eq_refl eq_refl eq_refl eq_refl
                    eq_refl Hh)
          as (? & ? & ? & ? & ? & ? & ? & (loc & ? & ? & ?) & ? & ?)
    end.
    split_and!; try done. exists loc. split_and!; try done.
  - destruct (String.eqb_spec plugin "regex") as [->|Hnr].
    + unfold _add_regex_content, Payload.update_first_locale. unfold PyStr.truthy.
      destruct (String.eqb_spec (PyStr.strip (or_str (GeneratedType.regexPattern g) "")) "")
        as [Hb|Hb]; cbn [negb]; [done|].
      cbn [Payload.validLocales base rbind negb].
      destruct (_add_header_patterns _ _ _) as [p1|] eqn:Hh; [|done]. cbn [rbind].
      intros [= ->].
      match type of Hh with
      | _add_header_patterns _ ?q _ = _ =>
          destruct (Hfin q _ eq_refl eq_refl eq_refl eq_refl eq_refl eq_refl eq_refl
                      eq_refl Hh)
            as (? & ? & ? & ? & ? & ? & ? & (loc & ? & ? & ?) & ? & ?)
      end.
      split_and!; try done. exists loc. split_and!; try done.
    + destruct (_add_header_patterns _ _ _) as [p1|] eqn:Hh; [|done]. cbn [rbind].
      intros [= ->].
      match type of Hh with
      | _add_header_patterns _ ?q _ = _ =>
          destruct (Hfin q None eq_refl eq_refl eq_refl eq_refl eq_refl eq_refl eq_refl
                      eq_refl Hh)
            as (? & ? & ? & ? & ? & ? & ? & (loc & ? & ? & ?) & ? & ?)
      end.
      split_and!; try done. exists loc. split_and!; try done.
      intros [= ->]. done.
Qed.

End PayloadShape.

Lemma X14_built_payload_shape_witness :
  Payload.baseType zip_payload = Some (_determine_base_type PyStr.isdigit zip_type).
Proof.
  apply (X14_built_payload_shape (fun _ => None) PyStr.upper PyStr.isdigit
           zip_type zip_payload).
  vm_compute. reflexivity.
Defined.

(** An absent list of header patterns is the empty list, an absent locale
    tag is "*", and an absent confidence is 95. *)
Example same_type_defaults :
  let with_locale loc :=
    Payload.set_validLocales (Some [loc]) zip_payload in
  _is_same_type
    (with_locale {| Payload.localeTag := None; Payload.headerRegExps := None;
                    Payload.matchEntries := None |})
    (with_locale {| Payload.localeTag := Some "*"; Payload.headerRegExps := Some [];
                    Payload.matchEntries := Some [] |}) = true /\
  _is_same_type
    (with_locale {| Payload.localeTag := None; Payload.matchEntries := None;
                    Payload.headerRegExps :=
                      Some [ {| Payload.regExp := Some "zip"; Payload.confidence := None;
                                Payload.mandatory := None |} ] |})
    (with_locale {| Payload.localeTag := None; Payload.matchEntries := None;
                    Payload.headerRegExps :=
                      Some [ {| Payload.regExp := Some "zip"; Payload.confidence := Some 95;
                                Payload.mandatory := Some false |} ] |}) = true.
Proof. vm_compute. split; reflexivity. Qed.

(** ** Type lifecycle manager: requests, cache and clearing *)

Section LifecycleMoreFacts.

Variable int_of_str : string -> option Z.
Variable str_upper : string -> string.
Variable str_isdigit : string -> bool.
Variable re_search : string -> string -> result bool.
Variable Registry : Type.
Variable serve : registry_request -> Registry -> http_outcome (list Payload.t) * Registry.
Variable serve_cleanup :
  cleanup_request -> Registry -> http_outcome (list Payload.t) * Registry.

Abbreviation world := (world Registry).
Abbreviation create := (create_custom_type int_of_str str_upper str_isdigit re_search Registry serve).
Abbreviation upsert := (_upsert_custom_type Registry serve).
Abbreviation valid := (_is_valid_generated_type re_search Registry).
Abbreviation refresh := (_refresh_existing_types_cache Registry serve).
Abbreviation clear := (clear_custom_types Registry serve_cleanup).

(** Whatever stops a submission before the upsert leaves the world alone. *)
Lemma create_stops_early g (w : world) :
  (valid g w).1 <> Ok true \/
  (forall p, _build_custom_type_payload int_of_str str_upper str_isdigit g <> Ok (Some p)) ->
  create g w = (Ok false, w).
Proof.
  intros H. unfold create_custom_type, mcatch, mbind at 1.
  destruct (valid_pure re_search Registry g w) as (r & Hv & _). rewrite Hv in *.
  cbn [fst] in H.
  destruct r as [[]|e]; cbn [negb]; try reflexivity.
  destruct H as [H|H]; [done|].
  unfold mbind, mlift.
  destruct (_build_custom_type_payload int_of_str str_upper str_isdigit g) as [[p|]|e]; try reflexivity.
  by destruct (H p).
Qed.

Lemma build_regex_without_pattern g :
  GeneratedType.pluginType g = Some "regex" ->
  PyStr.strip (or_str (GeneratedType.regexPattern g) "") = "" ->
  forall p, _build_custom_type_payload int_of_str str_upper str_isdigit g <> Ok (Some p).
Proof.
  intros Hp Hb p. unfold _build_custom_type_payload. rewrite Hp. cbn [required rbind].
  destruct (resolve_threshold _ _) as [t|]; [|done]. cbn [rbind].
  destruct (required (GeneratedType.semanticType g)) as [st|]; [|done]. cbn [rbind].
  destruct (required (GeneratedType.description g)) as [ds|]; [|done]. cbn [rbind].
  destruct (py_int _ _) as [pr|]; [|done]. cbn [rbind].
  cbn [String.eqb Ascii.eqb Bool.eqb andb]. unfold _add_regex_content.
  rewrite Hb. done.
Qed.

(** X16.  A generated type that fails validation never reaches the
    registry: with plugin kind [java], with an empty or missing name,
    description or plugin kind, with a name that the name filter does not
    match (or a filter that raises), or with a [regex] kind and a missing
    or blank pattern, [create_custom_type] returns false and leaves the
    evaluator, the registry and the list of requests as they were. *)
Theorem X16_invalid_type_sends_nothing (g : GeneratedType.t) (w : world) :
  GeneratedType.pluginType g = Some "java" \/
  opt_truthy (GeneratedType.semanticType g) = false \/
  opt_truthy (GeneratedType.description g) = false \/
  opt_truthy (GeneratedType.pluginType g) = false \/
  (opt_truthy (_only_types_regex (self Registry w)) = true /\
   re_search (default "" (_only_types_regex (self Registry w)))
             (default "" (GeneratedType.semanticType g)) <> Ok true) \/
  (GeneratedType.pluginType g = Some "regex" /\
   PyStr.strip (or_str (GeneratedType.regexPattern g) "") = "") ->
  create g w = (Ok false, w).
Proof.
  intros H. apply create_stops_early.
  destruct H as [H|[H|[H|[H|[[H1 H2]|[H1 H2]]]]]];
    [left..|right; by apply build_regex_without_pattern].
  all: unfold _is_valid_generated_type, mbind, get_self, mlift, mret.
  all: destruct (opt_truthy (_only_types_regex (self Registry w))) eqn:Hf;
    [destruct (re_search _ _) as [[]|] eqn:Hre|]; cbn [negb fst]; try done.
  all: rewrite ?H; cbn [negb].
  all: repeat case_match; cbn [fst]; try done.
  all: try (by rewrite bool_decide_eq_true_2 in *).
Qed.

(** The cache that the refresh loop builds: the last listed entry of a
    name wins, and an entry without a name is left out. *)
Lemma cache_fold_lookup (types : list Payload.t) (name : string) :
  fold_left cache_step types (∅ : gmap string Payload.t) !! name =
  if PyStr.truthy name
  then last (filter (fun t => Payload.semanticType t = Some name) types)
  else None.
Proof.
  induction types as [|t types IH] using rev_ind.
  - cbn. by destruct (PyStr.truthy name).
  - rewrite fold_left_app, filter_app. cbn [fold_left]. unfold cache_step at 1.
    rewrite filter_cons, filter_nil.
    destruct (Payload.semanticType t) as [n|] eqn:Hn; cbn [opt_truthy default from_option id].
    + destruct (PyStr.truthy n) eqn:Ht.
      * destruct (decide (n = name)) as [->|Hne].
        -- rewrite lookup_insert_eq, Ht.
           rewrite decide_True by done. by rewrite last_snoc.
        -- rewrite lookup_insert_ne by done. rewrite IH.
           rewrite decide_False by congruence. by rewrite app_nil_r.
      * rewrite IH. destruct (decide (Some n = Some name)) as [[= ->]|Hne].
        -- by rewrite Ht.
        -- by rewrite app_nil_r.
    + rewrite IH. rewrite decide_False by done. by rewrite app_nil_r.
Qed.

Lemma refresh_frame (w : world) :
  exists w' : world,
    refresh w = (Ok tt, w') /\
    sent Registry w' = (sent Registry w ++ [GetCustomOnly])%list /\
    registry Registry w' = (serve GetCustomOnly (registry Registry w)).2 /\
    _created_types (self Registry w') = _created_types (self Registry w) /\
    _only_types_regex (self Registry w') = _only_types_regex (self Registry w) /\
    _dry_run_create (self Registry w') = _dry_run_create (self Registry w) /\
    _existing_types_cache (self Registry w') =
      match (serve GetCustomOnly (registry Registry w)).1 with
      | Response st (Some types) =>
          if st =? 200 then fold_left cache_step types ∅
          else _existing_types_cache (self Registry w)
      | _ => _existing_types_cache (self Registry w)
      end.
Proof.
  unfold _refresh_existing_types_cache, mcatch, mbind at 1, http.
  destruct (serve GetCustomOnly (registry Registry w)) as [[st body|e] reg'];
    cbn [fst snd].
  - destruct (st =? 200).
    + destruct body as [types|]; cbn; eexists; split_and!; reflexivity.
    + destruct body as [types|]; cbn; eexists; split_and!; reflexivity.
  - cbn. eexists; split_and!; reflexivity.
Qed.

(** X19.  [_refresh_existing_types_cache] never raises.  It sends one
    read request and nothing else, and leaves the set of created types,
    the name filter and the dry-run flag alone.  When the registry answers
    200 with a JSON list, the cache is replaced: a name is cached exactly
    when it is non-empty and some listed type carries it, and its entry is
    the last listed type with that name.  On any other status, on a body
    that is not JSON, and when the request raises, the cache is kept. *)
Theorem X19_refresh_replaces_cache (w : world) :
  exists w' : world,
    refresh w = (Ok tt, w') /\
    sent Registry w' = (sent Registry w ++ [GetCustomOnly])%list /\
    _created_types (self Registry w') = _created_types (self Registry w) /\
    _only_types_regex (self Registry w') = _only_types_regex (self Registry w) /\
    _dry_run_create (self Registry w') = _dry_run_create (self Registry w) /\
    match (serve GetCustomOnly (registry Registry w)).1 with
    | Response st (Some types) =>
        if st =? 200
        then forall name,
               _existing_types_cache (self Registry w') !! name =
               if PyStr.truthy name
               then last (filter (fun t => Payload.semanticType t = Some name) types)
               else None
        else _existing_types_cache (self Registry w') = _existing_types_cache (self Registry w)
    | _ => _existing_types_cache (self Registry w') = _existing_types_cache (self Registry w)
    end.
Proof.
  destruct (refresh_frame w) as (w' & Hr & Hs & _ & Hc & Hre & Hd & Hcache).
  exists w'. split_and!; try done.
  destruct (serve GetCustomOnly (registry Registry w)).1 as [st [types|]|e]; try done.
  destruct (st =? 200); [|done].
  intros name. rewrite Hcache. apply cache_fold_lookup.
Qed.


(** One request of the session changes the registry and the list of
    requests only. *)
Lemma http_frame r (w : world) :
  exists res (w' : world),
    http Registry serve r w = (res, w') /\
    self Registry w' = self Registry w /\
    sent Registry w' = (sent Registry w ++ [r])%list.
Proof.
  destruct (http Registry serve r w) as [res w'] eqn:Hh.
  destruct (http_run Registry serve _ _ _ _ Hh). eauto.
Qed.

(** Everything one upsert can do. *)
Lemma upsert_run p (w : world) :
  exists r (w' : world) reqs,
    upsert p w = (r, w') /\
    sent Registry w' = (sent Registry w ++ reqs)%list /\
    (length reqs <= 3)%nat /\
    0 <= count_if is_write reqs <= 2 /\
    Forall (fun q => match q with
                     | GetCustomOnly => True
                     | PostType c => c = Payload.set_ephemeral true p
                     | PutType n c =>
                         c = Payload.set_ephemeral true p /\
                         Payload.semanticType p = Some n
                     end) reqs /\
    _only_types_regex (self Registry w') = _only_types_regex (self Registry w) /\
    _dry_run_create (self Registry w') = _dry_run_create (self Registry w) /\
    (_dry_run_create (self Registry w) = true ->
     r <> Ok true /\ count_if is_write reqs = 0) /\
    (r = Ok true ->
     exists name,
       Payload.semanticType p = Some name /\
       _created_types (self Registry w') = {[name]} ∪ _created_types (self Registry w) /\
       _existing_types_cache (self Registry w') !! name
         = Some (Payload.set_ephemeral true p) /\
       1 <= count_if is_write reqs) /\
    (r <> Ok true ->
     _created_types (self Registry w') = _created_types (self Registry w)).
Proof.
  unfold _upsert_custom_type, mbind at 1, get_self at 1.
  assert (Hr : exists (w0 : world) pre,
             (if bool_decide (_existing_types_cache (self Registry w) = ∅)
              then refresh else mret Registry tt) w = (Ok tt, w0) /\
             sent Registry w0 = (sent Registry w ++ pre)%list /\
             (pre = [] \/ pre = [GetCustomOnly]) /\
             _created_types (self Registry w0) = _created_types (self Registry w) /\
             _only_types_regex (self Registry w0) = _only_types_regex (self Registry w) /\
             _dry_run_create (self Registry w0) = _dry_run_create (self Registry w)).
  { destruct (bool_decide _).
    - destruct (refresh_frame w) as (w0 & ? & ? & ? & ? & ? & ? & ?).
      exists w0, [GetCustomOnly]. split_and!; auto.
    - exists w, []. rewrite app_nil_r. split_and!; auto. }
  destruct Hr as (w0 & pre & Hr & Hs0 & Hpre & Hc0 & Hre0 & Hd0).
  assert (Hpre' : (length pre <= 1)%nat /\ count_if is_write pre = 0 /\
                  Forall (fun q => match q with
                     | GetCustomOnly => True
                     | PostType c => c = Payload.set_ephemeral true p
                     | PutType n c =>
                         c = Payload.set_ephemeral true p /\
                         Payload.semanticType p = Some n
                     end) pre).
  { destruct Hpre as [-> | ->]; split_and!; cbn; auto. }
  clear Hpre. destruct Hpre' as (Hlen & Hcnt & Hall).
  unfold mbind at 1. rewrite Hr.
  unfold mbind at 1, get_self at 1.
  unfold mbind at 1, mlift at 1.
  destruct (Payload.semanticType p) as [name|] eqn:Hname; cbn [required].
  2:{ exists (Raise KeyError), w0, pre. split_and!; try done; try lia;
        try (intros _; split; [done|lia]). }
  destruct (match _existing_types_cache (self Registry w0) !! name with
            | Some e => _is_same_type e p | None => false end).
  { exists (Ok false), w0, pre. unfold mret. split_and!; try done; try lia;
      try (intros _; split; [done|lia]). }
  destruct (_dry_run_create (self Registry w0)) eqn:Hdry.
  { exists (Ok false), w0, pre. unfold mret. split_and!; try done; try lia;
      try congruence; try (intros _; split; [done|lia]). }
  assert (Hnodry : _dry_run_create (self Registry w) = true -> False) by congruence.
  set (is_put := bool_decide (is_Some (_existing_types_cache (self Registry w0) !! name))).
  set (p' := Payload.set_ephemeral true p).
  set (ok := fun q => match q with
                      | GetCustomOnly => True
                      | PostType c => c = p'
                      | PutType n c => c = p' /\ Some name = Some n
                      end) in *.
  set (r1 := if is_put then PutType name p' else PostType p').
  assert (Hr1 : is_write r1 = true /\ ok r1).
  { subst r1. destruct is_put; cbn; auto. }
  destruct Hr1 as [Hw1 Hok1].
  unfold mbind at 1.
  destruct (http_frame r1 w0) as (res1 & w2 & Hh1 & Hself2 & Hs2). rewrite Hh1.
  destruct res1 as [resp1|e].
  2:{ exists (Raise e), w2, (pre ++ [r1])%list.
      rewrite Hs2, Hs0, Hself2, <- (assoc_L (++)).
      rewrite count_if_app, count_if_cons, count_if_nil, Hw1, length_app.
      cbn [length]. split_and!; try done; try lia; try congruence.
      apply Forall_app. split; [done|]. by apply Forall_singleton. }
  unfold mbind at 1.
  assert (Hf : exists res (w3 : world) ws,
            (if (resp1.1 =? 404) && is_put then http Registry serve (PostType p')
             else if (resp1.1 =? 409) && negb is_put
                  then http Registry serve (PutType name p')
                  else mret Registry resp1) w2 = (res, w3) /\
            self Registry w3 = self Registry w2 /\
            sent Registry w3 = (sent Registry w2 ++ ws)%list /\
            (length ws <= 1)%nat /\ 0 <= count_if is_write ws <= 1 /\ Forall ok ws).
  { destruct (_ && _).
    - destruct (http_frame (PostType p') w2) as (res & w3 & Hh2 & ? & ?).
      exists res, w3, [PostType p']. split_and!; try done; try (cbn; lia).
      by apply Forall_singleton.
    - destruct (_ && _).
      + destruct (http_frame (PutType name p') w2) as (res & w3 & Hh2 & ? & ?).
        exists res, w3, [PutType name p']. split_and!; try done; try (cbn; lia).
        by apply Forall_singleton.
      + exists (Ok resp1), w2, []. rewrite app_nil_r. split_and!; try done; cbn; lia. }
  destruct Hf as (res & w3 & ws & Hf & Hself3 & Hs3 & Hlen3 & Hcnt3 & Hok3).
  rewrite Hf.
  assert (Hsent : sent Registry w3 = (sent Registry w ++ (pre ++ r1 :: ws))%list).
  { rewrite Hs3, Hs2, Hs0, <- !(assoc_L (++)). done. }
  assert (Hcount : 1 <= count_if is_write (pre ++ r1 :: ws) <= 2).
  { rewrite count_if_app, count_if_cons, Hw1. lia. }
  assert (Hlength : (length (pre ++ r1 :: ws) <= 3)%nat).
  { rewrite length_app. cbn [length]. lia. }
  assert (Hforall : Forall ok (pre ++ r1 :: ws)).
  { apply Forall_app. split; [done|]. by apply Forall_cons. }
  destruct res as [resp2|e].
  2:{ exists (Raise e), w3, (pre ++ r1 :: ws)%list.
      rewrite Hself3, Hself2. split_and!; try done; try lia; congruence. }
  destruct (is_success resp2.1).
  - unfold mbind, get_self, put_self, mret.
    exists (Ok true), {| self := set_cache (<[name:=p']> (_existing_types_cache (self Registry w3)))
                                   (set_created ({[name]} ∪ _created_types (self Registry w3))
                                      (self Registry w3));
                         registry := registry Registry w3;
                         sent := sent Registry w3 |},
           (pre ++ r1 :: ws)%list.
    cbn [self sent set_cache set_created _only_types_regex _dry_run_create
         _created_types _existing_types_cache].
    rewrite Hself3, Hself2. split_and!; try done; try lia; try congruence.
    intros _. exists name. rewrite lookup_insert_eq, Hc0. split_and!; try done; lia.
  - exists (Ok false), w3, (pre ++ r1 :: ws)%list. unfold mret.
    rewrite Hself3, Hself2. split_and!; try done; try lia; congruence.
Qed.


(** A submission is the validation, the payload builder and at most one
    upsert, with every exception turned into false. *)
Lemma create_run g (w : world) :
  create g w = (Ok false, w) \/
  exists p, _build_custom_type_payload int_of_str str_upper str_isdigit g = Ok (Some p) /\
            create g w = (match (upsert p w).1 with
                          | Ok b => Ok b
                          | Raise _ => Ok false
                          end, (upsert p w).2).
Proof.
  unfold create_custom_type, mcatch, mbind, mlift.
  destruct (valid_pure re_search Registry g w) as (r & Hv & _). rewrite !Hv.
  destruct r as [[]|e]; cbn [negb]; auto.
  destruct (_build_custom_type_payload int_of_str str_upper str_isdigit g) as [[p|]|e]; auto.
  right. exists p. split; [done|].
  by destruct (upsert p w) as [[b|e] w'].
Qed.

(** X17.  In dry-run mode ([_dry_run_create] set) a submission never
    succeeds and never writes: [create_custom_type] returns false, the
    count of write requests and the set of created types are unchanged,
    and the mode stays on. *)
Theorem X17_dry_run_never_writes (g : GeneratedType.t) (w : world) :
  _dry_run_create (self Registry w) = true ->
  exists w' : world,
    create g w = (Ok false, w') /\
    writes Registry w' = writes Registry w /\
    _created_types (self Registry w') = _created_types (self Registry w) /\
    _dry_run_create (self Registry w') = true.
Proof.
  intros Hdry. destruct (create_run g w) as [H|(p & _ & H)].
  - exists w. by rewrite H.
  - destruct (upsert_run p w)
      as (r & w' & reqs & Hu & Hs & _ & _ & _ & _ & Hd & Hdr & _ & Hc).
    destruct (Hdr Hdry) as [Hr Hcnt].
    rewrite H, Hu. cbn [fst snd]. exists w'. split_and!.
    + destruct r as [[]|e]; done.
    + unfold writes. rewrite Hs, count_if_app. lia.
    + by apply Hc.
    + by rewrite Hd.
Qed.

(** X18.  What one submission can do.  [create_custom_type] never raises.
    It sends at most three requests, of which at most two are writes;
    every write carries the payload built for the type with the ephemeral
    flag set, and an update is addressed to the name of that payload.  The
    name filter and the dry-run flag are never changed.  When it returns
    true, at least one write was sent, the name of the payload has joined
    the created types and the cache holds the flagged payload under that
    name; when it returns false the set of created types is unchanged. *)
Theorem X18_submission_effects (g : GeneratedType.t) (w : world) :
  exists (b : bool) (w' : world) reqs,
    create g w = (Ok b, w') /\
    sent Registry w' = (sent Registry w ++ reqs)%list /\
    (length reqs <= 3)%nat /\
    0 <= count_if is_write reqs <= 2 /\
    Forall (fun q =>
              match q with
              | GetCustomOnly => True
              | PostType c =>
                  exists p, _build_custom_type_payload int_of_str str_upper str_isdigit g = Ok (Some p) /\
                            c = Payload.set_ephemeral true p
              | PutType n c =>
                  exists p, _build_custom_type_payload int_of_str str_upper str_isdigit g = Ok (Some p) /\
                            c = Payload.set_ephemeral true p /\
                            Payload.semanticType p = Some n
              end) reqs /\
    _only_types_regex (self Registry w') = _only_types_regex (self Registry w) /\
    _dry_run_create (self Registry w') = _dry_run_create (self Registry w) /\
    if b
    then exists name p,
           _build_custom_type_payload int_of_str str_upper str_isdigit g = Ok (Some p) /\
           Payload.semanticType p = Some name /\
           _created_types (self Registry w') = {[name]} ∪ _created_types (self Registry w) /\
           _existing_types_cache (self Registry w') !! name
             = Some (Payload.set_ephemeral true p) /\
           1 <= count_if is_write reqs
    else _created_types (self Registry w') = _created_types (self Registry w).
Proof.
  destruct (create_run g w) as [H|(p & Hb & H)].
  - exists false, w, []. rewrite app_nil_r. split_and!; try done; cbn; lia.
  - destruct (upsert_run p w)
      as (r & w' & reqs & Hu & Hs & Hlen & Hcnt & Hall & Hre & Hd & _ & Ht & Hf).
    rewrite H, Hu. cbn [fst snd].
    assert (Hall' : Forall (fun q =>
              match q with
              | GetCustomOnly => True
              | PostType c =>
                  exists p, _build_custom_type_payload int_of_str str_upper str_isdigit g = Ok (Some p) /\
                            c = Payload.set_ephemeral true p
              | PutType n c =>
                  exists p, _build_custom_type_payload int_of_str str_upper str_isdigit g = Ok (Some p) /\
                            c = Payload.set_ephemeral true p /\
                            Payload.semanticType p = Some n
              end) reqs).
    { eapply Forall_impl; [exact Hall|]. intros [|c|n c]; cbn; [done|..].
      - intros ->. eauto.
      - intros [-> ?]. eauto. }
    destruct r as [[]|e].
    + exists true, w', reqs. split_and!; try done; try lia.
      destruct (Ht eq_refl) as (name & ? & ? & ? & ?). exists name, p. done.
    + exists false, w', reqs. split_and!; try done; try lia. by apply Hf.
    + exists false, w', reqs. split_and!; try done; try lia. by apply Hf.
Qed.


(** The delete loop sends its deletes in the order of the names, and has
    sent all of them when it ran to its end. *)
Lemma delete_each_log names reg :
  (delete_each Registry serve_cleanup names reg).2
    `prefix_of` (DeleteType <$> names) /\
  ((delete_each Registry serve_cleanup names reg).1.1 = true ->
   (delete_each Registry serve_cleanup names reg).2 = DeleteType <$> names).
Proof.
  revert reg. induction names as [|name names IH]; intros reg; cbn [delete_each].
  - done.
  - destruct (serve_cleanup (DeleteType name) reg) as [[st body|e] reg'].
    + specialize (IH reg').
      destruct (delete_each Registry serve_cleanup names reg') as [[fin reg''] log].
      cbn [fst snd fmap list_fmap] in *. destruct IH as [IH1 IH2]. split.
      * by apply prefix_cons.
      * intros Hf. by rewrite (IH2 Hf).
    + cbn [fst snd fmap list_fmap]. split; [|done].
      apply prefix_cons, prefix_nil.
Qed.

(** The loop is left early only by a delete that raises. *)
Lemma delete_each_finishes names reg :
  (forall name reg0, exists st body reg1,
      serve_cleanup (DeleteType name) reg0 = (Response st body, reg1)) ->
  (delete_each Registry serve_cleanup names reg).1.1 = true.
Proof.
  intros Hserve. revert reg.
  induction names as [|name names IH]; intros reg; cbn [delete_each]; [done|].
  destruct (Hserve name reg) as (st & body & reg' & ->).
  specialize (IH reg').
  by destruct (delete_each Registry serve_cleanup names reg') as [[fin reg''] log].
Qed.

(** Neither way of clearing touches the cache, the name filter, the
    dry-run flag or the list of requests of the upsert. *)
Lemma clear_frame preserve (w : world) :
  _existing_types_cache (self Registry (clear preserve w).1)
    = _existing_types_cache (self Registry w) /\
  _only_types_regex (self Registry (clear preserve w).1)
    = _only_types_regex (self Registry w) /\
  _dry_run_create (self Registry (clear preserve w).1)
    = _dry_run_create (self Registry w) /\
  sent Registry (clear preserve w).1 = sent Registry w.
Proof.
  unfold clear_custom_types, _clear_all_custom_types.
  destruct preserve.
  - destruct (bool_decide _); [done|].
    destruct (delete_each _ _ _ _) as [[[] reg'] log]; done.
  - destruct (serve_cleanup ListCustomTypes _) as [[st body|e] reg']; [|done].
    destruct (negb _); [done|].
    destruct (response_json body) as [types|e]; [|done].
    destruct (delete_each _ _ _ _) as [[fin reg''] log]; done.
Qed.

(** X20.  What clearing sends and what it forgets.  With
    [preserve_existing] the requests are deletes of the created types, in
    the order in which the set is iterated, and nothing is sent when the
    set is empty; the set is emptied when the loop ran to its end and is
    kept as it was when a delete raised.  Without [preserve_existing] the
    first request lists the custom types; deletes follow only after a 200
    answer with a JSON list and go, in order, to the listed names that are
    non-empty; the set of created types is never changed.  Neither mode
    changes the cache of existing types, the name filter or the dry-run
    flag. *)
Theorem X20_clearing_requests (preserve_existing : bool) (w : world) :
  let w' := (clear preserve_existing w).1 in
  let log := (clear preserve_existing w).2 in
  _existing_types_cache (self Registry w') = _existing_types_cache (self Registry w) /\
  _only_types_regex (self Registry w') = _only_types_regex (self Registry w) /\
  _dry_run_create (self Registry w') = _dry_run_create (self Registry w) /\
  if preserve_existing then
    let created := elements (_created_types (self Registry w)) in
    (log = DeleteType <$> created /\ _created_types (self Registry w') = ∅) \/
    (log `prefix_of` (DeleteType <$> created) /\ log <> [] /\
     _created_types (self Registry w') = _created_types (self Registry w))
  else
    _created_types (self Registry w') = _created_types (self Registry w) /\
    exists deletes,
      log = ListCustomTypes :: deletes /\
      match (serve_cleanup ListCustomTypes (registry Registry w)).1 with
      | Response status_code (Some custom_types) =>
          if status_code =? 200
          then deletes `prefix_of` (DeleteType <$> names_to_clear custom_types)
          else deletes = []
      | _ => deletes = []
      end.
Proof.
  intros w' log.
  destruct (clear_frame preserve_existing w) as (Hc & Hre & Hd & _).
  split_and!; try done.
  subst w' log. clear Hc Hre Hd.
  unfold clear_custom_types, _clear_all_custom_types. destruct preserve_existing.
  - cbn zeta. destruct (bool_decide _) eqn:Hem.
    + apply bool_decide_eq_true in Hem. left. cbn [fst snd].
      by rewrite Hem, elements_empty.
    + apply bool_decide_eq_false in Hem.
      pose proof (delete_each_log (elements (_created_types (self Registry w)))
                    (registry Registry w)) as [Hp Hf].
      destruct (delete_each _ _ _ _) as [[[] reg'] dl] eqn:Hde; cbn [fst snd] in *.
      * left. by rewrite Hf.
      * right. split_and!; try done.
        intros ->.
        destruct (elements (_created_types (self Registry w))) as [|n ns] eqn:Hel.
        { by apply elements_empty_inv, leibniz_equiv in Hel. }
        cbn [delete_each] in Hde.
        destruct (serve_cleanup (DeleteType n) _) as [[st body|e] reg1]; [|done].
        by destruct (delete_each _ _ _ _) as [[fin reg''] dl'].
  - destruct (serve_cleanup ListCustomTypes _) as [[st body|e] reg']; cbn [fst snd].
    + destruct (st =? 200); cbn [negb fst snd].
      * destruct body as [types|]; cbn [response_json fst snd].
        -- pose proof (delete_each_log (names_to_clear types) reg') as [Hp _].
           destruct (delete_each _ _ _ _) as [[fin reg''] dl]. cbn [fst snd] in *.
           split; [done|]. by exists dl.
        -- split; [done|]. by exists [].
      * split; [done|]. exists []. by destruct body.
    + split; [done|]. by exists [].
Qed.

(** X21.  In the [preserve_existing] mode the set of created types is
    emptied whenever no delete raises, whatever statuses the registry
    answers: a type whose delete was refused is forgotten all the same,
    and a second clearing sends no request for it. *)
Theorem X21_refused_deletes_are_forgotten (w : world) :
  (forall name reg, exists status_code body reg',
      serve_cleanup (DeleteType name) reg = (Response status_code body, reg')) ->
  _created_types (self Registry (clear true w).1) = ∅ /\
  (clear true (clear true w).1).2 = [].
Proof.
  intros Hserve.
  assert (H : _created_types (self Registry (clear true w).1) = ∅).
  { unfold clear_custom_types.
    destruct (bool_decide _) eqn:Hem; [by apply bool_decide_eq_true in Hem|].
    pose proof (delete_each_finishes (elements (_created_types (self Registry w)))
                  (registry Registry w) Hserve) as Hfin.
    destruct (delete_each _ _ _ _) as [[fin reg'] dl]. cbn [fst snd] in Hfin.
    by rewrite Hfin. }
  split; [done|].
  unfold clear_custom_types at 1. by rewrite H, bool_decide_eq_true_2.
Qed.

(** X22.  Clearing leaves a stale cache behind.  After a submission that
    succeeded, clearing the custom types in either mode, whatever the
    registry deletes, does not make the evaluator submit the type again:
    the next submission of the same generated type finds its payload in
    the cache, returns false and sends no request. *)
Theorem X22_resubmission_after_clearing_is_skipped
    (g : GeneratedType.t) (preserve_existing : bool) (w w1 : world) :
  create g w = (Ok true, w1) ->
  let w2 := (clear preserve_existing w1).1 in
  create g w2 = (Ok false, w2).
Proof.
  intros H1 w2.
  destruct (clear_frame preserve_existing w1) as (Hcache & Hregex & _ & _).
  fold w2 in Hcache, Hregex.
  destruct (create_run g w) as [H|(p & Hb & H)]; [congruence|].
  rewrite H in H1.
  destruct (upsert p w) as [[[]|e] w'] eqn:Hu; cbn [fst snd] in H1; try discriminate.
  injection H1 as <-.
  destruct (upsert_true_run Registry serve p w w' Hu) as (name & Hn & Hc & _ & _).
  destruct (create_run g w2) as [H2|(p2 & Hb2 & H2)]; [done|].
  rewrite Hb in Hb2. injection Hb2 as <-.
  rewrite H2.
  rewrite (upsert_skips_cached Registry serve p name (Payload.set_ephemeral true p) w2);
    [done|done| |apply same_type_ephemeral].
  by rewrite Hcache.
Qed.

End LifecycleMoreFacts.

(** ** Session bookkeeping *)

Lemma update_each_len {A} (l : list A) (n : Z) : update_each l n = n + len l.
Proof.
  unfold update_each. revert n.
  induction l as [|x l IH]; intros n; cbn [fold_left].
  - unfold len. cbn. lia.
  - rewrite IH, len_cons. lia.
Qed.

(** What the loop over the candidate tags has collected, started from any
    list [uniq] whose members are the ones of [seen]. *)
Lemma unique_fold (cs uniq : list string) (seen : gset string) :
  (forall c, c ∈ seen <-> c ∈ uniq) ->
  NoDup uniq ->
  exists new,
    (fold_left unique_step cs (uniq, seen)).1 = (uniq ++ new)%list /\
    NoDup (uniq ++ new) /\
    (forall c, c ∈ new <-> c ∈ cs /\ c <> "" /\ c ∉ uniq) /\
    new `sublist_of` cs.
Proof.
  revert uniq seen. induction cs as [|c cs IH]; intros uniq seen Hseen Hnd.
  - exists []. cbn. rewrite app_nil_r. split_and!; try done.
    intros c. split; [by intros ?%elem_of_nil|]. by intros [?%elem_of_nil _].
  - cbn [fold_left unique_step].
    destruct (PyStr.truthy c && negb (bool_decide (c ∈ seen))) eqn:Hc.
    + apply andb_true_iff in Hc as [Ht Hn].
      apply negb_true_iff, bool_decide_eq_false in Hn.
      assert (Hne : c <> "").
      { intros ->. done. }
      assert (Hnu : c ∉ uniq) by (by rewrite <- Hseen).
      destruct (IH (uniq ++ [c])%list ({[c]} ∪ seen)) as (new & Hf & Hnd' & Hmem & Hsub).
      * intros x. rewrite elem_of_union, elem_of_singleton, elem_of_app, Hseen.
        rewrite (list_elem_of_singleton x c). tauto.
      * apply NoDup_app. split_and!; [done| |apply NoDup_singleton].
        intros x Hx ->%list_elem_of_singleton. done.
      * exists (c :: new). rewrite Hf, <- (assoc_L (++)). cbn [app] in *.
        rewrite <- (assoc_L (++)) in Hnd'. cbn [app] in Hnd'.
        split_and!; try done; [|by apply sublist_skip].
        intros x. rewrite !elem_of_cons, Hmem, elem_of_app.
        rewrite (list_elem_of_singleton x c).
        destruct (decide (x = c)) as [->|Hxc]; [tauto|]. tauto.
    + destruct (IH uniq seen Hseen Hnd) as (new & Hf & Hnd' & Hmem & Hsub).
      exists new. split_and!; try done; [|by apply sublist_cons].
      intros x. rewrite Hmem, elem_of_cons. split; [tauto|].
      intros ([->|Hx] & Hne & Hnu); [|done].
      exfalso. apply andb_false_iff in Hc as [Hc|Hc].
      * unfold PyStr.truthy in Hc. apply negb_false_iff, String.eqb_eq in Hc. done.
      * apply negb_false_iff, bool_decide_eq_true in Hc. by apply Hnu, Hseen.
Qed.

(** A list of distinct non-empty tags passes the loop unchanged. *)
Lemma unique_fold_fixed (l uniq : list string) (seen : gset string) :
  (forall c, c ∈ seen <-> c ∈ uniq) ->
  NoDup (uniq ++ l) ->
  Forall (fun c => c <> "") l ->
  (fold_left unique_step l (uniq, seen)).1 = (uniq ++ l)%list.
Proof.
  revert uniq seen. induction l as [|c l IH]; intros uniq seen Hseen Hnd Hne.
  - cbn. by rewrite app_nil_r.
  - cbn [fold_left unique_step].
    apply Forall_cons in Hne as [Hc Hne].
    assert (Hnu : c ∉ uniq).
    { apply NoDup_app in Hnd as (_ & Hd & _). intros Hin.
      apply (Hd c Hin). by left. }
    assert (Ht : PyStr.truthy c && negb (bool_decide (c ∈ seen)) = true).
    { apply andb_true_iff. split.
      - unfold PyStr.truthy. apply negb_true_iff, String.eqb_neq. done.
      - apply negb_true_iff, bool_decide_eq_false. by rewrite Hseen. }
    rewrite Ht, IH; [by rewrite <- (assoc_L (++))| | |done].
    + intros x. rewrite elem_of_union, elem_of_singleton, elem_of_app, Hseen.
      rewrite (list_elem_of_singleton x c). tauto.
    + by rewrite <- (assoc_L (++)).
Qed.

(** X23.  The progress bar of [run_comparative_evaluation] ends exactly
    at its total: when no step raises, the updates made for the baseline
    files and metrics and, per description, for the clearing, the load,
    every generated type, every file and the metrics add up to the
    [total_units] computed before the run, for any input files and any
    descriptions (repeated ones included). *)
Theorem X23_progress_reaches_total {File : Type} (input_files : list File)
    (desc_types : Z -> list GeneratedType.t) (descriptions : list Z) :
  bar_position input_files desc_types descriptions
  = total_units input_files desc_types descriptions.
Proof.
  assert (Hgen : forall a,
    fold_left (fun n desc_num =>
                 update_each input_files (update_each (desc_types desc_num) (n + 1 + 1)) + 1)
              descriptions a
    = fold_left (fun total d => total + (1 + 1 + len (desc_types d) + len input_files + 1))
                descriptions a).
  { induction descriptions as [|d ds IH]; intros n; cbn [fold_left]; [done|].
    rewrite IH, !update_each_len. f_equal. lia. }
  unfold bar_position, total_units. cbn zeta. rewrite Hgen, update_each_len.
  f_equal.
Qed.

Lemma unique_step_fresh uniq (seen : gset string) c :
  c <> "" -> c ∉ seen ->
  unique_step (uniq, seen) c = ((uniq ++ [c])%list, {[c]} ∪ seen).
Proof.
  intros Hc Hs. unfold unique_step, PyStr.truthy.
  rewrite (bool_decide_eq_false_2 _ Hs).
  apply String.eqb_neq in Hc. by rewrite Hc.
Qed.

Lemma unique_step_skip uniq (seen : gset string) c :
  c = "" \/ c ∈ seen -> unique_step (uniq, seen) c = (uniq, seen).
Proof.
  intros [->|Hs]; unfold unique_step; [done|].
  rewrite (bool_decide_eq_true_2 _ Hs). by rewrite andb_false_r.
Qed.

(** X24.  The tags under which generated types are searched.  The loop
    that removes duplicates keeps every non-empty candidate exactly once,
    in the order of first occurrence, and drops the empty ones.  Hence the
    second pass, which [_find_generated_types_file] makes over the dataset
    name followed by the candidates kept by [__init__], changes nothing:
    the search tags are the stored candidates, and a non-empty dataset
    name is searched first. *)
Theorem X24_unique_tags (dataset : string) (rest : list string) :
  let candidates := unique_tags (dataset :: rest) in
  NoDup candidates /\
  (forall c, c ∈ candidates <-> c ∈ dataset :: rest /\ c <> "") /\
  candidates `sublist_of` dataset :: rest /\
  unique_tags (dataset :: candidates) = candidates /\
  (dataset <> "" -> head candidates = Some dataset).
Proof.
  intros candidates.
  destruct (unique_fold (dataset :: rest) [] ∅) as (new & Hf & Hnd & Hmem & Hsub).
  { intros c. rewrite elem_of_nil. set_solver. }
  { apply NoDup_nil_2. }
  cbn [app] in Hf, Hnd.
  assert (Hc : candidates = new) by done.
  assert (Hne : Forall (fun c => c <> "") new).
  { apply Forall_forall. intros c Hin. by apply Hmem in Hin as (_ & ? & _). }
  assert (Hfix : unique_tags new = new).
  { unfold unique_tags. rewrite unique_fold_fixed; try done.
    intros c. rewrite elem_of_nil. set_solver. }
  assert (Hhead : dataset <> "" -> exists tl, new = dataset :: tl).
  { intros Hd. revert Hf. cbn [fold_left].
    rewrite unique_step_fresh by set_solver. cbn [app].
    destruct (unique_fold rest [dataset] ({[dataset]} ∪ ∅)) as (tl & Htl & _).
    { intros c. rewrite list_elem_of_singleton. set_solver. }
    { apply NoDup_singleton. }
    rewrite Htl. intros <-. by exists tl. }
  rewrite Hc. split_and!; try done.
  - intros c. rewrite Hmem. rewrite elem_of_nil. tauto.
  - destruct (decide (dataset = "")) as [->|Hd].
    + unfold unique_tags in *. cbn [fold_left].
      rewrite unique_step_skip by auto. exact Hfix.
    + destruct (Hhead Hd) as (tl & Htl).
      unfold unique_tags. cbn [fold_left].
      rewrite unique_step_fresh by set_solver. cbn [app].
      rewrite Htl at 1. cbn [fold_left].
      rewrite unique_step_skip by set_solver.
      rewrite unique_fold_fixed.
      * by rewrite Htl.
      * intros c. rewrite list_elem_of_singleton. set_solver.
      * cbn [app]. by rewrite <- Htl.
      * rewrite Htl in Hne. by apply Forall_cons in Hne as [_ ?].
  - intros Hd. destruct (Hhead Hd) as (tl & ->). done.
Qed.

Lemma X16_invalid_type_sends_nothing_witness :
  let g := {| GeneratedType.semanticType := Some "ZIP";
              GeneratedType.description := Some "";
              GeneratedType.pluginType := Some "regex";
              GeneratedType.baseType := None;
              GeneratedType.confidenceThreshold := PNone;
              GeneratedType.priority := PNone;
              GeneratedType.regexPattern := Some "^\d{5}$";
              GeneratedType.listValues := None;
              GeneratedType.backout := None;
              GeneratedType.headerPatterns := [] |} in
  create_custom_type (fun _ => None) PyStr.upper PyStr.isdigit
                     (fun _ _ => Ok true) (list Payload.t) accepting_registry
                     g (fresh_world [])
  = (Ok false, fresh_world []).
Proof.
  intros g.
  apply (X16_invalid_type_sends_nothing (fun _ => None) PyStr.upper PyStr.isdigit
           (fun _ _ => Ok true) (list Payload.t) accepting_registry
           g (fresh_world [])).
  right. right. left. reflexivity.
Defined.

Lemma X17_dry_run_never_writes_witness :
  let w := {| self := {| _created_types := ∅; _existing_types_cache := ∅;
                         _only_types_regex := None; _dry_run_create := true |};
              registry := []; sent := [] |} in
  exists w' : world (list Payload.t),
    create_custom_type (fun _ => None) PyStr.upper PyStr.isdigit
                     (fun _ _ => Ok true) (list Payload.t) accepting_registry
                     zip_type w = (Ok false, w') /\
    writes (list Payload.t) w' = writes (list Payload.t) w /\
    _created_types (self (list Payload.t) w') = _created_types (self (list Payload.t) w) /\
    _dry_run_create (self (list Payload.t) w') = true.
Proof.
  intros w.
  apply (X17_dry_run_never_writes (fun _ => None) PyStr.upper PyStr.isdigit
           (fun _ _ => Ok true) (list Payload.t) accepting_registry zip_type w).
  reflexivity.
Defined.

Lemma X21_refused_deletes_are_forgotten_witness :
  let w := (create_custom_type (fun _ => None) PyStr.upper PyStr.isdigit
                     (fun _ _ => Ok true) (list Payload.t) accepting_registry
                     zip_type (fresh_world [])).2 in
  let clear := clear_custom_types (list Payload.t) refusing_registry true in
  _created_types (self (list Payload.t) (clear w).1) = ∅ /\
  (clear (clear w).1).2 = [].
Proof.
  intros w clear.
  apply (X21_refused_deletes_are_forgotten (list Payload.t) refusing_registry w).
  intros name reg. exists 500, None, reg. reflexivity.
Defined.

Lemma X22_resubmission_after_clearing_is_skipped_witness :
  let create := create_custom_type (fun _ => None) PyStr.upper PyStr.isdigit
                     (fun _ _ => Ok true) (list Payload.t) accepting_registry in
  let w1 := (create zip_type (fresh_world [])).2 in
  let w2 := (clear_custom_types (list Payload.t) deleting_registry false w1).1 in
  create zip_type w2 = (Ok false, w2).
Proof.
  intros create w1.
  apply (X22_resubmission_after_clearing_is_skipped (fun _ => None) PyStr.upper PyStr.isdigit
           (fun _ _ => Ok true) (list Payload.t) accepting_registry
           deleting_registry zip_type false (fresh_world []) w1).
  vm_compute. reflexivity.
Defined.

(** The registry of the run above: the type is stored by the submission,
    kept by a registry that refuses the delete although the evaluator has
    forgotten it, and gone from a registry that deletes it although the
    evaluator still holds it in its cache. *)
Example clearing_small_run :
  let create := create_custom_type (fun _ => None) PyStr.upper PyStr.isdigit
                     (fun _ _ => Ok true) (list Payload.t) accepting_registry in
  let w1 := (create zip_type (fresh_world [])).2 in
  registry (list Payload.t) w1 = [Payload.set_ephemeral true zip_payload] /\
  clear_custom_types (list Payload.t) refusing_registry true w1
  = ({| self := set_created ∅ (self (list Payload.t) w1);
        registry := [Payload.set_ephemeral true zip_payload];
        sent := sent (list Payload.t) w1 |}, [DeleteType "ZIP"]) /\
  clear_custom_types (list Payload.t) deleting_registry false w1
  = ({| self := self (list Payload.t) w1; registry := [];
        sent := sent (list Payload.t) w1 |}, [ListCustomTypes; DeleteType "ZIP"]).
Proof. vm_compute. done. Qed.
